(** * html_auto_rename: filename resolution for HTML files

    A shallow embedding of the two implementations found in the repository,

    - [src/rename_html_files.py] (procedural, [rename_html_files]) and
    - [src/html_renamer/rename_html_files.py] (class based:
      [FilenameSanitizer], [HTMLFileProcessor], [FileRenamer]),

    together with the properties of their filename resolution pipeline:
    sanitizing, title extraction, ordering by creation time, collision
    handling, index prefixes and the per-file handling of errors. *)

From Stdlib Require Import ZArith NArith List String Ascii Lia Permutation.
From Stdlib Require Import Decimal DecimalString DecimalNat.
From stdpp Require Import base option list gmap sets sorting.

Local Open Scope list_scope.

(** ** Python strings

    A Python [str] is a sequence of Unicode code points.  A code point is a
    natural number; literals are written with [py]. *)

Abbreviation char := N.
Abbreviation str := (list N).

Definition py (s : string) : str := map N_of_ascii (list_ascii_of_string s).

(** [str.isspace] for one code point (CPython's [Py_UNICODE_ISSPACE]); the
    same test decides what [\s] matches in [re] on a [str] pattern and
    what [str.strip()] removes. *)
Definition isspace (c : N) : bool :=
  ((9 <=? c) && (c <=? 13) || (28 <=? c) && (c <=? 32)
   || (c =? 133) || (c =? 160) || (c =? 5760)
   || (8192 <=? c) && (c <=? 8202)
   || (c =? 8232) || (c =? 8233) || (c =? 8239) || (c =? 8287)
   || (c =? 12288))%N.

(** The character class of [INVALID_FILENAME_CHARS]: backslash, slash,
    colon, star, question mark, double quote, less-than, greater-than and
    vertical bar, by code point. *)
Definition INVALID_FILENAME_CHARS : list N :=
  [92; 47; 58; 42; 63; 34; 60; 62; 124]%N.

Definition invalid_char (c : N) : bool :=
  existsb (N.eqb c) INVALID_FILENAME_CHARS.

Definition SPACE_REPLACEMENT : str := py "_".

(** [re.sub(INVALID_FILENAME_CHARS, '', s)]: every match of the one
    character class is replaced by the empty string. *)
Definition remove_invalid (s : str) : str :=
  List.filter (fun c => negb (invalid_char c)) s.

(** [re.sub(r'\s+', repl, s)]: the scan goes left to right; at a white
    space character the greedy [\s+] takes the whole run, which is replaced
    by [repl].  [in_run] tells that the previous character belonged to a
    run that has already been replaced. *)
Fixpoint sub_spaces_from (in_run : bool) (repl s : str) : str :=
  match s with
  | [] => []
  | c :: r =>
      if isspace c
      then (if in_run then [] else repl) ++ sub_spaces_from true repl r
      else c :: sub_spaces_from false repl r
  end.

Definition sub_spaces (repl s : str) : str := sub_spaces_from false repl s.

(** [sanitize_filename] of the script and [FilenameSanitizer.sanitize] of
    the class based version are the same two substitutions. *)
Definition sanitize (filename : str) : str :=
  let sanitized := remove_invalid filename in
  let sanitized := sub_spaces SPACE_REPLACEMENT sanitized in
  sanitized.

Definition sanitize_filename (filename : str) : str :=
  let sanitized := remove_invalid filename in
  let sanitized := sub_spaces (py "_") sanitized in
  sanitized.

(** ** Text helpers

    [nonempty] is the truth value of a [str]; [strip] is [str.strip()]
    without arguments; [dec n] is what an f-string prints for the [int]
    [n]. *)

Definition nonempty (s : str) : bool :=
  match s with [] => false | _ :: _ => true end.

Fixpoint lstrip (s : str) : str :=
  match s with
  | [] => []
  | c :: r => if isspace c then lstrip r else s
  end.

Definition rstrip (s : str) : str := rev (lstrip (rev s)).

Definition strip (s : str) : str := rstrip (lstrip s).

Definition dec (n : nat) : str := py (NilEmpty.string_of_uint (Nat.to_uint n)).

(** ** The heading as BeautifulSoup hands it over

    [soup.find('h1', class_='panel__title')] is [None] or the first such
    tag.  Of a tag only its text nodes matter here: the strings among its
    descendants, in document order.  [text] is [Tag.text] (all strings
    joined), [get_text_strip] is [Tag.get_text(strip=True)] (every string
    stripped, the empty ones dropped, the rest joined). *)

Abbreviation tag := (list (list N)).

Definition text (h1 : tag) : str := concat h1.

Definition get_text_strip (h1 : tag) : str :=
  concat (List.filter nonempty (map strip h1)).

(** What opening and parsing one directory entry gives: an exception with
    its message, or a soup, of which the result of [find] is kept. *)
Inductive content :=
| Unreadable (e : list N)
| Soup (h1 : option (list (list N))).

(** The selected directory as the programs see it: the names [name] for
    which [os.path.exists(os.path.join(directory, name))] holds, each with
    what opening and parsing it gives; so [os.path.exists] is the presence
    of the key.  A name of the directory that does not exist in this sense
    (a symbolic link whose target is missing) is no key: here it is not
    told from a free name, and nothing below speaks of such entries. *)
Abbreviation folder := (gmap (list N) content).

Definition path_exists (d : folder) (name : str) : bool :=
  bool_decide (is_Some (d !! name)).

Definition ENOENT : str := py "[Errno 2] No such file or directory".

(** What the programs write to the log (class based) or print (script). *)
Inductive event :=
| NoHeading (filepath : list N)
| ProcessingError (filepath e : list N)
| Conflict (original new_name : list N)
| RenamedTo (original new_name : list N)
| RenameError (original new_name e : list N).

(** ** The operating system

    [os.rename] is left to the platform: any function from the directory
    and the two names to the message of the exception it raises, the
    directory then being as before, or to the new directory.
    [os.path.splitext] depends on the platform's separators only. *)
Record os_iface := {
  sep : N;
  altsep : option N;
  os_rename : gmap (list N) content -> list N -> list N -> list N + gmap (list N) content
}.

(** [str.rfind] of one character: the highest index, or -1. *)
Fixpoint rfind_from (i : Z) (c : N) (s : str) : Z :=
  match s with
  | [] => (-1)%Z
  | x :: r =>
      let j := rfind_from (i + 1) c r in
      if (0 <=? j)%Z then j else if N.eqb x c then i else (-1)%Z
  end.

Definition rfind (c : N) (s : str) : Z := rfind_from 0 c s.

Definition extsep : N := 46.

(** [genericpath._splitext]: split at the last dot, unless that dot comes
    before the last separator or only dots lead up to it. *)
Definition splitext (os : os_iface) (p : str) : str * str :=
  let sepIndex :=
    match altsep os with
    | Some a => Z.max (rfind (sep os) p) (rfind a p)
    | None => rfind (sep os) p
    end in
  let dotIndex := rfind extsep p in
  if (sepIndex <? dotIndex)%Z then
    let filenameIndex := (sepIndex + 1)%Z in
    let leading := take (Z.to_nat (dotIndex - filenameIndex))
                        (drop (Z.to_nat filenameIndex) p) in
    if forallb (N.eqb extsep) leading
    then (p, [])
    else (take (Z.to_nat dotIndex) p, drop (Z.to_nat dotIndex) p)
  else (p, []).

(** ** Scanner output and the sort

    Both scanners collect the name and [os.path.getctime] of every entry
    that ends in [.html]; the class based one in a dict per file, the
    script in a tuple; the scanned list is the input of what follows.
    Creation times are only compared, an integer stands for the float.
    [list.sort] and [sorted] are stable, so the result is the one of a
    stable insertion by key. *)
Record file_info := { filename : list N; ctime : Z }.

Fixpoint insert_by {A} (key : A -> Z) (x : A) (l : list A) : list A :=
  match l with
  | [] => [x]
  | y :: r => if (key x <=? key y)%Z then x :: l else y :: insert_by key x r
  end.

Definition sorted_by {A} (key : A -> Z) (l : list A) : list A :=
  foldr (insert_by key) [] l.

Definition sort_files_by_creation_date (html_files : list file_info) : list file_info :=
  sorted_by ctime html_files.

(** A loop whose body may fail to return. *)
Fixpoint run_loop {S A} (body : S -> A -> option S) (l : list A) (st : S) : option S :=
  match l with
  | [] => Some st
  | x :: r => match body st x with
              | Some st' => run_loop body r st'
              | None => None
              end
  end.

(** ** Class based version: [HTMLFileProcessor] and [FileRenamer] *)

(** [HTMLFileProcessor.extract_title]: the sanitized heading text or
    [None], and what is logged on the way. *)
Definition extract_title (d : folder) (filepath : str) : option str * list event :=
  match d !! filepath with
  | Some (Soup (Some h1)) =>
      if nonempty (get_text_strip h1)
      then (Some (sanitize (get_text_strip h1)), [])
      else (None, [NoHeading filepath])
  | Some (Soup None) => (None, [NoHeading filepath])
  | Some (Unreadable e) => (None, [ProcessingError filepath e])
  | None => (None, [ProcessingError filepath ENOENT])
  end.

(** The attributes of a [FileRenamer] that change during a run, with the
    directory it works on, the local [index] of the loop and the log. *)
Record renamer := {
  disk : gmap (list N) content;
  new_filenames_set : gset (list N);
  index : nat;
  renamed_files : list (list N * list N);
  skipped_files : list (list N * list N);
  log : list event
}.

(** [FileRenamer.__init__], and [index = 1]. *)
Definition renamer_init (d : folder) : renamer :=
  {| disk := d; new_filenames_set := ∅; index := 1;
     renamed_files := []; skipped_files := []; log := [] |}.

(** The reason recorded for a file without a title. *)
Definition NO_H1 : str :=
  py "No <h1 class=" ++ [34%N] ++ py "panel__title" ++ [34%N] ++ py "> found.".

(** The condition of the [while] of the duplicate handling. *)
Definition taken (names : gset (list N)) (d : folder) (new_name : str) : bool :=
  bool_decide (new_name ∈ names) || path_exists d new_name.

(** The [while] loop itself; [fuel] bounds the number of rounds. *)
Fixpoint dedup_loop (os : os_iface) (fuel : nat) (names : gset (list N)) (d : folder)
    (base_new_name : str) (duplicate_suffix : nat) (new_name : str) : option str :=
  if taken names d new_name then
    match fuel with
    | 0 => None
    | S fuel' =>
        let duplicate_suffix := S duplicate_suffix in
        let '(name, ext) := splitext os base_new_name in
        let new_name := name ++ py "_" ++ dec duplicate_suffix ++ ext in
        dedup_loop os fuel' names d base_new_name duplicate_suffix new_name
    end
  else Some new_name.

(** Lines 101 to 107: the duplicate handling of one candidate.  The loop
    gets more rounds than there are claimed names and directory entries
    ([resolve_duplicates_returns] shows that it then returns). *)
Definition resolve_duplicates (os : os_iface) (names : gset (list N)) (d : folder)
    (new_name : str) : option str :=
  dedup_loop os (S (size names + size d)) names d new_name 1 new_name.

(** The body of the [for] loop of [generate_new_filenames]. *)
Definition generate_body (os : os_iface) (add_index : bool)
    (st : renamer) (file_info : file_info) : option renamer :=
  let original_filename := filename file_info in
  let original_filepath := original_filename in
  let '(new_title, logged) := extract_title (disk st) original_filepath in
  let skip :=
    {| disk := disk st; new_filenames_set := new_filenames_set st;
       index := index st; renamed_files := renamed_files st;
       skipped_files := skipped_files st ++ [(original_filename, NO_H1)];
       log := log st ++ logged |} in
  match new_title with
  | None => Some skip
  | Some new_title =>
      if nonempty new_title then
        let new_name := new_title ++ py ".html" in
        match resolve_duplicates os (new_filenames_set st) (disk st) new_name with
        | None => None
        | Some new_name =>
            let '(new_name, index') :=
              if add_index
              then (dec (index st) ++ py ". " ++ new_name, S (index st))
              else (new_name, index st) in
            let names := {[new_name]} ∪ new_filenames_set st in
            let target_filepath := new_name in
            match os_rename os (disk st) original_filepath target_filepath with
            | inr d' =>
                Some {| disk := d'; new_filenames_set := names; index := index';
                        renamed_files := renamed_files st ++ [(original_filename, new_name)];
                        skipped_files := skipped_files st;
                        log := log st ++ logged ++ [RenamedTo original_filename new_name] |}
            | inl e =>
                Some {| disk := disk st; new_filenames_set := names; index := index';
                        renamed_files := renamed_files st;
                        skipped_files := skipped_files st ++ [(original_filename, e)];
                        log := log st ++ logged ++ [RenameError original_filename new_name e] |}
            end
        end
      else Some skip
  end.

(** [FileRenamer.generate_new_filenames] on a renamer in any state. *)
Definition generate_new_filenames (os : os_iface) (add_index : bool)
    (html_files : list file_info) (st : renamer) : option renamer :=
  let sorted_files := sort_files_by_creation_date html_files in
  run_loop (generate_body os add_index) sorted_files st.

(** [FileRenamer.perform_renaming] on a fresh renamer. *)
Definition perform_renaming (os : os_iface) (add_index : bool)
    (d : folder) (html_files : list file_info)
    : option (list (str * str) * list (str * str)) :=
  match generate_new_filenames os add_index html_files (renamer_init d) with
  | Some st => Some (renamed_files st, skipped_files st)
  | None => None
  end.

(** ** The script: [get_new_filename] and [rename_html_files] *)

Definition get_new_filename (d : folder) (html_file_path : str) : option str * list event :=
  match d !! html_file_path with
  | Some (Soup (Some h1)) =>
      if nonempty (strip (text h1))
      then (Some (sanitize_filename (strip (text h1)) ++ py ".html"), [])
      else (None, [NoHeading html_file_path])
  | Some (Soup None) => (None, [NoHeading html_file_path])
  | Some (Unreadable e) => (None, [ProcessingError html_file_path e])
  | None => (None, [ProcessingError html_file_path ENOENT])
  end.

(** The locals of [rename_html_files] that change in its loop, with the
    directory and what was printed. *)
Record script_state := {
  s_disk : gmap (list N) content;
  new_filenames : gmap (list N) nat;
  s_index : nat;
  s_renamed_files : list (list N * list N);
  s_skipped_files : list (list N * option (list N));
  printed : list event
}.

Definition script_init (d : folder) : script_state :=
  {| s_disk := d; new_filenames := ∅; s_index := 1;
     s_renamed_files := []; s_skipped_files := []; printed := [] |}.

(** The body of the [for] loop of [rename_html_files]. *)
Definition rename_body (os : os_iface) (add_index : bool)
    (st : script_state) (entry : str * Z) : script_state :=
  let original_filename := fst entry in
  let original_filepath := original_filename in
  let '(new_name, out) := get_new_filename (s_disk st) original_filepath in
  let no_title :=
    {| s_disk := s_disk st; new_filenames := new_filenames st;
       s_index := s_index st; s_renamed_files := s_renamed_files st;
       s_skipped_files := s_skipped_files st ++ [(original_filename, None)];
       printed := printed st ++ out |} in
  match new_name with
  | None => no_title
  | Some new_name =>
      if nonempty new_name then
        let '(base_name, ext) := splitext os new_name in
        let duplicate_count := default 0 (new_filenames st !! new_name) in
        let new_name :=
          if 0 <? duplicate_count
          then base_name ++ py "_" ++ dec duplicate_count ++ ext
          else new_name in
        let counts := <[new_name := duplicate_count + 1]> (new_filenames st) in
        let '(new_name, index') :=
          if add_index
          then (dec (s_index st) ++ py ". " ++ new_name, S (s_index st))
          else (new_name, s_index st) in
        let target_filepath := new_name in
        if path_exists (s_disk st) target_filepath then
          {| s_disk := s_disk st; new_filenames := counts; s_index := index';
             s_renamed_files := s_renamed_files st;
             s_skipped_files := s_skipped_files st ++ [(original_filename, Some new_name)];
             printed := printed st ++ out ++ [Conflict original_filename new_name] |}
        else
          match os_rename os (s_disk st) original_filepath target_filepath with
          | inr d' =>
              {| s_disk := d'; new_filenames := counts; s_index := index';
                 s_renamed_files := s_renamed_files st ++ [(original_filename, new_name)];
                 s_skipped_files := s_skipped_files st;
                 printed := printed st ++ out ++ [RenamedTo original_filename new_name] |}
          | inl e =>
              {| s_disk := s_disk st; new_filenames := counts; s_index := index';
                 s_renamed_files := s_renamed_files st;
                 s_skipped_files := s_skipped_files st ++ [(original_filename, Some new_name)];
                 printed := printed st ++ out ++ [RenameError original_filename new_name e] |}
          end
      else no_title
  end.

(** The loop of [rename_html_files] after the scan, from any state. *)
Definition rename_loop (os : os_iface) (add_index : bool)
    (html_files : list (str * Z)) (st : script_state) : script_state :=
  let html_files := sorted_by snd html_files in
  fold_left (rename_body os add_index) html_files st.

(** [rename_html_files] on the scanned entries of directory [d]. *)
Definition rename_html_files (os : os_iface) (add_index : bool)
    (d : folder) (html_files : list (str * Z))
    : list (str * str) * list (str * option str) :=
  let st := rename_loop os add_index html_files (script_init d) in
  (s_renamed_files st, s_skipped_files st).

(** ** Two platforms

    Two instances for a directory of regular files: a POSIX [rename]
    replaces an existing file; on Windows it raises [FileExistsError].
    [denied] stands for everything else the system may object to
    (permissions, locks, a vanished file and so on). *)
Definition EEXIST : str := py "[WinError 183] Cannot create a file when that file already exists".

Definition posix_rename (denied : str -> option str) (d : folder) (src dst : str)
    : str + folder :=
  match denied src with
  | Some e => inl e
  | None =>
      match d !! src with
      | None => inl ENOENT
      | Some c => inr (<[dst := c]> (delete src d))
      end
  end.

Definition nt_rename (denied : str -> option str) (d : folder) (src dst : str)
    : str + folder :=
  if path_exists d dst then inl EEXIST else posix_rename denied d src dst.

Definition posix (denied : str -> option str) : os_iface :=
  {| sep := 47; altsep := None; os_rename := posix_rename denied |}.

Definition nt (denied : str -> option str) : os_iface :=
  {| sep := 92; altsep := Some 47%N; os_rename := nt_rename denied |}.

Definition permissive : str -> option str := fun _ => None.

(** A file whose heading has the single text node [s]. *)
Definition page (s : string) : content := Soup (Some [py s]).

Definition entry (name : string) (t : Z) : file_info :=
  {| filename := py name; ctime := t |}.

Definition as_tuple (f : file_info) : str * Z := (filename f, ctime f).

(** The flag the scan carries after it has read [a]. *)
Definition flag_after (in_run : bool) (a : str) : bool :=
  match last a with Some c => isspace c | None => in_run end.

(** The name the duplicate handling tries in round [k]: the candidate
    itself in round 1, then [name_k ext] for k = 2, 3, ... *)
Definition candidate (os : os_iface) (base_new_name : str) (k : nat) : str :=
  if k <=? 1 then base_new_name
  else let '(name, ext) := splitext os base_new_name in
       name ++ py "_" ++ dec k ++ ext.

(** ** What the log tells

    A rename that was tried, with the final name it was given, is logged
    or printed whether it succeeds or not. *)
Definition attempt (ev : event) : option (str * str) :=
  match ev with
  | RenamedTo o n | RenameError o n _ | Conflict o n => Some (o, n)
  | NoHeading _ | ProcessingError _ _ => None
  end.

Definition attempts (lg : list event) : list (str * str) := omap attempt lg.

Definition success (ev : event) : option (str * str) :=
  match ev with
  | RenamedTo o n => Some (o, n)
  | _ => None
  end.

(** The index prefix of lines 110 to 112. *)
Definition with_index (add_index : bool) (i : nat) (new_name : str) : str :=
  if add_index then dec i ++ py ". " ++ new_name else new_name.

Definition next_index (add_index : bool) (i : nat) : nat :=
  if add_index then S i else i.

(** ** One round of [generate_new_filenames], as a relation

    The three ways through the body of the loop: the file has no usable
    title; it is renamed; the rename raises. *)
Inductive generate_step (os : os_iface) (add_index : bool) (st : renamer) (f : file_info)
  : renamer -> Prop :=
| step_no_title new_title logged :
    extract_title (disk st) (filename f) = (new_title, logged) ->
    new_title = None \/ new_title = Some [] ->
    generate_step os add_index st f
      {| disk := disk st; new_filenames_set := new_filenames_set st;
         index := index st; renamed_files := renamed_files st;
         skipped_files := skipped_files st ++ [(filename f, NO_H1)];
         log := log st ++ logged |}
| step_renamed new_title logged k d' :
    extract_title (disk st) (filename f) = (Some new_title, logged) ->
    new_title <> [] -> 1 <= k ->
    taken (new_filenames_set st) (disk st) (candidate os (new_title ++ py ".html") k) = false ->
    (forall i, 1 <= i < k ->
       taken (new_filenames_set st) (disk st) (candidate os (new_title ++ py ".html") i) = true) ->
    os_rename os (disk st) (filename f)
      (with_index add_index (index st) (candidate os (new_title ++ py ".html") k)) = inr d' ->
    generate_step os add_index st f
      {| disk := d';
         new_filenames_set :=
           {[with_index add_index (index st) (candidate os (new_title ++ py ".html") k)]}
           ∪ new_filenames_set st;
         index := next_index add_index (index st);
         renamed_files := renamed_files st ++
           [(filename f, with_index add_index (index st) (candidate os (new_title ++ py ".html") k))];
         skipped_files := skipped_files st;
         log := log st ++ logged ++
           [RenamedTo (filename f)
              (with_index add_index (index st) (candidate os (new_title ++ py ".html") k))] |}
| step_failed new_title logged k e :
    extract_title (disk st) (filename f) = (Some new_title, logged) ->
    new_title <> [] -> 1 <= k ->
    taken (new_filenames_set st) (disk st) (candidate os (new_title ++ py ".html") k) = false ->
    (forall i, 1 <= i < k ->
       taken (new_filenames_set st) (disk st) (candidate os (new_title ++ py ".html") i) = true) ->
    os_rename os (disk st) (filename f)
      (with_index add_index (index st) (candidate os (new_title ++ py ".html") k)) = inl e ->
    generate_step os add_index st f
      {| disk := disk st;
         new_filenames_set :=
           {[with_index add_index (index st) (candidate os (new_title ++ py ".html") k)]}
           ∪ new_filenames_set st;
         index := next_index add_index (index st);
         renamed_files := renamed_files st;
         skipped_files := skipped_files st ++ [(filename f, e)];
         log := log st ++ logged ++
           [RenameError (filename f)
              (with_index add_index (index st) (candidate os (new_title ++ py ".html") k)) e] |}.

(** ** What a round does to the counters and lists, for both versions

    [round_ok] relates the index, the attempts logged, the renamed pairs
    and the names of the skipped files before and after the round for the
    file [name]: either the file is skipped for want of a title, or a
    rename to an indexed name is attempted and the file lands in exactly
    one of the two result lists. *)
Definition round_ok (add_index : bool) (name : str) (idx idx' : nat)
    (att att' ren ren' : list (str * str)) (sk sk' : list str) : Prop :=
  (att' = att /\ idx' = idx /\ ren' = ren /\ sk' = sk ++ [name]) \/
  (exists r,
      att' = att ++ [(name, with_index add_index idx r)] /\
      idx' = next_index add_index idx /\
      ((ren' = ren ++ [(name, with_index add_index idx r)] /\ sk' = sk) \/
       (ren' = ren /\ sk' = sk ++ [name]))).

(** What holds after the files [done] went through the loop. *)
Definition run_inv (add_index : bool) (done : list str) (idx : nat)
    (att ren : list (str * str)) (sk : list str) : Prop :=
  (add_index = true -> idx = S (length att)) /\
  (add_index = true -> forall j o n, att !! j = Some (o, n) ->
                       exists r, n = dec (S j) ++ py ". " ++ r) /\
  map fst att `sublist_of` done /\
  ren `sublist_of` att /\
  map fst ren ++ sk ≡ₚ done.

(** ** Example directories *)

(** Three files with the same heading, listed out of creation order. *)
Definition d_hello : gmap (list N) content :=
  <[py "a.html" := page "Hello"]>
    (<[py "b.html" := page "Hello"]> (<[py "c.html" := page "Hello"]> ∅)).

Definition files_hello : list file_info :=
  [entry "b.html" 20; entry "a.html" 10; entry "c.html" 30].

(** The end-to-end scenario of the spec: A has the heading Intro, B has
    no qualifying heading. *)
Definition d_intro : gmap (list N) content :=
  <[py "A.html" := page "Intro"]> (<[py "B.html" := Soup None]> ∅).

Definition files_intro : list file_info := [entry "B.html" 2; entry "A.html" 1].

(** Three files with different headings. *)
Definition d_abc : gmap (list N) content :=
  <[py "x.html" := page "One"]>
    (<[py "y.html" := page "Two"]> (<[py "z.html" := page "Three"]> ∅)).

Definition files_abc : list file_info :=
  [entry "z.html" 30; entry "x.html" 10; entry "y.html" 20].

(** A system that refuses to rename the file [name]. *)
Definition EACCES : str := py "[Errno 13] Permission denied".

Definition deny (name : string) (e : str) : str -> option str :=
  fun src => if bool_decide (src = py name) then Some e else None.

(** Decimal digits. *)
Definition digit (c : N) : Prop := (48 <= c <= 57)%N.

(** ** Comparing the two versions

    The results agree when the renamed pairs are the same and the same
    files are skipped in the same order (the skipped entries themselves
    have different shapes: a reason in the class based version, the name
    tried or [None] in the script). *)
Definition implementations_agree (os : os_iface) (add_index : bool) (d : folder)
    (html_files : list file_info) : Prop :=
  exists renamed skipped,
    perform_renaming os add_index d html_files = Some (renamed, skipped) /\
    (rename_html_files os add_index d (map as_tuple html_files)).1 = renamed /\
    map fst (rename_html_files os add_index d (map as_tuple html_files)).2 = map fst skipped.

(** A round without collision, seen from the state of the script: if the
    file has a heading with text, both extractors read the same non-empty
    title from it, the candidate [title.html] has not been given out in
    this run and is not in the directory, and neither is the final name. *)
Definition quiet_round (add_index : bool) (st : script_state) (f : file_info) : Prop :=
  match (get_new_filename (s_disk st) (filename f)).1,
        (extract_title (s_disk st) (filename f)).1 with
  | None, _ => True
  | Some new_name, Some new_title =>
      new_title <> [] /\ new_name = new_title ++ py ".html" /\
      new_filenames st !! new_name = None /\
      s_disk st !! new_name = None /\
      s_disk st !! with_index add_index (s_index st) new_name = None
  | Some _, None => False
  end.

(** A run of the script in which every round is quiet. *)
Fixpoint collision_free (os : os_iface) (add_index : bool) (st : script_state)
    (files : list file_info) : Prop :=
  match files with
  | [] => True
  | f :: rest =>
      quiet_round add_index st f /\
      collision_free os add_index (rename_body os add_index st (as_tuple f)) rest
  end.

(** States of the two versions that correspond. *)
Definition sim (add_index : bool) (ps : script_state) (cs : renamer) : Prop :=
  s_disk ps = disk cs /\ s_index ps = index cs /\
  s_renamed_files ps = renamed_files cs /\
  map fst (s_skipped_files ps) = map fst (skipped_files cs) /\
  (forall n, n ∈ new_filenames_set cs ->
             if add_index then In 32%N n else is_Some (new_filenames ps !! n)).

(** ** The scanners

    [os.listdir] gives the names of the directory in some order;
    [str.lower] and [os.path.getctime] are taken as they come: any function
    on strings, and any function that gives a time or raises with a
    message. *)

(** [s.endswith(suffix)]. *)
Definition endswith (s suffix : str) : bool :=
  (length suffix <=? length s) &&
  bool_decide (drop (length s - length suffix) s = suffix).

(** What the scanners report for an entry whose time cannot be read. *)
Inductive scan_event :=
| AccessError (filepath e : list N).

(** [HTMLFileProcessor._collect_html_files]. *)
Definition collect_body (lower : str -> str) (getctime : str -> str + Z)
    (acc : list file_info * list scan_event) (name : str)
    : list file_info * list scan_event :=
  let '(html_files, logged) := acc in
  if endswith (lower name) (py ".html") then
    let filepath := name in
    match getctime filepath with
    | inr creation_time =>
        (html_files ++ [{| filename := name; ctime := creation_time |}], logged)
    | inl e => (html_files, logged ++ [AccessError filepath e])
    end
  else acc.

Definition _collect_html_files (lower : str -> str) (getctime : str -> str + Z)
    (listdir : list str) : list file_info * list scan_event :=
  fold_left (collect_body lower getctime) listdir ([], []).

(** Lines 41 to 50 of the script: the same scan, into tuples. *)
Definition scan_body (lower : str -> str) (getctime : str -> str + Z)
    (acc : list (str * Z) * list scan_event) (name : str)
    : list (str * Z) * list scan_event :=
  let '(html_files, out) := acc in
  if endswith (lower name) (py ".html") then
    let filepath := name in
    match getctime filepath with
    | inr creation_time => (html_files ++ [(name, creation_time)], out)
    | inl e => (html_files, out ++ [AccessError filepath e])
    end
  else acc.

Definition scan_html_files (lower : str -> str) (getctime : str -> str + Z)
    (listdir : list str) : list (str * Z) * list scan_event :=
  fold_left (scan_body lower getctime) listdir ([], []).

(** [rename_html_files(directory, add_index)] from the listing on. *)
Definition rename_html_files_in (lower : str -> str) (getctime : str -> str + Z)
    (os : os_iface) (add_index : bool) (d : folder) (listdir : list str)
    : list (str * str) * list (str * option str) :=
  rename_html_files os add_index d (scan_html_files lower getctime listdir).1.

(** [FileRenamer(HTMLFileProcessor(directory), add_index).perform_renaming()]
    from the listing on. *)
Definition perform_renaming_in (lower : str -> str) (getctime : str -> str + Z)
    (os : os_iface) (add_index : bool) (d : folder) (listdir : list str)
    : option (list (str * str) * list (str * str)) :=
  perform_renaming os add_index d (_collect_html_files lower getctime listdir).1.

(** [str.lower] on the letters A to Z (other characters are left alone
    here), for examples. *)
Definition ascii_lower (s : str) : str :=
  map (fun c => if (65 <=? c) && (c <=? 90) then c + 32 else c)%N s.

(** ** The loop of [HTMLRenamerGUI.handle_rename]

    The handler does not call [perform_renaming]: it repeats the loop on
    the renamer's attributes and moves the progress bar after every file.
    The state is the renamer and [progress['value']]. *)
Definition handle_body (os : os_iface) (add_index_var : bool)
    (st : renamer * nat) (file_info : file_info) : option (renamer * nat) :=
  let '(renamer, progress) := st in
  let original_filename := filename file_info in
  let original_filepath := original_filename in
  let '(new_title, logged) := extract_title (disk renamer) original_filepath in
  let skip :=
    ({| disk := disk renamer; new_filenames_set := new_filenames_set renamer;
        index := index renamer; renamed_files := renamed_files renamer;
        skipped_files := skipped_files renamer ++ [(original_filename, NO_H1)];
        log := log renamer ++ logged |}, progress + 1) in
  match new_title with
  | None => Some skip
  | Some new_title =>
      if nonempty new_title then
        let new_name := new_title ++ py ".html" in
        let duplicate_suffix := 1 in
        let base_new_name := new_name in
        match dedup_loop os (S (size (new_filenames_set renamer) + size (disk renamer)))
                (new_filenames_set renamer) (disk renamer)
                base_new_name duplicate_suffix new_name with
        | None => None
        | Some new_name =>
            let '(new_name, index') :=
              if add_index_var
              then (dec (index renamer) ++ py ". " ++ new_name, S (index renamer))
              else (new_name, index renamer) in
            let names := {[new_name]} ∪ new_filenames_set renamer in
            let target_filepath := new_name in
            match os_rename os (disk renamer) original_filepath target_filepath with
            | inr d' =>
                Some ({| disk := d'; new_filenames_set := names; index := index';
                         renamed_files :=
                           renamed_files renamer ++ [(original_filename, new_name)];
                         skipped_files := skipped_files renamer;
                         log := log renamer ++ logged ++
                                [RenamedTo original_filename new_name] |},
                      progress + 1)
            | inl e =>
                Some ({| disk := disk renamer; new_filenames_set := names; index := index';
                         renamed_files := renamed_files renamer;
                         skipped_files := skipped_files renamer ++ [(original_filename, e)];
                         log := log renamer ++ logged ++
                                [RenameError original_filename new_name e] |},
                      progress + 1)
            end
        end
      else Some skip
  end.

(** The handler after the confirmation: the processor is built from the
    listing, the bar is set to zero and its maximum to the number of
    collected files, then the loop runs.  The result is the renamer, the
    final value of the bar and its maximum. *)
Definition handle_rename (lower : str -> str) (getctime : str -> str + Z)
    (os : os_iface) (add_index_var : bool) (d : folder) (listdir : list str)
    : option (renamer * nat * nat) :=
  let html_files := (_collect_html_files lower getctime listdir).1 in
  let total_files := length html_files in
  let sorted_files := sort_files_by_creation_date html_files in
  match run_loop (handle_body os add_index_var) sorted_files (renamer_init d, 0) with
  | Some (renamer, progress) => Some (renamer, progress, total_files)
  | None => None
  end.

(** ** The result messages *)

Definition nl : str := [10%N].

(** One line of the script's list of skipped files. *)
Definition skipped_line (item : str * option str) : str :=
  let '(original, new) := item in
  match new with
  | Some ((_ :: _) as new) =>
      py "- " ++ original ++ py " -> " ++ new ++ py " (Conflict or Error)" ++ nl
  | _ => py "- " ++ original ++ py " (No <h1 class='panel__title'> found)" ++ nl
  end.

(** The message that [select_directory_and_rename] shows. *)
Definition result_message (renamed_files : list (str * str))
    (skipped_files : list (str * option str)) : str :=
  let message :=
    py "Renaming Completed!" ++ nl ++ nl ++
    py "Total files renamed: " ++ dec (length renamed_files) ++ nl ++
    py "Total files skipped: " ++ dec (length skipped_files) in
  match skipped_files with
  | [] => message
  | _ :: _ =>
      message ++ nl ++ nl ++ py "Skipped Files:" ++ nl ++
      concat (map skipped_line skipped_files)
  end.

(** One line of [HTMLRenamerGUI.show_results]. *)
Definition show_line (item : str * str) : str :=
  let '(original, reason) := item in
  if nonempty reason
  then py "- " ++ original ++ py " (Reason: " ++ reason ++ py ")" ++ nl
  else py "- " ++ original ++ py " (No <h1 class='panel__title'> found)" ++ nl.

(** [HTMLRenamerGUI.show_results]: the text of the message box. *)
Definition show_results (renamed : list (str * str)) (skipped : list (str * str)) : str :=
  let result_message :=
    py "Renaming Completed!" ++ nl ++ nl ++
    py "Total files renamed: " ++ dec (length renamed) ++ nl ++
    py "Total files skipped: " ++ dec (length skipped) in
  match skipped with
  | [] => result_message
  | _ :: _ =>
      result_message ++ nl ++ nl ++ py "Skipped Files:" ++ nl ++
      concat (map show_line skipped)
  end.

(** The name lines 65 to 68 of the script settle on, before any index. *)
Definition script_resolved (os : os_iface) (counts : gmap (list N) nat) (new_name : str) : str :=
  let '(base_name, ext) := splitext os new_name in
  let duplicate_count := default 0 (counts !! new_name) in
  if 0 <? duplicate_count
  then base_name ++ py "_" ++ dec duplicate_count ++ ext
  else new_name.

(** A name without any of the invalid characters. *)
Definition clean_name (n : str) : Prop := forall c, In c n -> invalid_char c = false.

(** What the scan keeps of one name of the listing. *)
Definition collected (lower : str -> str) (getctime : str -> str + Z) (name : str)
    : option file_info :=
  if endswith (lower name) (py ".html") then
    match getctime name with
    | inr t => Some {| filename := name; ctime := t |}
    | inl _ => None
    end
  else None.

Definition access_error (lower : str -> str) (getctime : str -> str + Z) (name : str)
    : option scan_event :=
  if endswith (lower name) (py ".html") then
    match getctime name with
    | inr _ => None
    | inl e => Some (AccessError name e)
    end
  else None.

(** ** Files that yield a title

    Line 95 of the class based version goes on with a file when
    [extract_title] gave a non-empty title, line 63 of the script when
    [get_new_filename] gave a name. *)
Definition has_title (d : folder) (name : str) : bool :=
  match (extract_title d name).1 with
  | Some new_title => nonempty new_title
  | None => false
  end.

Definition has_name (d : folder) (name : str) : bool :=
  match (get_new_filename d name).1 with
  | Some new_name => nonempty new_name
  | None => false
  end.

Definition is_digit (c : N) : bool := ((48 <=? c) && (c <=? 57))%N.

Fixpoint after_digits (s : str) : str :=
  match s with
  | c :: r => if is_digit c then after_digits r else s
  | [] => []
  end.

(** A name that begins the way an indexed one does: digits, a dot and a
    blank. *)
Definition indexed (name : str) : bool :=
  match name with
  | c :: r =>
      is_digit c &&
      match after_digits r with
      | 46%N :: 32%N :: _ => true
      | _ => false
      end
  | [] => false
  end.

(** What is assumed of [os.rename] where the content of the files matters:
    when it returns, [dst] is what [src] was and every other name is as
    before. *)
Definition rename_moves (os : os_iface) : Prop :=
  forall d src dst d',
    os_rename os d src dst = inr d' ->
    d' !! dst = d !! src /\ forall k, k <> src -> k <> dst -> d' !! k = d !! k.

(** Four files, the second oldest without heading. *)
Definition d_mixed : gmap (list N) content :=
  <[py "n.html" := Soup None]> d_abc.

Definition files_mixed : list file_info :=
  [entry "z.html" 30; entry "n.html" 15; entry "x.html" 10; entry "y.html" 20].

(** A directory that holds the indexed name of its only page already. *)
Definition d_old : gmap (list N) content :=
  <[py "a.html" := page "Hello"]> (<[py "1. Hello.html" := page "Old"]> ∅).

(** The renames of a result list done once more, one after the other. *)
Fixpoint replay (os : os_iface) (d : folder) (renamed : list (str * str)) : option folder :=
  match renamed with
  | [] => Some d
  | (original, new) :: rest =>
      match os_rename os d original new with
      | inr d' => replay os d' rest
      | inl _ => None
      end
  end.

(** ** The script when [print] fails

    The script reports with [print], and the standard output can refuse a
    message (a character that the encoding of the console lacks, a closed
    pipe).  [stdout ev] is [None] when the message [ev] is written, and the
    message of the exception that [print] raises otherwise.

    Where the prints stand decides what such an exception does.  The print
    of line 30 stands in the [try] of [get_new_filename]: its exception is
    caught in line 32 and reported by the print of line 33.  The print of
    line 85 stands in the [try] of the rename: its exception is caught in
    line 87 and reported by the print of line 88, and the file, which is
    renamed by then, is added to the skipped ones.  The prints of lines 33,
    79 and 88 stand in no [try]: their exception leaves
    [rename_html_files].  A result [inl e] is the exception with message
    [e] leaving the function; the definitions above are the case of a
    standard output that takes every message. *)
Definition get_new_filename_io (stdout : event -> option str) (d : folder)
    (html_file_path : str) : str + (option str * list event) :=
  let report e :=
    match stdout (ProcessingError html_file_path e) with
    | None => inr (None, [ProcessingError html_file_path e])
    | Some e' => inl e'
    end in
  let warn :=
    match stdout (NoHeading html_file_path) with
    | None => inr (None, [NoHeading html_file_path])
    | Some e => report e
    end in
  match d !! html_file_path with
  | Some (Soup (Some h1)) =>
      if nonempty (strip (text h1))
      then inr (Some (sanitize_filename (strip (text h1)) ++ py ".html"), [])
      else warn
  | Some (Soup None) => warn
  | Some (Unreadable e) => report e
  | None => report ENOENT
  end.

Definition rename_body_io (stdout : event -> option str) (os : os_iface) (add_index : bool)
    (st : script_state) (entry : str * Z) : str + script_state :=
  let original_filename := fst entry in
  let original_filepath := original_filename in
  match get_new_filename_io stdout (s_disk st) original_filepath with
  | inl e => inl e
  | inr (new_name, out) =>
      let no_title :=
        {| s_disk := s_disk st; new_filenames := new_filenames st;
           s_index := s_index st; s_renamed_files := s_renamed_files st;
           s_skipped_files := s_skipped_files st ++ [(original_filename, None)];
           printed := printed st ++ out |} in
      match new_name with
      | None => inr no_title
      | Some new_name =>
          if nonempty new_name then
            let '(base_name, ext) := splitext os new_name in
            let duplicate_count := default 0 (new_filenames st !! new_name) in
            let new_name :=
              if 0 <? duplicate_count
              then base_name ++ py "_" ++ dec duplicate_count ++ ext
              else new_name in
            let counts := <[new_name := duplicate_count + 1]> (new_filenames st) in
            let '(new_name, index') :=
              if add_index
              then (dec (s_index st) ++ py ". " ++ new_name, S (s_index st))
              else (new_name, s_index st) in
            let target_filepath := new_name in
            let skipped d' ev :=
              {| s_disk := d'; new_filenames := counts; s_index := index';
                 s_renamed_files := s_renamed_files st;
                 s_skipped_files := s_skipped_files st ++ [(original_filename, Some new_name)];
                 printed := printed st ++ out ++ [ev] |} in
            if path_exists (s_disk st) target_filepath then
              match stdout (Conflict original_filename new_name) with
              | None => inr (skipped (s_disk st) (Conflict original_filename new_name))
              | Some e => inl e
              end
            else
              match os_rename os (s_disk st) original_filepath target_filepath with
              | inr d' =>
                  match stdout (RenamedTo original_filename new_name) with
                  | None =>
                      inr {| s_disk := d'; new_filenames := counts; s_index := index';
                             s_renamed_files :=
                               s_renamed_files st ++ [(original_filename, new_name)];
                             s_skipped_files := s_skipped_files st;
                             printed := printed st ++ out ++
                                        [RenamedTo original_filename new_name] |}
                  | Some e =>
                      match stdout (RenameError original_filename new_name e) with
                      | None => inr (skipped d' (RenameError original_filename new_name e))
                      | Some e' => inl e'
                      end
                  end
              | inl e =>
                  match stdout (RenameError original_filename new_name e) with
                  | None => inr (skipped (s_disk st) (RenameError original_filename new_name e))
                  | Some e' => inl e'
                  end
              end
          else inr no_title
      end
  end.

(** A loop that an exception of its body leaves. *)
Fixpoint run_io {S A} (body : S -> A -> str + S) (l : list A) (st : S) : str + S :=
  match l with
  | [] => inr st
  | x :: r => match body st x with
              | inr st' => run_io body r st'
              | inl e => inl e
              end
  end.

Definition rename_loop_io (stdout : event -> option str) (os : os_iface) (add_index : bool)
    (html_files : list (str * Z)) (st : script_state) : str + script_state :=
  let html_files := sorted_by snd html_files in
  run_io (rename_body_io stdout os add_index) html_files st.

Definition rename_html_files_io (stdout : event -> option str) (os : os_iface)
    (add_index : bool) (d : folder) (html_files : list (str * Z))
    : str + (list (str * str) * list (str * option str)) :=
  match rename_loop_io stdout os add_index html_files (script_init d) with
  | inr st => inr (s_renamed_files st, s_skipped_files st)
  | inl e => inl e
  end.

(** An output that takes every message, and one that refuses the messages
    about the file [name]. *)
Definition takes_all : event -> option str := fun _ => None.

Definition ENCODE : str := py "'charmap' codec can't encode character".

Definition refuses (name : string) : event -> option str :=
  fun ev =>
    match ev with
    | NoHeading p | ProcessingError p _ =>
        if bool_decide (p = py name) then Some ENCODE else None
    | Conflict o _ | RenamedTo o _ | RenameError o _ _ =>
        if bool_decide (o = py name) then Some ENCODE else None
    end.

(** * Properties *)

(** ** Sanitizer: basic facts *)

Lemma underscore_plain : isspace 95 = false /\ invalid_char 95 = false.
Proof. split; reflexivity. Qed.

Lemma isspace_not_invalid c : isspace c = true -> invalid_char c = false.
Proof.
  unfold isspace, invalid_char, INVALID_FILENAME_CHARS; simpl.
  intros H.
  repeat match goal with
         | |- context [N.eqb c ?k] => destruct (N.eqb_spec c k); [subst c; discriminate H|]
         end.
  reflexivity.
Qed.

Lemma sanitize_filename_eq s : sanitize_filename s = sanitize s.
Proof. reflexivity. Qed.

Lemma remove_invalid_clean s c : In c (remove_invalid s) -> invalid_char c = false.
Proof.
  unfold remove_invalid. intros H. apply filter_In in H as [_ H].
  now destruct (invalid_char c).
Qed.

Lemma sub_spaces_from_In b s c :
  In c (sub_spaces_from b SPACE_REPLACEMENT s) ->
  c = 95%N \/ (In c s /\ isspace c = false).
Proof.
  revert b. induction s as [|a s IH]; simpl; intros b H; [contradiction|].
  destruct (isspace a) eqn:Ha.
  - apply in_app_or in H as [H|H].
    + destruct b; simpl in H; [contradiction|]. destruct H as [H|[]]. now left.
    + destruct (IH _ H) as [->|[? ?]]; [now left|right; auto].
  - destruct H as [->|H]; [right; auto|].
    destruct (IH _ H) as [->|[? ?]]; [now left|right; auto].
Qed.

Lemma sanitize_clean s c :
  In c (sanitize s) -> invalid_char c = false /\ isspace c = false.
Proof.
  unfold sanitize, sub_spaces. intros H.
  apply sub_spaces_from_In in H as [->|[H Hs]].
  - split; reflexivity.
  - split; [eapply remove_invalid_clean; eauto | exact Hs].
Qed.

Lemma remove_invalid_id s :
  (forall c, In c s -> invalid_char c = false) -> remove_invalid s = s.
Proof.
  induction s as [|a s IH]; simpl; intros H; [reflexivity|].
  rewrite (H a (or_introl eq_refl)); simpl. f_equal. apply IH. auto.
Qed.

Lemma sub_spaces_from_id b repl s :
  (forall c, In c s -> isspace c = false) -> sub_spaces_from b repl s = s.
Proof.
  revert b. induction s as [|a s IH]; simpl; intros b H; [reflexivity|].
  rewrite (H a (or_introl eq_refl)). f_equal. apply IH. auto.
Qed.

Lemma sub_spaces_from_app b repl a r :
  sub_spaces_from b repl (a ++ r) =
  sub_spaces_from b repl a ++ sub_spaces_from (flag_after b a) repl r.
Proof.
  revert b. induction a as [|x a IH]; intros b; [reflexivity|].
  assert (Hf : flag_after b (x :: a) = flag_after (isspace x) a).
  { unfold flag_after. destruct a as [|y a]; [reflexivity|].
    rewrite last_cons_cons. destruct (last (y :: a)) eqn:E; [reflexivity|].
    apply last_None in E. discriminate. }
  rewrite Hf. simpl app. simpl sub_spaces_from. destruct (isspace x) eqn:Hx.
  - rewrite IH, <- app_assoc. reflexivity.
  - rewrite IH. reflexivity.
Qed.

Lemma sub_spaces_from_run b repl w :
  w <> [] -> forallb isspace w = true ->
  sub_spaces_from b repl w = (if b then [] else repl) /\ flag_after b w = true.
Proof.
  revert b. induction w as [|x w IH]; intros b Hne Hall; [congruence|].
  simpl in Hall. apply andb_prop in Hall as [Hx Hw]. simpl. rewrite Hx.
  destruct w as [|y w].
  - simpl. rewrite app_nil_r. split; [reflexivity|]. unfold flag_after. simpl. exact Hx.
  - assert (Hyw : y :: w <> []) by discriminate.
    destruct (IH true Hyw Hw) as [E1 E2]. rewrite E1, app_nil_r. split; [reflexivity|].
    unfold flag_after in *. rewrite last_cons_cons.
    destruct (last (y :: w)) eqn:E; [exact E2|]. apply last_None in E. discriminate.
Qed.

Lemma sub_spaces_from_head b repl r :
  (forall c, head r = Some c -> isspace c = false) ->
  sub_spaces_from b repl r = sub_spaces_from false repl r.
Proof.
  destruct r as [|x r]; [reflexivity|]. intros H. simpl.
  now rewrite (H x eq_refl).
Qed.

(** A maximal run of white space inside [t] becomes one replacement. *)
Lemma sub_spaces_run repl a w b :
  w <> [] -> forallb isspace w = true ->
  (forall c, last a = Some c -> isspace c = false) ->
  (forall c, head b = Some c -> isspace c = false) ->
  sub_spaces repl (a ++ w ++ b) = sub_spaces repl a ++ repl ++ sub_spaces repl b.
Proof.
  intros Hne Hall Ha Hb. unfold sub_spaces.
  rewrite sub_spaces_from_app. f_equal.
  assert (Hfa : flag_after false a = false).
  { unfold flag_after. destruct (last a) as [c|] eqn:E; [now apply Ha|reflexivity]. }
  rewrite Hfa, sub_spaces_from_app.
  destruct (sub_spaces_from_run false repl w Hne Hall) as [-> ->].
  f_equal. now apply sub_spaces_from_head.
Qed.

(** C6, as the spec words its example: the code deletes the colon, it does
    not turn it into an underscore, so the result is not [A_B_C]. *)
Lemma sanitize_example_differs : sanitize (py "A:B  C?") <> py "A_B_C".
Proof. vm_compute. discriminate. Qed.

(** C6 (amended): for every input the output of the sanitizer holds none
    of the nine invalid characters and no white space character; once the
    invalid characters are deleted, every maximal run of white space has
    become one underscore and text without white space is left as it is;
    [sanitize('A:B  C?')] is [AB_C]; an input of invalid characters only
    gives the empty string; the function is total, and the script's
    [sanitize_filename] is the same function. *)
Theorem sanitize_contract :
  (forall s c, In c (sanitize s) -> invalid_char c = false /\ isspace c = false) /\
  (forall s a w b,
      remove_invalid s = a ++ w ++ b ->
      w <> [] -> forallb isspace w = true ->
      (forall c, last a = Some c -> isspace c = false) ->
      (forall c, head b = Some c -> isspace c = false) ->
      sanitize s = sub_spaces (py "_") a ++ py "_" ++ sub_spaces (py "_") b) /\
  (forall s, (forall c, In c (remove_invalid s) -> isspace c = false) ->
             sanitize s = remove_invalid s) /\
  sanitize (py "A:B  C?") = py "AB_C" /\
  sanitize (py ":?") = [] /\
  (forall s, exists out, sanitize s = out /\ sanitize_filename s = out).
Proof.
  split; [exact sanitize_clean|].
  split.
  { intros s a w b E Hne Hall Ha Hb. unfold sanitize. rewrite E.
    now apply sub_spaces_run. }
  split.
  { intros s H. unfold sanitize, sub_spaces. now apply sub_spaces_from_id. }
  repeat split; try reflexivity.
  intros s. exists (sanitize s). split; reflexivity.
Qed.

Lemma sanitize_contract_witness :
  sanitize (py "a : b") = sub_spaces (py "_") (py "a") ++ py "_" ++ sub_spaces (py "_") (py "b").
Proof.
  apply (proj1 (proj2 sanitize_contract) (py "a : b") (py "a") (py "  ") (py "b")).
  - reflexivity.
  - discriminate.
  - reflexivity.
  - intros c E. vm_compute in E. injection E as <-. reflexivity.
  - intros c E. vm_compute in E. injection E as <-. reflexivity.
Defined.

(** C7: the sanitizer is idempotent, in both versions. *)
Theorem sanitize_idempotent (x : str) :
  sanitize (sanitize x) = sanitize x /\
  sanitize_filename (sanitize_filename x) = sanitize_filename x.
Proof.
  assert (H : sanitize (sanitize x) = sanitize x).
  { unfold sanitize at 1. rewrite remove_invalid_id.
    - unfold sub_spaces. apply sub_spaces_from_id.
      intros c Hc. now apply sanitize_clean in Hc.
    - intros c Hc. now apply sanitize_clean in Hc. }
  split; [exact H|]. rewrite !sanitize_filename_eq. exact H.
Qed.

(** ** Title extraction *)

Lemma nonempty_true (s : str) : nonempty s = true <-> s <> [].
Proof. destruct s; simpl; split; congruence. Qed.

Lemma lstrip_visible s :
  existsb (fun c => negb (isspace c)) (lstrip s) = existsb (fun c => negb (isspace c)) s.
Proof.
  induction s as [|a s IH]; simpl; [reflexivity|].
  destruct (isspace a) eqn:Ha; simpl; [exact IH|now rewrite Ha].
Qed.

Lemma nonempty_lstrip s :
  nonempty (lstrip s) = existsb (fun c => negb (isspace c)) s.
Proof.
  induction s as [|a s IH]; simpl; [reflexivity|].
  destruct (isspace a); simpl; [exact IH|reflexivity].
Qed.

Lemma nonempty_rev (s : str) : nonempty (rev s) = nonempty s.
Proof.
  destruct s as [|a s]; [reflexivity|]. simpl.
  destruct (rev s); reflexivity.
Qed.

Lemma existsb_rev {A} (f : A -> bool) l : existsb f (rev l) = existsb f l.
Proof.
  induction l as [|a l IH]; simpl; [reflexivity|].
  rewrite existsb_app, IH. simpl. rewrite orb_false_r. apply orb_comm.
Qed.

(** What [strip] leaves is non-empty exactly when some character of the
    text is not white space. *)
Lemma nonempty_strip s :
  nonempty (strip s) = existsb (fun c => negb (isspace c)) s.
Proof.
  unfold strip, rstrip.
  now rewrite nonempty_rev, nonempty_lstrip, existsb_rev, lstrip_visible.
Qed.

Lemma existsb_concat {A} (f : A -> bool) (ll : list (list A)) :
  existsb f (concat ll) = existsb (existsb f) ll.
Proof.
  induction ll as [|l ll IH]; simpl; [reflexivity|].
  now rewrite existsb_app, IH.
Qed.

Lemma nonempty_app (a b : str) : nonempty (a ++ b) = nonempty a || nonempty b.
Proof. destruct a; reflexivity. Qed.

Lemma nonempty_get_text_strip (h1 : tag) :
  nonempty (get_text_strip h1) = existsb (fun s => nonempty (strip s)) h1.
Proof.
  unfold get_text_strip. induction h1 as [|s h1 IH]; simpl; [reflexivity|].
  destruct (nonempty (strip s)) eqn:E; simpl.
  - now rewrite nonempty_app, E.
  - exact IH.
Qed.

(** The two ways of reading the heading agree on whether there is text. *)
Lemma heading_tests_agree (h1 : tag) :
  nonempty (get_text_strip h1) = nonempty (strip (text h1)).
Proof.
  rewrite nonempty_get_text_strip, nonempty_strip. unfold text.
  rewrite existsb_concat. induction h1 as [|s h1 IH]; simpl; [reflexivity|].
  now rewrite IH, nonempty_strip.
Qed.

Lemma get_text_strip_single (s : str) :
  strip s <> [] -> get_text_strip [s] = strip s /\ strip (text [s]) = strip s.
Proof.
  intros H. apply nonempty_true in H. unfold get_text_strip, text. simpl.
  rewrite H. simpl. now rewrite !app_nil_r.
Qed.

Lemma sanitize_nil : sanitize [] = [].
Proof. reflexivity. Qed.

(** C3, as stated: for the heading of the spec's example the extractors do
    not return the stripped text [My Title]. *)
Lemma extract_title_not_stripped_text :
  let d : gmap (list N) content := {[ py "a.html" := page "  My Title " ]} in
  strip (py "  My Title ") = py "My Title" /\
  (extract_title d (py "a.html")).1 <> Some (py "My Title") /\
  (get_new_filename d (py "a.html")).1 <> Some (py "My Title").
Proof. vm_compute. repeat split; discriminate. Qed.

(** C3 (amended): for a file whose [h1.panel__title] has text that is
    non-empty after stripping, extraction returns the sanitized form of the
    heading text: [extract_title] sanitizes the text nodes stripped one by
    one and joined, [get_new_filename] sanitizes the stripped whole text and
    appends [.html]; for a heading with one text node both sanitize the
    stripped text ([My_Title] for the example).  For a file that is
    missing, unreadable, without such an element or with an empty one both
    return [None]. *)
Theorem extract_title_spec (d : folder) (path : str) :
  (forall h1, d !! path = Some (Soup (Some h1)) -> strip (text h1) <> [] ->
      (extract_title d path).1 = Some (sanitize (get_text_strip h1)) /\
      (get_new_filename d path).1 = Some (sanitize (strip (text h1)) ++ py ".html")) /\
  (forall s, d !! path = Some (Soup (Some [s])) -> strip s <> [] ->
      (extract_title d path).1 = Some (sanitize (strip s)) /\
      (get_new_filename d path).1 = Some (sanitize (strip s) ++ py ".html")) /\
  (d !! path = None \/ (exists e, d !! path = Some (Unreadable e)) \/
   d !! path = Some (Soup None) \/
   (exists h1, d !! path = Some (Soup (Some h1)) /\ strip (text h1) = []) ->
      (extract_title d path).1 = None /\ (get_new_filename d path).1 = None).
Proof.
  assert (G : forall h1, d !! path = Some (Soup (Some h1)) -> strip (text h1) <> [] ->
      (extract_title d path).1 = Some (sanitize (get_text_strip h1)) /\
      (get_new_filename d path).1 = Some (sanitize (strip (text h1)) ++ py ".html")).
  { intros h1 E H. apply nonempty_true in H. unfold extract_title, get_new_filename.
    rewrite E, heading_tests_agree, H. split; reflexivity. }
  split; [exact G|]. split.
  - intros s E H. destruct (get_text_strip_single s H) as [E1 E2].
    destruct (G [s] E) as [G1 G2]; [now rewrite E2|].
    rewrite G1, G2, E1, E2. split; reflexivity.
  - unfold extract_title, get_new_filename.
    intros [E|[[e E]|[E|[h1 [E H]]]]]; rewrite E; try (split; reflexivity).
    rewrite heading_tests_agree, H. split; reflexivity.
Qed.

Lemma extract_title_spec_witness :
  let d : gmap (list N) content := {[ py "a.html" := page "  My Title " ]} in
  (extract_title d (py "a.html")).1 = Some (py "My_Title") /\
  (get_new_filename d (py "a.html")).1 = Some (py "My_Title.html").
Proof.
  intros d.
  apply (proj1 (proj2 (extract_title_spec d (py "a.html"))) (py "  My Title ")).
  - reflexivity.
  - vm_compute. discriminate.
Defined.

(** ** Sorting by creation time *)

Section sorting_by_key.
Context {A : Type} (key : A -> Z).

Lemma insert_by_perm (x : A) l : insert_by key x l ≡ₚ x :: l.
Proof.
  induction l as [|y l IH]; simpl; [reflexivity|].
  destruct (key x <=? key y)%Z; [reflexivity|].
  rewrite IH. apply perm_swap.
Qed.

Lemma sorted_by_perm (l : list A) : sorted_by key l ≡ₚ l.
Proof.
  induction l as [|x l IH]; simpl; [reflexivity|].
  rewrite insert_by_perm. now constructor.
Qed.

Lemma insert_by_sorted (x : A) l :
  StronglySorted (fun a b => (key a <= key b)%Z) l ->
  StronglySorted (fun a b => (key a <= key b)%Z) (insert_by key x l).
Proof.
  induction 1 as [|y l Hl IH Hy]; simpl.
  - repeat constructor.
  - destruct (Z.leb_spec (key x) (key y)) as [Hxy|Hxy].
    + constructor; [now constructor|]. constructor; [exact Hxy|].
      eapply Forall_impl; [exact Hy|]. simpl. intros; lia.
    + constructor; [exact IH|].
      rewrite insert_by_perm. constructor; [lia|exact Hy].
Qed.

Lemma sorted_by_sorted (l : list A) :
  StronglySorted (fun a b => (key a <= key b)%Z) (sorted_by key l).
Proof.
  induction l as [|x l IH]; simpl; [constructor|]. now apply insert_by_sorted.
Qed.

Lemma key_injective_on (l : list A) x y :
  NoDup (map key l) -> x ∈ l -> y ∈ l -> key x = key y -> x = y.
Proof.
  induction l as [|a l IH]; simpl; intros Hnd Hx Hy E.
  - inversion Hx.
  - apply NoDup_cons in Hnd as [Ha Hnd].
    apply elem_of_cons in Hx as [->|Hx]; apply elem_of_cons in Hy as [->|Hy]; auto.
    + exfalso. apply Ha. rewrite E. now apply list_elem_of_fmap_2.
    + exfalso. apply Ha. rewrite <- E. now apply list_elem_of_fmap_2.
Qed.

(** With distinct keys the order of the input does not matter. *)
Lemma sorted_by_listing_order (l l' : list A) :
  NoDup (map key l) -> l ≡ₚ l' -> sorted_by key l = sorted_by key l'.
Proof.
  intros Hnd Hp.
  apply (StronglySorted_unique_strong (fun a b => (key a <= key b)%Z)).
  - intros x1 x2 H1 H2 Hle Hge.
    apply (key_injective_on l); [exact Hnd| | |lia].
    + now rewrite <- (sorted_by_perm l).
    + now rewrite Hp, <- (sorted_by_perm l').
  - apply sorted_by_sorted.
  - apply sorted_by_sorted.
  - now rewrite !sorted_by_perm.
Qed.

End sorting_by_key.

Lemma sorted_by_as_tuple (l : list file_info) :
  sorted_by snd (map as_tuple l) = map as_tuple (sorted_by ctime l).
Proof.
  induction l as [|x l IH]; simpl; [reflexivity|]. rewrite IH.
  generalize (sorted_by ctime l). intros m.
  induction m as [|y m IHm]; simpl; [reflexivity|].
  destruct (ctime x <=? ctime y)%Z; simpl; [reflexivity|]. now rewrite IHm.
Qed.

(** ** Duplicate handling of the class based version *)

Lemma py_inj (a b : string) : py a = py b -> a = b.
Proof.
  unfold py. intros H.
  rewrite <- (string_of_list_ascii_of_string a), <- (string_of_list_ascii_of_string b).
  f_equal. revert H. generalize (list_ascii_of_string a) (list_ascii_of_string b).
  induction l as [|x l IH]; intros [|y m]; simpl; intros H; try discriminate; [reflexivity|].
  injection H as Hx Hl. f_equal; [|now apply IH].
  now rewrite <- (ascii_N_embedding x), <- (ascii_N_embedding y), Hx.
Qed.

Lemma dec_inj (a b : nat) : dec a = dec b -> a = b.
Proof.
  unfold dec. intros H. apply py_inj in H.
  apply DecimalNat.Unsigned.to_uint_inj.
  assert (E : Some (Nat.to_uint a) = Some (Nat.to_uint b))
    by now rewrite <- !NilEmpty.usu, H.
  now injection E.
Qed.

Lemma candidate_step os base k :
  1 <= k ->
  (let '(name, ext) := splitext os base in name ++ py "_" ++ dec (S k) ++ ext)
  = candidate os base (S k).
Proof.
  intros Hk. unfold candidate.
  destruct (Nat.leb_spec (S k) 1) as [H|H]; [lia|reflexivity].
Qed.

Lemma candidate_inj os base i j :
  2 <= i -> 2 <= j -> candidate os base i = candidate os base j -> i = j.
Proof.
  intros Hi Hj. unfold candidate.
  destruct (Nat.leb_spec i 1); [lia|]. destruct (Nat.leb_spec j 1); [lia|].
  destruct (splitext os base) as [name ext]. intros E.
  apply app_inv_head in E. apply app_inv_head in E. apply app_inv_tail in E.
  now apply dec_inj.
Qed.

Lemma dedup_loop_finds os names d base fuel k j :
  1 <= k <= j -> j - k <= fuel ->
  taken names d (candidate os base j) = false ->
  (forall i, k <= i < j -> taken names d (candidate os base i) = true) ->
  dedup_loop os fuel names d base k (candidate os base k) = Some (candidate os base j).
Proof.
  revert k. induction fuel as [|fuel IH]; intros k Hk Hf Hfree Hbusy.
  - assert (k = j) by lia. subst k. cbn [dedup_loop]. now rewrite Hfree.
  - destruct (decide (k = j)) as [->|Hne].
    + cbn [dedup_loop]. now rewrite Hfree.
    + cbn [dedup_loop]. rewrite (Hbusy k) by lia.
      pose proof (candidate_step os base k (proj1 Hk)) as E.
      destruct (splitext os base) as [name ext]. rewrite E.
      apply IH; [lia|lia|exact Hfree|]. intros i Hi. apply Hbusy. lia.
Qed.

Lemma least_free_below (P : nat -> bool) n :
  (forall i, i < n -> P i = true) \/
  (exists j, j < n /\ P j = false /\ forall i, i < j -> P i = true).
Proof.
  induction n as [|n [IH|[j [Hj [Hf Hb]]]]].
  - left. intros i Hi. lia.
  - destruct (P n) eqn:En.
    + left. intros i Hi. destruct (decide (i = n)) as [->|]; [exact En|apply IH; lia].
    + right. exists n. auto.
  - right. exists j. split; [lia|auto].
Qed.

Lemma least_free (P : nat -> bool) n :
  P n = false -> exists j, j <= n /\ P j = false /\ forall i, i < j -> P i = true.
Proof.
  intros Hn. destruct (least_free_below P n) as [H|[j [Hj [Hf Hb]]]].
  - exists n. auto.
  - exists j. split; [lia|auto].
Qed.

(** Among more candidates than there are claimed names and directory
    entries, one is free. *)
Lemma some_candidate_free (os : os_iface) (names : gset (list N)) (d : folder) base :
  exists j, 2 <= j <= size names + size d + 2 /\
            taken names d (candidate os base j) = false.
Proof.
  set (m := size names + size d).
  set (L := map (candidate os base) (seq 2 (S m))).
  destruct (decide (Forall (fun n => taken names d n = true) L)) as [Hall|Hex].
  - exfalso.
    assert (Hnd : NoDup L).
    { unfold L. apply NoDup_fmap_2_strong; [|apply NoDup_seq].
      intros x y Hx Hy. apply list_elem_of_In, in_seq in Hx, Hy.
      apply candidate_inj; lia. }
    assert (Hsub : list_to_set L ⊆ names ∪ dom d).
    { intros n Hn. apply elem_of_list_to_set in Hn.
      rewrite Forall_forall in Hall. specialize (Hall n Hn).
      unfold taken, path_exists in Hall. apply orb_prop in Hall as [H|H].
      - apply bool_decide_eq_true in H. apply elem_of_union. now left.
      - apply bool_decide_eq_true in H. apply elem_of_dom in H.
        apply elem_of_union. now right. }
    apply subseteq_size in Hsub.
    rewrite size_list_to_set in Hsub by exact Hnd.
    assert (size (names ∪ dom d) <= m).
    { rewrite size_union_alt. unfold m. rewrite <- (size_dom d).
      assert (size (dom d ∖ names) <= size (dom d)).
      { apply subseteq_size. intros x Hx. now apply elem_of_difference in Hx as [Hx _]. }
      lia. }
    unfold L in Hsub. rewrite length_map, length_seq in Hsub. lia.
  - apply not_Forall_Exists in Hex; [|intros n; apply _].
    apply Exists_exists in Hex as [n [Hn Hfree]].
    unfold L in Hn. apply list_elem_of_fmap in Hn as [j [-> Hj]].
    apply list_elem_of_In, in_seq in Hj.
    exists j. split; [unfold m in *; lia|]. now apply not_true_is_false.
Qed.

(** The duplicate handling returns: it gives the first candidate, in the
    order base, _2, _3, ..., that is neither claimed nor in the directory. *)
Lemma resolve_duplicates_returns (os : os_iface) (names : gset (list N)) (d : folder) base :
  exists k, 1 <= k /\
    resolve_duplicates os names d base = Some (candidate os base k) /\
    taken names d (candidate os base k) = false /\
    forall i, 1 <= i < k -> taken names d (candidate os base i) = true.
Proof.
  destruct (some_candidate_free os names d base) as [j0 [Hj0 Hfree0]].
  destruct (least_free (fun i => taken names d (candidate os base (S i))) (j0 - 1))
    as [j [Hj [Hfree Hbusy]]].
  { replace (S (j0 - 1)) with j0 by lia. exact Hfree0. }
  exists (S j). split; [lia|]. split; [|split].
  - unfold resolve_duplicates.
    change base with (candidate os base 1) at 2.
    apply dedup_loop_finds; [lia|lia|exact Hfree|].
    intros i Hi. destruct i as [|i]; [lia|]. apply Hbusy. lia.
  - exact Hfree.
  - intros i Hi. destruct i as [|i]; [lia|]. apply Hbusy. lia.
Qed.

(** ** The loop of the class based version *)

(** Every round returns, along one of the three ways. *)
Lemma generate_body_step (os : os_iface) (add_index : bool) (st : renamer) (f : file_info) :
  exists st', generate_body os add_index st f = Some st' /\
              generate_step os add_index st f st'.
Proof.
  unfold generate_body.
  destruct (extract_title (disk st) (filename f)) as [new_title logged] eqn:E.
  destruct new_title as [new_title|].
  - destruct (nonempty new_title) eqn:Hne.
    + apply nonempty_true in Hne.
      destruct (resolve_duplicates_returns os (new_filenames_set st) (disk st)
                  (new_title ++ py ".html")) as [k [Hk [-> [Hfree Hbusy]]]].
      destruct add_index.
      * destruct (os_rename os (disk st) (filename f) _) as [e|d'] eqn:Er;
          eexists; (split; [reflexivity|]).
        -- now apply (step_failed os true st f new_title logged k e).
        -- now apply (step_renamed os true st f new_title logged k d').
      * destruct (os_rename os (disk st) (filename f) _) as [e|d'] eqn:Er;
          eexists; (split; [reflexivity|]).
        -- now apply (step_failed os false st f new_title logged k e).
        -- now apply (step_renamed os false st f new_title logged k d').
    + destruct new_title; [|discriminate].
      eexists; split; [reflexivity|]. eapply step_no_title; eauto.
  - eexists; split; [reflexivity|]. eapply step_no_title; eauto.
Qed.

Lemma run_loop_app {S A} (body : S -> A -> option S) l1 l2 st :
  run_loop body (l1 ++ l2) st =
  match run_loop body l1 st with
  | Some st' => run_loop body l2 st'
  | None => None
  end.
Proof.
  revert st. induction l1 as [|x l1 IH]; intros st; simpl; [reflexivity|].
  destruct (body st x); [apply IH|reflexivity].
Qed.

(** Induction over a run: the loop returns, and what holds at the start
    and is kept by every round holds at the end. *)
Lemma generate_loop_ind (os : os_iface) (add_index : bool)
    (P : list file_info -> renamer -> Prop) (st0 : renamer) :
  P [] st0 ->
  (forall done st f st',
      P done st -> generate_step os add_index st f st' -> P (done ++ [f]) st') ->
  forall l, exists st', run_loop (generate_body os add_index) l st0 = Some st' /\ P l st'.
Proof.
  intros H0 Hstep l. induction l as [|f l IH] using rev_ind.
  - exists st0. split; [reflexivity|exact H0].
  - destruct IH as [st [Hrun HP]].
    destruct (generate_body_step os add_index st f) as [st' [Hb Hs]].
    exists st'. split; [|eapply Hstep; eauto].
    rewrite run_loop_app, Hrun. simpl. now rewrite Hb.
Qed.

Lemma extract_title_quiet (d : folder) (p : str) :
  attempts (extract_title d p).2 = [] /\ omap success (extract_title d p).2 = [].
Proof.
  unfold extract_title.
  destruct (d !! p) as [[e|[h1|]]|]; try (split; reflexivity).
  destruct (nonempty (get_text_strip h1)); split; reflexivity.
Qed.

Lemma attempts_app (a b : list event) : attempts (a ++ b) = attempts a ++ attempts b.
Proof. unfold attempts. apply omap_app. Qed.

(** What one round adds to the attempts of the log. *)
Lemma generate_step_attempts os add_index st f st' :
  generate_step os add_index st f st' ->
  (attempts (log st') = attempts (log st) /\ index st' = index st /\
   renamed_files st' = renamed_files st /\
   skipped_files st' = skipped_files st ++ [(filename f, NO_H1)]) \/
  (exists r, attempts (log st') =
               attempts (log st) ++ [(filename f, with_index add_index (index st) r)] /\
             index st' = next_index add_index (index st) /\
             ((renamed_files st' = renamed_files st ++
                  [(filename f, with_index add_index (index st) r)] /\
               skipped_files st' = skipped_files st) \/
              (renamed_files st' = renamed_files st /\
               exists e, skipped_files st' = skipped_files st ++ [(filename f, e)]))).
Proof.
  intros Hs.
  destruct Hs as [t lg E _|t lg k d' E _ _ _ _ _|t lg k e E _ _ _ _ _]; simpl;
    pose proof (extract_title_quiet (disk st) (filename f)) as [Hq _];
    rewrite E in Hq; simpl in Hq.
  - left. rewrite attempts_app, Hq, app_nil_r. auto.
  - right. eexists. rewrite !attempts_app, Hq. simpl. split; [reflexivity|]. auto.
  - right. eexists. rewrite !attempts_app, Hq. simpl. split; [reflexivity|].
    split; [reflexivity|]. right. eauto.
Qed.

(** ** Counters and result lists along a run (both versions) *)

Lemma sublist_same_length {A} (l k : list A) :
  l `sublist_of` k -> length k <= length l -> l = k.
Proof.
  induction 1 as [|x l1 l2 Hs IH|x l1 l2 Hs IH]; simpl; intros Hlen.
  - reflexivity.
  - f_equal. apply IH. lia.
  - apply sublist_length in Hs. lia.
Qed.

Lemma run_inv_start (add_index : bool) : run_inv add_index [] 1 [] [] [].
Proof.
  repeat split; try (intros; reflexivity); try constructor.
  intros _ j o n H. rewrite lookup_nil in H. discriminate.
Qed.

Lemma run_inv_round add_index done name idx idx' att att' ren ren' sk sk' :
  run_inv add_index done idx att ren sk ->
  round_ok add_index name idx idx' att att' ren ren' sk sk' ->
  run_inv add_index (done ++ [name]) idx' att' ren' sk'.
Proof.
  intros (Hidx & Hpre & Hatt & Hren & Hperm) [(-> & -> & -> & ->)|(r & -> & -> & Hout)].
  - repeat split; auto.
    + now apply sublist_inserts_r.
    + rewrite app_assoc. now apply Permutation_app_tail.
  - assert (Hsub : ren' `sublist_of` att ++ [(name, with_index add_index idx r)] /\
                   map fst ren' ++ sk' ≡ₚ done ++ [name]).
    { destruct Hout as [[-> ->]|[-> ->]].
      - split; [apply sublist_app; [exact Hren|reflexivity]|].
        rewrite map_app. simpl. rewrite <- app_assoc.
        rewrite (Permutation_app_comm [name] sk), app_assoc.
        now apply Permutation_app_tail.
      - split; [now apply sublist_inserts_r|].
        rewrite app_assoc. now apply Permutation_app_tail. }
    destruct Hsub as [Hs1 Hs2].
    split; [|split; [|split; [|split]]]; auto.
    + intros ->. simpl. rewrite length_app. simpl. rewrite (Hidx eq_refl). lia.
    + intros -> j o n Hj. apply lookup_snoc_Some in Hj as [[_ Hj]|[Hj E]].
      * eapply Hpre; eauto.
      * injection E as <- <-. exists r. simpl. rewrite (Hidx eq_refl), Hj. reflexivity.
    + rewrite map_app. simpl. apply sublist_app; [exact Hatt|reflexivity].
Qed.

Lemma generate_step_round os add_index st f st' :
  generate_step os add_index st f st' ->
  round_ok add_index (filename f) (index st) (index st')
    (attempts (log st)) (attempts (log st'))
    (renamed_files st) (renamed_files st')
    (map fst (skipped_files st)) (map fst (skipped_files st')).
Proof.
  intros Hs. apply generate_step_attempts in Hs.
  destruct Hs as [(-> & -> & -> & ->)|(r & -> & -> & Hout)].
  - left. rewrite map_app. auto.
  - right. exists r. split; [reflexivity|]. split; [reflexivity|].
    destruct Hout as [[-> ->]|[-> [e ->]]]; [left; auto|right].
    rewrite map_app. auto.
Qed.

(** The loop of the class based version returns, and the invariant holds
    of its final state. *)
Lemma generate_run_inv (os : os_iface) (add_index : bool) (d : folder) (l : list file_info) :
  exists st, run_loop (generate_body os add_index) l (renamer_init d) = Some st /\
    run_inv add_index (map filename l) (index st) (attempts (log st))
      (renamed_files st) (map fst (skipped_files st)).
Proof.
  apply (generate_loop_ind os add_index
           (fun done st => run_inv add_index (map filename done) (index st)
                             (attempts (log st)) (renamed_files st)
                             (map fst (skipped_files st)))).
  - apply run_inv_start.
  - intros done st f st' HP Hs. rewrite map_app. simpl.
    eapply run_inv_round; [exact HP|]. now apply (generate_step_round os).
Qed.

Lemma get_new_filename_quiet (d : folder) (p : str) :
  attempts (get_new_filename d p).2 = [].
Proof.
  unfold get_new_filename.
  destruct (d !! p) as [[e|[h1|]]|]; try reflexivity.
  destruct (nonempty (strip (text h1))); reflexivity.
Qed.

Lemma rename_body_round os add_index st (x : list N * Z) :
  round_ok add_index (fst x) (s_index st) (s_index (rename_body os add_index st x))
    (attempts (printed st)) (attempts (printed (rename_body os add_index st x)))
    (s_renamed_files st) (s_renamed_files (rename_body os add_index st x))
    (map fst (s_skipped_files st)) (map fst (s_skipped_files (rename_body os add_index st x))).
Proof.
  unfold rename_body.
  pose proof (get_new_filename_quiet (s_disk st) (fst x)) as Hq.
  destruct (get_new_filename (s_disk st) (fst x)) as [new_name out].
  simpl in Hq.
  assert (Hskip : forall sk,
    round_ok add_index (fst x) (s_index st) (s_index st)
      (attempts (printed st)) (attempts (printed st ++ out))
      (s_renamed_files st) (s_renamed_files st)
      (map fst (s_skipped_files st)) (map fst (s_skipped_files st ++ [(fst x, sk)]))).
  { intros sk. left. rewrite attempts_app, Hq, app_nil_r, map_app. auto. }
  destruct new_name as [new_name|]; [|apply Hskip].
  destruct (nonempty new_name); [|apply Hskip].
  destruct (splitext os new_name) as [base_name ext].
  set (resolved := if 0 <? default 0 (new_filenames st !! new_name) then _ else _).
  assert (E : (if add_index
               then (dec (s_index st) ++ py ". " ++ resolved, S (s_index st))
               else (resolved, s_index st))
              = (with_index add_index (s_index st) resolved,
                 next_index add_index (s_index st)))
    by now destruct add_index.
  rewrite E. clear E.
  right. exists resolved.
  destruct (path_exists (s_disk st) _); simpl.
  - rewrite !attempts_app, Hq, map_app. simpl. auto.
  - destruct (os_rename os (s_disk st) (fst x) _) as [e|d']; simpl;
      rewrite !attempts_app, Hq, ?map_app; simpl; auto.
Qed.

Lemma rename_run_inv (os : os_iface) (add_index : bool) (d : folder) (l : list (list N * Z)) :
  let st := fold_left (rename_body os add_index) l (script_init d) in
  run_inv add_index (map fst l) (s_index st) (attempts (printed st))
    (s_renamed_files st) (map fst (s_skipped_files st)).
Proof.
  induction l as [|x l IH] using rev_ind; simpl.
  - apply run_inv_start.
  - rewrite fold_left_app, map_app. simpl.
    eapply run_inv_round; [exact IH|]. apply rename_body_round.
Qed.

Lemma sorted_three (f1 f2 f3 : file_info) (files : list file_info) :
  files ≡ₚ [f1; f2; f3] -> (ctime f1 < ctime f2 < ctime f3)%Z ->
  NoDup (map ctime files) /\ sort_files_by_creation_date files = [f1; f2; f3].
Proof.
  intros Hp Ht.
  assert (Hnd : NoDup (map ctime files)).
  { rewrite Hp. simpl. repeat constructor; rewrite ?elem_of_cons, ?elem_of_nil; lia. }
  split; [exact Hnd|]. unfold sort_files_by_creation_date.
  rewrite (sorted_by_listing_order ctime files [f1; f2; f3] Hnd Hp). simpl.
  destruct (Z.leb_spec (ctime f2) (ctime f3)); [|lia]. simpl.
  destruct (Z.leb_spec (ctime f1) (ctime f2)); [|lia]. reflexivity.
Qed.

Lemma three_files_indices idx (att ren : list (list N * list N)) (sk : list (list N))
    (f1 f2 f3 : file_info) (files : list file_info) :
  run_inv true (map filename (sort_files_by_creation_date files)) idx att ren sk ->
  files ≡ₚ [f1; f2; f3] -> (ctime f1 < ctime f2 < ctime f3)%Z ->
  length att = 3 ->
  exists r1 r2 r3,
    att = [(filename f1, py "1. " ++ r1); (filename f2, py "2. " ++ r2);
           (filename f3, py "3. " ++ r3)].
Proof.
  intros (_ & Hpre & Hsub & _ & _) Hp Ht Hlen.
  destruct (sorted_three f1 f2 f3 files Hp Ht) as [_ Hs]. rewrite Hs in Hsub.
  apply sublist_same_length in Hsub; [|rewrite !length_map, Hlen; simpl; lia].
  destruct att as [|[o1 n1] [|[o2 n2] [|[o3 n3] [|? ?]]]]; try discriminate.
  simpl in Hsub. injection Hsub as -> -> ->.
  destruct (Hpre eq_refl 0 _ _ eq_refl) as [r1 ->].
  destruct (Hpre eq_refl 1 _ _ eq_refl) as [r2 ->].
  destruct (Hpre eq_refl 2 _ _ eq_refl) as [r3 ->].
  exists r1, r2, r3. reflexivity.
Qed.

Lemma perform_renaming_outcomes (os : os_iface) (add_index : bool) (d : folder)
    (html_files : list file_info) :
  exists renamed skipped,
    perform_renaming os add_index d html_files = Some (renamed, skipped) /\
    map fst renamed ++ map fst skipped ≡ₚ map filename html_files.
Proof.
  unfold perform_renaming, generate_new_filenames.
  destruct (generate_run_inv os add_index d (sort_files_by_creation_date html_files))
    as [st [-> (_ & _ & _ & _ & Hperm)]].
  exists (renamed_files st), (skipped_files st). split; [reflexivity|].
  rewrite Hperm. apply Permutation_map. apply sorted_by_perm.
Qed.

Lemma rename_html_files_outcomes (os : os_iface) (add_index : bool) (d : folder)
    (html_files : list file_info) renamed skipped :
  rename_html_files os add_index d (map as_tuple html_files) = (renamed, skipped) ->
  map fst renamed ++ map fst skipped ≡ₚ map filename html_files.
Proof.
  intros E. unfold rename_html_files, rename_loop in E. injection E as <- <-.
  destruct (rename_run_inv os add_index d (sorted_by snd (map as_tuple html_files)))
    as (_ & _ & _ & _ & Hperm).
  rewrite Hperm, sorted_by_as_tuple, map_map. simpl.
  apply Permutation_map. apply sorted_by_perm.
Qed.

(** C9: every scanned file gets exactly one outcome: the names of the
    renamed and of the skipped files together are the scanned names, each
    as often as it was scanned, so with distinct scanned names no file is
    in the two result lists twice.  This holds of [perform_renaming], which
    always returns, and of [rename_html_files]. *)
Theorem one_outcome_per_file (os : os_iface) (add_index : bool) (d : folder)
    (html_files : list file_info) :
  (exists renamed skipped,
      perform_renaming os add_index d html_files = Some (renamed, skipped) /\
      map fst renamed ++ map fst skipped ≡ₚ map filename html_files /\
      (NoDup (map filename html_files) -> NoDup (map fst renamed ++ map fst skipped))) /\
  (forall renamed skipped,
      rename_html_files os add_index d (map as_tuple html_files) = (renamed, skipped) ->
      map fst renamed ++ map fst skipped ≡ₚ map filename html_files /\
      (NoDup (map filename html_files) -> NoDup (map fst renamed ++ map fst skipped))).
Proof.
  split.
  - destruct (perform_renaming_outcomes os add_index d html_files) as (r & s & E & Hp).
    exists r, s. split; [exact E|]. split; [exact Hp|]. intros Hnd. now rewrite Hp.
  - intros renamed skipped E.
    pose proof (rename_html_files_outcomes os add_index d html_files _ _ E) as Hp.
    split; [exact Hp|]. intros Hnd. now rewrite Hp.
Qed.

Lemma one_outcome_per_file_witness :
  exists renamed skipped,
    perform_renaming (posix permissive) false d_intro files_intro = Some (renamed, skipped) /\
    NoDup (map fst renamed ++ map fst skipped).
Proof.
  destruct (proj1 (one_outcome_per_file (posix permissive) false d_intro files_intro))
    as (r & s & E & _ & H).
  exists r, s. split; [exact E|]. apply H.
  apply (bool_decide_unpack _). vm_compute. exact I.
Defined.

(** ** Index prefixes *)

Lemma string_of_uint_digits (u : Decimal.uint) :
  Forall digit (py (NilEmpty.string_of_uint u)).
Proof.
  induction u; simpl; try constructor; try exact IHu; unfold digit; simpl; lia.
Qed.

Lemma dec_digits (n : nat) : Forall digit (dec n).
Proof. apply string_of_uint_digits. Qed.

Lemma digits_before_dot (a b x y : list N) :
  Forall digit a -> Forall digit b -> a ++ 46%N :: x = b ++ 46%N :: y -> a = b.
Proof.
  intros Ha. revert b. induction Ha as [|c a Hc Ha IH]; intros b Hb E.
  - destruct Hb as [|c' b Hc' Hb]; [reflexivity|].
    simpl in E. injection E as E _. subst c'. unfold digit in Hc'. lia.
  - destruct Hb as [|c' b Hc' Hb].
    + simpl in E. injection E as E _. subst c. unfold digit in Hc. lia.
    + simpl in E. injection E as -> E. f_equal. now apply IH.
Qed.

(** A name carries one index only. *)
Lemma index_prefix_inj (i k : nat) (r r' : list N) :
  dec i ++ py ". " ++ r = dec k ++ py ". " ++ r' -> i = k.
Proof.
  intros E. apply dec_inj.
  apply (digits_before_dot _ _ (32%N :: r) (32%N :: r')); [apply dec_digits..|exact E].
Qed.

(** ** Which files are attempted *)

Lemma get_new_filename_nonempty (d : folder) (p nn : list N) out :
  get_new_filename d p = (Some nn, out) -> nonempty nn = true.
Proof.
  unfold get_new_filename.
  destruct (d !! p) as [[e|[h1|]]|]; try discriminate.
  destruct (nonempty (strip (text h1))); [|discriminate].
  intros E. injection E as <- _. now destruct (sanitize_filename (strip (text h1))).
Qed.

Lemma has_title_lookup (d d' : folder) (a b : str) :
  d !! a = d' !! b -> has_title d a = has_title d' b.
Proof.
  unfold has_title, extract_title. intros ->.
  destruct (d' !! b) as [[e|[h1|]]|]; try reflexivity.
  destruct (nonempty (get_text_strip h1)); reflexivity.
Qed.

Lemma has_name_lookup (d d' : folder) (a b : str) :
  d !! a = d' !! b -> has_name d a = has_name d' b.
Proof.
  unfold has_name, get_new_filename. intros ->.
  destruct (d' !! b) as [[e|[h1|]]|]; try reflexivity.
  destruct (nonempty (strip (text h1))); reflexivity.
Qed.

Lemma to_uint_nonnil (n : nat) : Nat.to_uint n <> Nil.
Proof.
  intros H. pose proof (DecimalNat.Unsigned.to_of (Nat.to_uint n)) as E.
  rewrite DecimalNat.Unsigned.of_to, H in E. discriminate.
Qed.

Lemma dec_nonempty (n : nat) : dec n <> [].
Proof.
  unfold dec. pose proof (to_uint_nonnil n) as H.
  destruct (Nat.to_uint n); try discriminate. congruence.
Qed.

Lemma digit_is_digit (c : N) : digit c -> is_digit c = true.
Proof.
  unfold digit, is_digit. intros [H1 H2].
  apply andb_true_intro. split; now apply N.leb_le.
Qed.

Lemma after_digits_app (a r : str) :
  Forall digit a -> after_digits (a ++ 46%N :: r) = 46%N :: r.
Proof.
  induction 1 as [|c a Hc Ha IH]; simpl; [reflexivity|].
  now rewrite (digit_is_digit c Hc).
Qed.

(** A name with an index prefix is recognised as one. *)
Lemma with_index_indexed (i : nat) (r : str) : indexed (with_index true i r) = true.
Proof.
  unfold with_index. pose proof (dec_digits i) as Hd. pose proof (dec_nonempty i) as Hne.
  destruct (dec i) as [|c a]; [congruence|].
  apply Forall_cons in Hd as [Hc Ha].
  cbn [app indexed]. rewrite (digit_is_digit c Hc). simpl andb.
  change (py ". " ++ r) with (46%N :: 32%N :: r).
  now rewrite (after_digits_app a _ Ha).
Qed.

(** What a round of the class based version does with a file, by whether
    it yields a title. *)
Lemma generate_body_titled (os : os_iface) (add_index : bool) (st : renamer) (f : file_info) :
  exists st', generate_body os add_index st f = Some st' /\
    ((has_title (disk st) (filename f) = false /\
      attempts (log st') = attempts (log st) /\
      index st' = index st /\ disk st' = disk st) \/
     (has_title (disk st) (filename f) = true /\
      exists r,
        attempts (log st') = attempts (log st) ++ [(filename f, with_index add_index (index st) r)] /\
        index st' = next_index add_index (index st) /\
        (disk st' = disk st \/
         os_rename os (disk st) (filename f) (with_index add_index (index st) r)
         = inr (disk st')))).
Proof.
  destruct (generate_body_step os add_index st f) as [st' [Hb Hs]].
  exists st'. split; [exact Hb|].
  pose proof (extract_title_quiet (disk st) (filename f)) as [Hq _].
  unfold has_title.
  destruct Hs as [t lg E Ht|t lg k d' E Hne _ _ _ Hr|t lg k e E Hne _ _ _ Hr];
    rewrite E in Hq |- *; simpl in Hq |- *.
  - left. rewrite attempts_app, Hq, app_nil_r.
    split; [|auto]. now destruct Ht as [-> | ->].
  - right. split; [now destruct t|].
    eexists. rewrite !attempts_app, Hq. simpl. split; [reflexivity|]. auto.
  - right. split; [now destruct t|].
    eexists. rewrite !attempts_app, Hq. simpl. split; [reflexivity|]. auto.
Qed.

(** The same for a round of the script. *)
Lemma rename_body_named (os : os_iface) (add_index : bool) (st : script_state)
    (x : list N * Z) :
  (has_name (s_disk st) (fst x) = false /\
   attempts (printed (rename_body os add_index st x)) = attempts (printed st) /\
   s_index (rename_body os add_index st x) = s_index st /\
   s_disk (rename_body os add_index st x) = s_disk st) \/
  (has_name (s_disk st) (fst x) = true /\
   exists r,
     attempts (printed (rename_body os add_index st x))
     = attempts (printed st) ++ [(fst x, with_index add_index (s_index st) r)] /\
     s_index (rename_body os add_index st x) = next_index add_index (s_index st) /\
     (s_disk (rename_body os add_index st x) = s_disk st \/
      os_rename os (s_disk st) (fst x) (with_index add_index (s_index st) r)
      = inr (s_disk (rename_body os add_index st x)))).
Proof.
  unfold rename_body, has_name.
  pose proof (get_new_filename_quiet (s_disk st) (fst x)) as Hq.
  pose proof (get_new_filename_nonempty (s_disk st) (fst x)) as Hnn.
  destruct (get_new_filename (s_disk st) (fst x)) as [[nn|] out]; simpl in Hq; cbn [fst].
  - rewrite (Hnn nn out eq_refl). right. split; [reflexivity|].
    destruct (splitext os nn) as [base_name ext].
    set (resolved := if 0 <? default 0 (new_filenames st !! nn) then _ else _).
    assert (E : (if add_index
                 then (dec (s_index st) ++ py ". " ++ resolved, S (s_index st))
                 else (resolved, s_index st))
                = (with_index add_index (s_index st) resolved,
                   next_index add_index (s_index st)))
      by now destruct add_index.
    rewrite E. clear E. exists resolved.
    destruct (path_exists (s_disk st) _) eqn:Hex; simpl.
    + rewrite !attempts_app, Hq. simpl. auto.
    + destruct (os_rename os (s_disk st) (fst x) _) as [e|d'] eqn:Hr; simpl;
        rewrite !attempts_app, Hq; simpl; auto.
  - left. simpl. rewrite attempts_app, Hq, app_nil_r. auto.
Qed.

(** When [os.rename] moves files, names are distinct and no file without
    title carries an index prefix, the loop of the class based version
    attempts exactly the files that yield a title at the start. *)
Lemma generate_run_titled (os : os_iface) (c : list N -> bool) :
  rename_moves os ->
  forall (l : list file_info) (st : renamer),
    NoDup (map filename l) ->
    (forall f, f ∈ l -> has_title (disk st) (filename f) = c (filename f)) ->
    (forall f, f ∈ l -> c (filename f) = false -> indexed (filename f) = false) ->
    exists st', run_loop (generate_body os true) l st = Some st' /\
      map fst (attempts (log st')) = map fst (attempts (log st)) ++ List.filter c (map filename l).
Proof.
  intros Hmv l. induction l as [|f l IH]; intros st Hnd Hc Hix.
  - exists st. split; [reflexivity|]. simpl. now rewrite app_nil_r.
  - simpl in Hnd. apply NoDup_cons in Hnd as [Hf Hnd].
    assert (Hkeep : forall st1,
      (forall g, g ∈ l -> has_title (disk st1) (filename g) = c (filename g)) ->
      forall names,
        map fst (attempts (log st1)) = map fst (attempts (log st)) ++ names ->
        exists st', run_loop (generate_body os true) l st1 = Some st' /\
          map fst (attempts (log st')) = map fst (attempts (log st)) ++ names ++
                                         List.filter c (map filename l)).
    { intros st1 Hc1 names Hatt.
      destruct (IH st1 Hnd Hc1) as [st' [Hrun Hres]].
      - intros g Hg. apply Hix. now apply list_elem_of_further.
      - exists st'. split; [exact Hrun|]. now rewrite Hres, Hatt, <- app_assoc. }
    destruct (generate_body_titled os true st f) as [st1 [Hb Hcase]].
    cbn [run_loop map List.filter]. rewrite Hb.
    assert (Hcf : has_title (disk st) (filename f) = c (filename f))
      by (apply Hc; apply list_elem_of_here).
    destruct Hcase as [(Hno & Hatt & _ & Hd)|(Hyes & r & Hatt & _ & Hd)].
    + rewrite <- Hcf, Hno.
      assert (Hc1 : forall g, g ∈ l -> has_title (disk st1) (filename g) = c (filename g)).
      { intros g Hg. rewrite Hd. apply Hc. now apply list_elem_of_further. }
      destruct (Hkeep st1 Hc1 []) as [st' [Hrun Hres]]; [now rewrite Hatt, app_nil_r|].
      exists st'. split; [exact Hrun|exact Hres].
    + rewrite <- Hcf, Hyes.
      assert (Hc1 : forall g, g ∈ l -> has_title (disk st1) (filename g) = c (filename g)).
      { intros g Hg.
        assert (Hgf : filename g <> filename f).
        { intros E. apply Hf. rewrite <- E. now apply list_elem_of_fmap_2. }
        destruct Hd as [-> | Hr]; [apply Hc; now apply list_elem_of_further|].
        apply Hmv in Hr as [Hdst Hother].
        destruct (decide (filename g = with_index true (index st) r)) as [E|Hne].
        - assert (Hcg : c (filename g) = true).
          { destruct (c (filename g)) eqn:Hcg; [reflexivity|].
            apply Hix in Hcg; [|now apply list_elem_of_further].
            rewrite E, with_index_indexed in Hcg. discriminate. }
          rewrite Hcg, <- Hyes. apply has_title_lookup. now rewrite E.
        - rewrite <- (Hc g) by now apply list_elem_of_further.
          apply has_title_lookup. now apply Hother. }
      destruct (Hkeep st1 Hc1 [filename f]) as [st' [Hrun Hres]];
        [now rewrite Hatt, map_app|].
      exists st'. split; [exact Hrun|exact Hres].
Qed.

Lemma rename_run_named (os : os_iface) (c : list N -> bool) :
  rename_moves os ->
  forall (l : list (list N * Z)) (st : script_state),
    NoDup (map fst l) ->
    (forall x, x ∈ l -> has_name (s_disk st) (fst x) = c (fst x)) ->
    (forall x, x ∈ l -> c (fst x) = false -> indexed (fst x) = false) ->
    map fst (attempts (printed (fold_left (rename_body os true) l st)))
    = map fst (attempts (printed st)) ++ List.filter c (map fst l).
Proof.
  intros Hmv l. induction l as [|x l IH]; intros st Hnd Hc Hix.
  - simpl. now rewrite app_nil_r.
  - simpl in Hnd. apply NoDup_cons in Hnd as [Hx Hnd].
    cbn [fold_left map List.filter].
    assert (Hcx : has_name (s_disk st) (fst x) = c (fst x))
      by (apply Hc; apply list_elem_of_here).
    assert (Hix' : forall y, y ∈ l -> c (fst y) = false -> indexed (fst y) = false).
    { intros y Hy. apply Hix. now apply list_elem_of_further. }
    destruct (rename_body_named os true st x)
      as [(Hno & Hatt & _ & Hd)|(Hyes & r & Hatt & _ & Hd)].
    + rewrite <- Hcx, Hno, (IH _ Hnd); [now rewrite Hatt| |exact Hix'].
      intros y Hy. rewrite Hd. apply Hc. now apply list_elem_of_further.
    + rewrite <- Hcx, Hyes, (IH _ Hnd); [|  |exact Hix'].
      * rewrite Hatt, map_app, <- app_assoc. reflexivity.
      * intros y Hy.
        assert (Hyx : fst y <> fst x).
        { intros E. apply Hx. rewrite <- E. now apply list_elem_of_fmap_2. }
        destruct Hd as [-> | Hr]; [apply Hc; now apply list_elem_of_further|].
        apply Hmv in Hr as [Hdst Hother].
        destruct (decide (fst y = with_index true (s_index st) r)) as [E|Hne].
        -- assert (Hcy : c (fst y) = true).
           { destruct (c (fst y)) eqn:Hcy; [reflexivity|].
             apply Hix in Hcy; [|now apply list_elem_of_further].
             rewrite E, with_index_indexed in Hcy. discriminate. }
           rewrite Hcy, <- (has_name_lookup (s_disk st) _ (fst x) (fst y));
             [exact Hyes|now rewrite E].
        -- rewrite <- (Hc y) by now apply list_elem_of_further.
           apply has_name_lookup. now apply Hother.
Qed.

Lemma posix_rename_moves (denied : list N -> option (list N)) : rename_moves (posix denied).
Proof.
  intros d src dst d'. simpl. unfold posix_rename.
  destruct (denied src); [discriminate|].
  destruct (d !! src) as [c|] eqn:Hsrc; [|discriminate].
  intros E. injection E as <-. split.
  - now rewrite lookup_insert_eq.
  - intros k Hs Hd. rewrite lookup_insert_ne by congruence. now rewrite lookup_delete_ne.
Qed.

Lemma nt_rename_moves (denied : list N -> option (list N)) : rename_moves (nt denied).
Proof.
  intros d src dst d'. simpl. unfold nt_rename.
  destruct (path_exists d dst); [discriminate|]. apply (posix_rename_moves denied).
Qed.

Lemma filter_all {A} (c : A -> bool) (l : list A) :
  (forall x, x ∈ l -> c x = true) -> List.filter c l = l.
Proof.
  induction l as [|a l IH]; intros H; simpl; [reflexivity|].
  rewrite (H a) by apply list_elem_of_here. f_equal. apply IH.
  intros x Hx. apply H. now apply list_elem_of_further.
Qed.



Lemma success_attempt (ev : event) p : success ev = Some p -> attempt ev = Some p.
Proof. destruct ev; simpl; congruence. Qed.

Lemma successes_attempted (l : list event) p : p ∈ omap success l -> p ∈ attempts l.
Proof.
  unfold attempts. rewrite !list_elem_of_omap.
  intros (ev & Hev & Hs). exists ev. split; [exact Hev|now apply success_attempt].
Qed.

(** The renamed files are the successes of the log. *)
Lemma generate_run_renamed (os : os_iface) (add_index : bool) (d : folder) (l : list file_info) :
  forall st, run_loop (generate_body os add_index) l (renamer_init d) = Some st ->
             renamed_files st = omap success (log st).
Proof.
  destruct (generate_loop_ind os add_index
              (fun _ st => renamed_files st = omap success (log st)) (renamer_init d))
    with (l := l) as [st [E H]].
  - reflexivity.
  - intros done st f st' HP Hs.
    pose proof (extract_title_quiet (disk st) (filename f)) as [_ Hq].
    destruct Hs as [t lg E _|t lg k d' E _ _ _ _ _|t lg k e E _ _ _ _ _]; simpl;
      rewrite E in Hq; simpl in Hq; rewrite ?omap_app, Hq, HP; simpl;
      now rewrite ?app_nil_r.
  - intros st' E'. rewrite E in E'. now injection E' as <-.
Qed.

(** C10: in the class based version with indexing on, the running index
    is incremented before the rename is attempted: a round for a file with
    a title leaves the index one higher whatever [os.rename] does.  So in
    every run the index is one more than the number of attempts, and when
    the rename of the k-th file with a title fails (a [RenameError] in the
    log), that file had been given index k, the next file with a title is
    given k+1, and no renamed file carries index k. *)
Theorem failed_rename_consumes_index (os : os_iface) (d : folder) (html_files : list file_info) :
  (forall st f new_title logged,
      extract_title (disk st) (filename f) = (Some new_title, logged) ->
      new_title <> [] ->
      exists st', generate_body os true st f = Some st' /\ index st' = S (index st)) /\
  (exists st,
      generate_new_filenames os true html_files (renamer_init d) = Some st /\
      index st = S (length (attempts (log st))) /\
      forall l1 o n e l2,
        log st = l1 ++ RenameError o n e :: l2 ->
        (exists r, n = dec (S (length (attempts l1))) ++ py ". " ++ r) /\
        (forall o' n', head (attempts l2) = Some (o', n') ->
                       exists r, n' = dec (S (S (length (attempts l1)))) ++ py ". " ++ r) /\
        (forall o' n' r, (o', n') ∈ renamed_files st ->
                         n' <> dec (S (length (attempts l1))) ++ py ". " ++ r)).
Proof.
  split.
  - intros st f t lg E Hne.
    destruct (generate_body_step os true st f) as [st' [Hb Hs]].
    exists st'. split; [exact Hb|].
    destruct Hs as [t' lg' E' [->| ->]|t' lg' k d' E' _ _ _ _ _|t' lg' k e E' _ _ _ _ _];
      try reflexivity; rewrite E in E'; congruence.
  - unfold generate_new_filenames.
    destruct (generate_run_inv os true d (sort_files_by_creation_date html_files))
      as [st [E (Hidx & Hpre & _ & _ & _)]].
    pose proof (generate_run_renamed os true d _ st E) as Hren.
    exists st. split; [exact E|]. split; [now apply Hidx|].
    intros l1 o n e l2 Hlog.
    assert (Hatt : attempts (log st) = attempts l1 ++ (o, n) :: attempts l2).
    { rewrite Hlog, attempts_app. reflexivity. }
    specialize (Hpre eq_refl). rewrite Hatt in Hpre.
    split; [|split].
    + apply (Hpre _ o). apply list_lookup_middle. reflexivity.
    + intros o' n' Hh. apply (Hpre _ o').
      rewrite lookup_app_r by lia.
      replace (S (length (attempts l1)) - length (attempts l1)) with 1 by lia.
      simpl. destruct (attempts l2); [discriminate|]. simpl in *. congruence.
    + intros o' n' r Hin Hn.
      rewrite Hren, Hlog, omap_app in Hin. simpl in Hin.
      apply elem_of_app in Hin as [Hin|Hin]; apply successes_attempted in Hin;
        apply list_elem_of_lookup in Hin as [j Hj].
      * pose proof (lookup_lt_Some _ _ _ Hj) as Hlt.
        destruct (Hpre j o' n') as [r' Hr']; [now rewrite lookup_app_l|].
        rewrite Hn in Hr'. apply index_prefix_inj in Hr'. lia.
      * destruct (Hpre (length (attempts l1) + S j) o' n') as [r' Hr'].
        { rewrite lookup_app_r by lia.
          replace (length (attempts l1) + S j - length (attempts l1)) with (S j) by lia.
          exact Hj. }
        rewrite Hn in Hr'. apply index_prefix_inj in Hr'. lia.
Qed.

Lemma failed_rename_consumes_index_witness :
  exists st,
    generate_new_filenames (posix (deny "y.html" EACCES)) true files_abc (renamer_init d_abc)
      = Some st /\
    renamed_files st = [(py "x.html", py "1. One.html"); (py "z.html", py "3. Three.html")] /\
    skipped_files st = [(py "y.html", EACCES)] /\
    (forall o' n' r, (o', n') ∈ renamed_files st -> n' <> dec 2 ++ py ". " ++ r).
Proof.
  destruct (proj2 (failed_rename_consumes_index (posix (deny "y.html" EACCES)) d_abc files_abc))
    as (st & E & _ & H).
  exists st. split; [exact E|].
  vm_compute in E. injection E as <-.
  split; [reflexivity|]. split; [reflexivity|].
  apply (H [RenamedTo (py "x.html") (py "1. One.html")] (py "y.html") (py "2. Two.html") EACCES
           [RenamedTo (py "z.html") (py "3. Three.html")]).
  reflexivity.
Defined.

(** ** Errors stay with their file *)

(** With a standard output that takes every message the script is the one
    of [rename_body]. *)
Lemma get_new_filename_io_takes_all (stdout : event -> option (list N)) (d : folder) (p : str) :
  (forall ev, stdout ev = None) ->
  get_new_filename_io stdout d p = inr (get_new_filename d p).
Proof.
  intros H. unfold get_new_filename_io, get_new_filename.
  destruct (d !! p) as [[e|[h1|]]|]; rewrite ?H; try reflexivity.
  destruct (nonempty (strip (text h1))); rewrite ?H; reflexivity.
Qed.

Lemma rename_body_io_takes_all (stdout : event -> option (list N)) (os : os_iface)
    (add_index : bool) (st : script_state) (x : list N * Z) :
  (forall ev, stdout ev = None) ->
  rename_body_io stdout os add_index st x = inr (rename_body os add_index st x).
Proof.
  intros H. unfold rename_body_io, rename_body.
  rewrite (get_new_filename_io_takes_all stdout _ _ H).
  destruct (get_new_filename (s_disk st) (fst x)) as [[nn|] out]; [|reflexivity].
  destruct (nonempty nn); [|reflexivity].
  destruct (splitext os nn) as [base_name ext].
  destruct add_index;
    (destruct (path_exists (s_disk st) _);
     [|destruct (os_rename os (s_disk st) (fst x) _)]; rewrite ?H; reflexivity).
Qed.

Lemma run_io_fold {S A} (body_io : S -> A -> list N + S) (body : S -> A -> S)
    (l : list A) (st : S) :
  (forall st x, body_io st x = inr (body st x)) ->
  run_io body_io l st = inr (fold_left body l st).
Proof.
  intros H. revert st. induction l as [|x l IH]; intros st; simpl; [reflexivity|].
  rewrite H. apply IH.
Qed.

(** A round that returns puts its file into one of the two lists. *)
Lemma rename_body_io_outcome (stdout : event -> option (list N)) (os : os_iface)
    (add_index : bool) (st st' : script_state) (x : list N * Z) :
  rename_body_io stdout os add_index st x = inr st' ->
  map fst (s_renamed_files st') ++ map fst (s_skipped_files st')
  ≡ₚ (map fst (s_renamed_files st) ++ map fst (s_skipped_files st)) ++ [fst x].
Proof.
  assert (Hsk : forall (ren : list (list N * list N))
                       (sk : list (list N * option (list N))) o,
    map fst ren ++ map fst (sk ++ [(fst x, o)]) ≡ₚ (map fst ren ++ map fst sk) ++ [fst x]).
  { intros ren sk o. now rewrite map_app, app_assoc. }
  assert (Hre : forall (ren : list (list N * list N)) (sk : list (list N * option (list N))) n,
    map fst (ren ++ [(fst x, n)]) ++ map fst sk ≡ₚ (map fst ren ++ map fst sk) ++ [fst x]).
  { intros ren sk n. rewrite map_app. simpl. rewrite <- !app_assoc.
    apply Permutation_app_head, Permutation_app_comm. }
  unfold rename_body_io.
  destruct (get_new_filename_io stdout (s_disk st) (fst x)) as [e|[[nn|] out]];
    [discriminate| |intros E; injection E as <-; apply Hsk].
  destruct (nonempty nn); [|intros E; injection E as <-; apply Hsk].
  destruct (splitext os nn) as [base_name ext].
  destruct add_index;
    (destruct (path_exists (s_disk st) _);
     [destruct (stdout (Conflict _ _)); [discriminate|intros E; injection E as <-; apply Hsk]|];
     destruct (os_rename os (s_disk st) (fst x) _) as [e|d'];
     [destruct (stdout (RenameError _ _ _));
      [discriminate|intros E; injection E as <-; apply Hsk]|];
     destruct (stdout (RenamedTo _ _)) as [e|];
     [destruct (stdout (RenameError _ _ _));
      [discriminate|intros E; injection E as <-; apply Hsk]|];
     intros E; injection E as <-; apply Hre).
Qed.

Lemma run_io_outcomes (stdout : event -> option (list N)) (os : os_iface) (add_index : bool)
    (l : list (list N * Z)) :
  forall st st',
    run_io (rename_body_io stdout os add_index) l st = inr st' ->
    map fst (s_renamed_files st') ++ map fst (s_skipped_files st')
    ≡ₚ (map fst (s_renamed_files st) ++ map fst (s_skipped_files st)) ++ map fst l.
Proof.
  induction l as [|x l IH]; intros st st' E; simpl in E.
  - injection E as <-. simpl. now rewrite app_nil_r.
  - destruct (rename_body_io stdout os add_index st x) as [e|st1] eqn:Hb; [discriminate|].
    rewrite (IH _ _ E), (rename_body_io_outcome _ _ _ _ _ _ Hb), <- app_assoc. reflexivity.
Qed.

(** C8, as stated, fails for the script: the entry it adds to the skipped
    files after a failed rename holds the name that was tried, and is the
    same whatever the message of the error. *)
Lemma script_skip_has_no_message :
  rename_html_files (posix (deny "a.html" EACCES)) false d_hello [(py "a.html", 10%Z)]
  = ([], [(py "a.html", Some (py "Hello.html"))]) /\
  py "Hello.html" <> EACCES /\
  (forall e : list N,
      rename_html_files (posix (deny "a.html" e)) false d_hello [(py "a.html", 10%Z)]
      = ([], [(py "a.html", Some (py "Hello.html"))])).
Proof.
  split; [vm_compute; reflexivity|]. split; [vm_compute; discriminate|].
  intros e. vm_compute. reflexivity.
Qed.

(** A message that cannot be printed ends the run of the script.  Here
    the standard output refuses what is said about a.html, the oldest of
    three files: the file is renamed, the print of line 85 raises, the one
    of line 88 in the handler raises again, and b.html and c.html are never
    looked at.  With an output that takes every message the run is the one
    of [rename_html_files]. *)
Lemma script_print_failure_aborts :
  rename_html_files_io (refuses "a.html") (posix permissive) false d_hello
    (map as_tuple files_hello) = inl ENCODE /\
  rename_html_files_io takes_all (posix permissive) false d_hello (map as_tuple files_hello)
  = inr ([(py "a.html", py "Hello.html"); (py "b.html", py "Hello_1.html")],
         [(py "c.html", Some (py "Hello_1.html"))]).
Proof. split; vm_compute; reflexivity. Qed.

(** C8 (amended): every error of a file is handled at that file.  In both
    versions a file that cannot be read or parsed is treated as one without
    heading: extraction gives [None] and the round only adds the file to
    the skipped ones.  When [os.rename] raises for the name the round has
    settled on, the round leaves the directory and the renamed files as
    they were and adds the file to the skipped ones: with the message of
    the exception in the class based version, with the name that was tried
    in the script, which only prints the message.  The class based run
    always returns, whatever fails, and every scanned file is among its
    renamed or skipped ones.  The script returns so when the standard
    output takes all its messages; its prints stand outside the handlers,
    so a run may end with the exception of a print, and a run that returns
    has every scanned file among the renamed or the skipped ones. *)
Theorem errors_stay_local (os : os_iface) (add_index : bool) :
  (forall (d : folder) p,
      d !! p = None \/ (exists e, d !! p = Some (Unreadable e)) \/ d !! p = Some (Soup None) ->
      (extract_title d p).1 = None /\ (get_new_filename d p).1 = None) /\
  (forall st f,
      (extract_title (disk st) (filename f)).1 = None ->
      exists st', generate_body os add_index st f = Some st' /\
        disk st' = disk st /\ new_filenames_set st' = new_filenames_set st /\
        index st' = index st /\ renamed_files st' = renamed_files st /\
        skipped_files st' = skipped_files st ++ [(filename f, NO_H1)]) /\
  (forall st f new_title logged,
      extract_title (disk st) (filename f) = (Some new_title, logged) ->
      new_title <> [] ->
      exists new_name,
        resolve_duplicates os (new_filenames_set st) (disk st) (new_title ++ py ".html")
        = Some new_name /\
        forall e,
          os_rename os (disk st) (filename f) (with_index add_index (index st) new_name)
          = inl e ->
          exists st', generate_body os add_index st f = Some st' /\
            disk st' = disk st /\ renamed_files st' = renamed_files st /\
            skipped_files st' = skipped_files st ++ [(filename f, e)] /\
            last (log st')
            = Some (RenameError (filename f) (with_index add_index (index st) new_name) e)) /\
  (forall d html_files, exists renamed skipped,
      perform_renaming os add_index d html_files = Some (renamed, skipped) /\
      forall f, f ∈ html_files -> filename f ∈ map fst renamed ++ map fst skipped) /\
  (forall st (x : list N * Z),
      (get_new_filename (s_disk st) (fst x)).1 = None ->
      s_disk (rename_body os add_index st x) = s_disk st /\
      new_filenames (rename_body os add_index st x) = new_filenames st /\
      s_index (rename_body os add_index st x) = s_index st /\
      s_renamed_files (rename_body os add_index st x) = s_renamed_files st /\
      s_skipped_files (rename_body os add_index st x) = s_skipped_files st ++ [(fst x, None)]) /\
  (forall st (x : list N * Z) new_name out e,
      get_new_filename (s_disk st) (fst x) = (Some new_name, out) ->
      path_exists (s_disk st)
        (with_index add_index (s_index st) (script_resolved os (new_filenames st) new_name))
      = false ->
      os_rename os (s_disk st) (fst x)
        (with_index add_index (s_index st) (script_resolved os (new_filenames st) new_name))
      = inl e ->
      s_disk (rename_body os add_index st x) = s_disk st /\
      s_renamed_files (rename_body os add_index st x) = s_renamed_files st /\
      s_skipped_files (rename_body os add_index st x)
      = s_skipped_files st ++
        [(fst x, Some (with_index add_index (s_index st)
                         (script_resolved os (new_filenames st) new_name)))] /\
      last (printed (rename_body os add_index st x))
      = Some (RenameError (fst x)
                (with_index add_index (s_index st)
                   (script_resolved os (new_filenames st) new_name)) e)) /\
  (forall (stdout : event -> option (list N)) d html_files,
      (forall ev, stdout ev = None) ->
      rename_html_files_io stdout os add_index d (map as_tuple html_files)
      = inr (rename_html_files os add_index d (map as_tuple html_files))) /\
  (forall (stdout : event -> option (list N)) d html_files renamed skipped,
      rename_html_files_io stdout os add_index d (map as_tuple html_files)
      = inr (renamed, skipped) ->
      forall f, f ∈ html_files -> filename f ∈ map fst renamed ++ map fst skipped).
Proof.
  split; [|split; [|split; [|split; [|split; [|split; [|split]]]]]].
  - intros d p H. unfold extract_title, get_new_filename.
    destruct H as [->|[[e ->]| ->]]; split; reflexivity.
  - intros st f Hnone.
    destruct (generate_body_step os add_index st f) as [st' [Hb Hs]].
    exists st'. split; [exact Hb|].
    destruct Hs as [t lg E _|t lg k d' E _ _ _ _ _|t lg k e E _ _ _ _ _];
      rewrite E in Hnone; simpl in Hnone; try discriminate.
    simpl. auto.
  - intros st f t lg E Hne.
    destruct (resolve_duplicates_returns os (new_filenames_set st) (disk st) (t ++ py ".html"))
      as [k [_ [Hres _]]].
    eexists. split; [exact Hres|]. intros e Hfail.
    unfold generate_body. rewrite E, (proj2 (nonempty_true t) Hne), Hres.
    unfold with_index in Hfail.
    destruct add_index; rewrite Hfail; eexists; (split; [reflexivity|]); simpl;
      rewrite !app_assoc, last_snoc; auto.
  - intros d html_files.
    destruct (perform_renaming_outcomes os add_index d html_files) as (r & s & E & Hp).
    exists r, s. split; [exact E|]. intros f Hf. rewrite Hp. now apply list_elem_of_fmap_2.
  - intros st x Hnone. unfold rename_body.
    destruct (get_new_filename (s_disk st) (fst x)) as [nn out]. simpl in Hnone.
    subst nn. simpl. auto.
  - intros st x nn out e E Hex Hfail. unfold rename_body. rewrite E.
    rewrite (get_new_filename_nonempty _ _ _ _ E).
    unfold script_resolved in Hex, Hfail |- *.
    destruct (splitext os nn) as [base_name ext].
    set (resolved := if 0 <? default 0 (new_filenames st !! nn) then _ else _) in *.
    unfold with_index in Hex, Hfail |- *.
    destruct add_index; rewrite Hex, Hfail; simpl;
      rewrite !app_assoc, last_snoc; auto.
  - intros stdout d html_files Hall.
    unfold rename_html_files_io, rename_loop_io, rename_html_files, rename_loop.
    rewrite (run_io_fold _ (rename_body os add_index)); [reflexivity|].
    intros st x. now apply rename_body_io_takes_all.
  - intros stdout d html_files renamed skipped E f Hf.
    unfold rename_html_files_io, rename_loop_io in E.
    destruct (run_io _ _ _) as [e|st] eqn:Hrun; [discriminate|]. injection E as <- <-.
    rewrite (run_io_outcomes _ _ _ _ _ _ Hrun). simpl.
    rewrite sorted_by_as_tuple, map_map. simpl.
    apply list_elem_of_fmap_2. now rewrite sorted_by_perm.
Qed.

Lemma errors_stay_local_witness :
  (exists st',
      generate_body (nt permissive) true (renamer_init d_old) (entry "a.html" 10) = Some st' /\
      skipped_files st' = [(py "a.html", EEXIST)]) /\
  s_skipped_files (rename_body (posix (deny "a.html" EACCES)) false
                     (script_init d_hello) (py "a.html", 10%Z))
  = [(py "a.html", Some (py "Hello.html"))].
Proof.
  split.
  - destruct (proj1 (proj2 (proj2 (errors_stay_local (nt permissive) true)))
                (renamer_init d_old) (entry "a.html" 10) (py "Hello") [])
      as (new_name & Hres & H).
    + reflexivity.
    + discriminate.
    + vm_compute in Hres. injection Hres as <-.
      destruct (H EEXIST) as (st' & E & _ & _ & Hsk & _); [reflexivity|].
      exists st'. split; [exact E|exact Hsk].
  - apply (proj1 (proj2 (proj2 (proj2 (proj2 (proj2
              (errors_stay_local (posix (deny "a.html" EACCES)) false))))))
             (script_init d_hello) (py "a.html", 10%Z) (py "Hello.html") [] EACCES);
      reflexivity.
Defined.

(** ** The two versions compared *)

Lemma sanitize_no_space (s : str) : ~ In 32%N (sanitize s).
Proof. intros H. apply sanitize_clean in H as [_ H]. discriminate. Qed.

Lemma with_index_space (i : nat) (n : str) : In 32%N (with_index true i n).
Proof. unfold with_index. apply in_or_app. right. simpl. auto. Qed.

Lemma extract_title_sanitized (d : folder) p t lg :
  extract_title d p = (Some t, lg) -> ~ In 32%N (t ++ py ".html").
Proof.
  unfold extract_title.
  destruct (d !! p) as [[e|[h1|]]|]; try discriminate.
  destruct (nonempty (get_text_strip h1)); [|discriminate].
  intros E. injection E as <- _. intros H. apply in_app_or in H as [H|H].
  - now apply sanitize_no_space in H.
  - simpl in H. intuition discriminate.
Qed.

Lemma no_filename_no_title (d : folder) p :
  (get_new_filename d p).1 = None -> (extract_title d p).1 = None.
Proof.
  unfold get_new_filename, extract_title.
  destruct (d !! p) as [[e|[h1|]]|]; try reflexivity.
  rewrite heading_tests_agree. now destruct (nonempty (strip (text h1))).
Qed.

Lemma resolve_duplicates_free (os : os_iface) (names : gset (list N)) (d : folder) n :
  taken names d n = false -> resolve_duplicates os names d n = Some n.
Proof. intros H. unfold resolve_duplicates. cbn [dedup_loop]. now rewrite H. Qed.

(** A quiet round takes corresponding states to corresponding states. *)
Lemma quiet_round_sim (os : os_iface) (add_index : bool) ps cs (f : file_info) :
  sim add_index ps cs -> quiet_round add_index ps f ->
  exists cs', generate_body os add_index cs f = Some cs' /\
              sim add_index (rename_body os add_index ps (as_tuple f)) cs'.
Proof.
  intros (Hd & Hi & Hr & Hs & Hn) Hq.
  unfold quiet_round in Hq. unfold generate_body, rename_body. simpl fst.
  rewrite <- Hd.
  pose proof (no_filename_no_title (s_disk ps) (filename f)) as Hnone.
  pose proof (get_new_filename_nonempty (s_disk ps) (filename f)) as Hnn.
  pose proof (extract_title_sanitized (s_disk ps) (filename f)) as Hsan.
  destruct (get_new_filename (s_disk ps) (filename f)) as [[nn|] out];
    destruct (extract_title (s_disk ps) (filename f)) as [[t|] lg]; simpl in Hq, Hnone.
  - destruct Hq as (Hne & -> & Hfresh & Hdisk & Hfinal).
    rewrite (Hnn _ _ eq_refl). apply nonempty_true in Hne. rewrite Hne.
    assert (Htaken : taken (new_filenames_set cs) (s_disk ps) (t ++ py ".html") = false).
    { unfold taken, path_exists. rewrite Hdisk.
      rewrite (bool_decide_eq_false_2 (is_Some None)); [|intros [? ?]; discriminate].
      rewrite bool_decide_eq_false_2; [reflexivity|].
      intros Hin. apply Hn in Hin. destruct add_index.
      - now apply (Hsan t lg).
      - rewrite Hfresh in Hin. now destruct Hin. }
    rewrite (resolve_duplicates_free os _ _ _ Htaken), Hfresh. simpl default.
    destruct (splitext os (t ++ py ".html")) as [base_name ext].
    change (0 <? 0) with false. cbv iota.
    assert (Hset : forall n,
               n ∈ {[with_index add_index (s_index ps) (t ++ py ".html")]} ∪ new_filenames_set cs ->
               if add_index then In 32%N n
               else is_Some (<[t ++ py ".html" := 0 + 1]> (new_filenames ps) !! n)).
    { intros n Hin. apply elem_of_union in Hin as [Hin|Hin].
      - apply elem_of_singleton in Hin as ->. destruct add_index.
        + apply with_index_space.
        + simpl. rewrite lookup_insert_eq. eauto.
      - apply Hn in Hin. destruct add_index; [exact Hin|].
        apply lookup_insert_is_Some'. now right. }
    assert (E : (if add_index
                 then (dec (s_index ps) ++ py ". " ++ (t ++ py ".html"), S (s_index ps))
                 else (t ++ py ".html", s_index ps))
                = (with_index add_index (s_index ps) (t ++ py ".html"),
                   next_index add_index (s_index ps)))
      by now destruct add_index.
    rewrite <- Hi, E. clear E.
    unfold path_exists. rewrite Hfinal.
    rewrite bool_decide_eq_false_2; [|intros [? ?]; discriminate].
    destruct (os_rename os (s_disk ps) (filename f) _) as [e|d'];
      eexists; (split; [reflexivity|]); repeat split; simpl; auto;
      rewrite ?map_app, ?Hr, ?Hs; reflexivity.
  - contradiction.
  - discriminate (Hnone eq_refl).
  - eexists. split; [reflexivity|]. repeat split; simpl; auto.
    now rewrite !map_app, Hs.
Qed.

Lemma collision_free_sim (os : os_iface) (add_index : bool) (files : list file_info) :
  forall ps cs, sim add_index ps cs -> collision_free os add_index ps files ->
  exists cs', run_loop (generate_body os add_index) files cs = Some cs' /\
              sim add_index (fold_left (rename_body os add_index) (map as_tuple files) ps) cs'.
Proof.
  induction files as [|f files IH]; intros ps cs Hsim Hfree; simpl.
  - exists cs. auto.
  - destruct Hfree as [Hq Hfree].
    destruct (quiet_round_sim os add_index ps cs f Hsim Hq) as [cs1 [-> Hsim1]].
    apply IH; assumption.
Qed.

(** C1, as stated: on three files with the same heading the script gives
    the second one the suffix [_1] where the class based version gives
    [_2], so the two results differ. *)
Lemma implementations_differ :
  ~ implementations_agree (posix permissive) false d_hello files_hello.
Proof.
  intros (r & s & E & Hr & _). vm_compute in E. injection E as <- <-.
  vm_compute in Hr. discriminate.
Qed.

(** C1 (amended): the two versions rename the same files to the same
    names and skip the same files, in the same order, on every run without
    collision, that is, when for every file with heading text, at the time
    it is processed, both extractors read the same non-empty title, the
    candidate [title.html] has not been given out before in the run and is
    not in the directory, and the final name is not in the directory. *)
Theorem implementations_agree_without_collision (os : os_iface) (add_index : bool)
    (d : folder) (html_files : list file_info) :
  collision_free os add_index (script_init d) (sort_files_by_creation_date html_files) ->
  implementations_agree os add_index d html_files.
Proof.
  intros Hfree.
  assert (Hsim : sim add_index (script_init d) (renamer_init d)).
  { repeat split; simpl; auto. intros n Hn. now apply not_elem_of_empty in Hn. }
  destruct (collision_free_sim os add_index _ _ _ Hsim Hfree) as [cs [E (_ & _ & Hr & Hs & _)]].
  unfold implementations_agree, perform_renaming, generate_new_filenames.
  rewrite E. exists (renamed_files cs), (skipped_files cs). split; [reflexivity|].
  unfold rename_html_files, rename_loop. simpl.
  rewrite sorted_by_as_tuple. auto.
Qed.

Lemma implementations_agree_without_collision_witness :
  implementations_agree (posix (deny "y.html" EACCES)) true d_abc files_abc.
Proof.
  apply implementations_agree_without_collision.
  vm_compute. repeat split; discriminate.
Defined.

(** ** Collision resolution *)

(** The class based version follows the scheme: the result is the first
    free name among [base], [name_2 ext], [name_3 ext], ... *)
Lemma resolve_duplicates_least (os : os_iface) (names : gset (list N)) (d : folder) base j :
  1 <= j ->
  taken names d (candidate os base j) = false ->
  (forall i, 1 <= i < j -> taken names d (candidate os base i) = true) ->
  resolve_duplicates os names d base = Some (candidate os base j).
Proof.
  intros Hj Hfree Hbusy.
  destruct (resolve_duplicates_returns os names d base) as (k & Hk & -> & Hkfree & Hkbusy).
  destruct (lt_eq_lt_dec k j) as [[Hlt| ->]|Hgt]; [|reflexivity|].
  - rewrite Hbusy in Hkfree by lia. discriminate.
  - rewrite Hkbusy in Hfree by lia. discriminate.
Qed.

Lemma resolve_hello (denied : list N -> option (list N)) (d : folder) :
  (d !! py "Hello.html" = None ->
   resolve_duplicates (posix denied) ∅ d (py "Hello.html") = Some (py "Hello.html")) /\
  (d !! py "Hello_2.html" = None ->
   resolve_duplicates (posix denied) {[py "Hello.html"]} d (py "Hello.html")
   = Some (py "Hello_2.html")) /\
  (d !! py "Hello_3.html" = None ->
   resolve_duplicates (posix denied) ({[py "Hello.html"]} ∪ {[py "Hello_2.html"]}) d
     (py "Hello.html") = Some (py "Hello_3.html")).
Proof.
  assert (Hex : forall (names : gset (list N)) n,
             d !! n = None -> n ∉ names -> taken names d n = false).
  { intros names n Hd Hn. unfold taken, path_exists. rewrite Hd.
    rewrite (bool_decide_eq_false_2 (is_Some None)); [|intros [? ?]; discriminate].
    now rewrite bool_decide_eq_false_2. }
  assert (Hin : forall (names : gset (list N)) n, n ∈ names -> taken names d n = true).
  { intros names n Hn. unfold taken. now rewrite bool_decide_eq_true_2. }
  assert (C1 : candidate (posix denied) (py "Hello.html") 1 = py "Hello.html") by reflexivity.
  assert (C2 : candidate (posix denied) (py "Hello.html") 2 = py "Hello_2.html") by reflexivity.
  assert (C3 : candidate (posix denied) (py "Hello.html") 3 = py "Hello_3.html") by reflexivity.
  split; [|split]; intros Hd.
  - rewrite <- C1 at 2. apply resolve_duplicates_least; [lia| |intros i Hi; lia].
    rewrite C1. apply Hex; [exact Hd|]. apply not_elem_of_empty.
  - rewrite <- C2. apply resolve_duplicates_least; [lia| |].
    + rewrite C2. apply Hex; [exact Hd|]. rewrite elem_of_singleton. discriminate.
    + intros i Hi. assert (i = 1) as -> by lia. rewrite C1. apply Hin.
      now apply elem_of_singleton.
  - rewrite <- C3. apply resolve_duplicates_least; [lia| |].
    + rewrite C3. apply Hex; [exact Hd|]. rewrite elem_of_union, !elem_of_singleton.
      intros [H|H]; discriminate.
    + intros i Hi. assert (i = 1 \/ i = 2) as [-> | ->] by lia;
        rewrite ?C1, ?C2; apply Hin;
        rewrite elem_of_union, !elem_of_singleton; [left|right]; reflexivity.
Qed.

(** C2 at the failing input: three files with the heading Hello.  The
    class based version follows the scheme of the claim (Hello.html,
    Hello_2.html, Hello_3.html); the script gives the second file the
    suffix [_1], then the same name again to the third, which is skipped
    because that name now exists. *)
Theorem script_repeats_suffix_1 :
  rename_html_files (posix permissive) false d_hello (map as_tuple files_hello)
  = ([(py "a.html", py "Hello.html"); (py "b.html", py "Hello_1.html")],
     [(py "c.html", Some (py "Hello_1.html"))]) /\
  perform_renaming (posix permissive) false d_hello files_hello
  = Some ([(py "a.html", py "Hello.html"); (py "b.html", py "Hello_2.html");
           (py "c.html", py "Hello_3.html")], []).
Proof. split; vm_compute; reflexivity. Qed.

(** ** What is reserved *)

(** Without indexing the resolved name is claimed before the rename is
    attempted and stays claimed whatever [os.rename] does, so the same
    candidate collides from then on. *)
Lemma reserved_before_rename (os : os_iface) (st : renamer) (f : file_info) new_title logged :
  extract_title (disk st) (filename f) = (Some new_title, logged) ->
  new_title <> [] ->
  exists st' r,
    generate_body os false st f = Some st' /\
    resolve_duplicates os (new_filenames_set st) (disk st) (new_title ++ py ".html") = Some r /\
    new_filenames_set st' = {[r]} ∪ new_filenames_set st /\
    forall d', taken (new_filenames_set st') d' r = true.
Proof.
  intros E Hne.
  destruct (generate_body_step os false st f) as [st' [Hb Hs]].
  assert (Hset : forall r, new_filenames_set st' = {[r]} ∪ new_filenames_set st ->
                           forall d', taken (new_filenames_set st') d' r = true).
  { intros r -> d'. unfold taken. rewrite bool_decide_eq_true_2; [reflexivity|].
    apply elem_of_union. left. now apply elem_of_singleton. }
  destruct Hs as [t' lg' E' [->| ->]|t' lg' k d' E' _ Hk Hfree Hbusy _
                 |t' lg' k e E' _ Hk Hfree Hbusy _];
    try (rewrite E in E'; congruence);
    rewrite E in E'; injection E' as <- <-;
    eexists; exists (candidate os (new_title ++ py ".html") k);
    (split; [exact Hb|]);
    (split; [now apply resolve_duplicates_least|]);
    (split; [reflexivity|]); now apply Hset.
Qed.

(** C4 at the failing input: indexing on, two files with the heading
    Hello, the rename of the first refused.  The class based version claims
    the prefixed name [1. Hello.html]; the un-prefixed [Hello.html] is not
    claimed and the second file's candidate does not collide: it becomes
    [2. Hello.html].  The script claims the un-prefixed name, and its second
    file collides with it: [2. Hello_1.html]. *)
Theorem prefixed_name_is_claimed :
  (exists st,
      generate_new_filenames (posix (deny "a.html" EACCES)) true
        [entry "b.html" 20; entry "a.html" 10] (renamer_init d_hello) = Some st /\
      new_filenames_set st = ({[py "1. Hello.html"]} ∪ {[py "2. Hello.html"]}) /\
      (py "Hello.html" ∉ new_filenames_set st) /\
      skipped_files st = [(py "a.html", EACCES)] /\
      renamed_files st = [(py "b.html", py "2. Hello.html")]) /\
  rename_html_files (posix (deny "a.html" EACCES)) true d_hello
    [(py "b.html", 20%Z); (py "a.html", 10%Z)]
  = ([(py "b.html", py "2. Hello_1.html")], [(py "a.html", Some (py "1. Hello.html"))]).
Proof.
  split; [|vm_compute; reflexivity].
  eexists. split; [vm_compute; reflexivity|].
  split; [vm_compute; reflexivity|].
  split; [|split; reflexivity].
  apply (bool_decide_eq_false_1 (py "Hello.html" ∈ _)). vm_compute. reflexivity.
Qed.

(** With indexing on, every claimed name holds the blank of its prefix,
    and no candidate made from a sanitized title does: the set of claimed
    names never decides the duplicate handling. *)
Lemma splitext_parts (os : os_iface) (p : str) :
  (splitext os p).1 ++ (splitext os p).2 = p.
Proof.
  unfold splitext.
  destruct (_ <? _)%Z; simpl; [|apply app_nil_r].
  destruct (forallb _ _); simpl; [apply app_nil_r|apply take_drop].
Qed.

Lemma candidate_no_space (os : os_iface) (base : str) (k : nat) :
  ~ In 32%N base -> ~ In 32%N (candidate os base k).
Proof.
  intros Hb. unfold candidate. destruct (k <=? 1); [exact Hb|].
  pose proof (splitext_parts os base) as Hp.
  destruct (splitext os base) as [name ext]. simpl in Hp.
  intros H. apply in_app_or in H as [H|H].
  - apply Hb. rewrite <- Hp. apply in_or_app. now left.
  - apply in_app_or in H as [H|H]; [simpl in H; intuition discriminate|].
    apply in_app_or in H as [H|H].
    + pose proof (dec_digits k) as Hd. rewrite Forall_forall in Hd.
      apply list_elem_of_In, Hd in H. unfold digit in H. lia.
    + apply Hb. rewrite <- Hp. apply in_or_app. now right.
Qed.

Lemma claimed_names_prefixed (os : os_iface) (d : folder) (l : list file_info) st :
  run_loop (generate_body os true) l (renamer_init d) = Some st ->
  forall n, n ∈ new_filenames_set st -> In 32%N n.
Proof.
  destruct (generate_loop_ind os true
              (fun _ st => forall n, n ∈ new_filenames_set st -> In 32%N n) (renamer_init d))
    with (l := l) as [st' [E H]].
  - intros n Hn. now apply not_elem_of_empty in Hn.
  - intros done s f s' HP Hs.
    destruct Hs as [t lg E _|t lg k d' E _ _ _ _ _|t lg k e E _ _ _ _ _]; simpl; auto;
      intros n Hn; apply elem_of_union in Hn as [Hn|Hn]; auto;
      apply elem_of_singleton in Hn as ->; apply with_index_space.
  - intros E'. rewrite E in E'. now injection E' as <-.
Qed.

Lemma claimed_names_idle (os : os_iface) (d : folder) (l : list file_info) st p t lg k :
  run_loop (generate_body os true) l (renamer_init d) = Some st ->
  extract_title (disk st) p = (Some t, lg) ->
  taken (new_filenames_set st) (disk st) (candidate os (t ++ py ".html") k)
  = path_exists (disk st) (candidate os (t ++ py ".html") k).
Proof.
  intros Hrun E. unfold taken.
  rewrite bool_decide_eq_false_2; [reflexivity|].
  intros Hin. apply (claimed_names_prefixed os d l st Hrun) in Hin.
  revert Hin. apply candidate_no_space. now apply (extract_title_sanitized _ _ _ _ E).
Qed.

(** The end-to-end scenario of the spec. *)
Lemma end_to_end_intro :
  perform_renaming (posix permissive) false d_intro files_intro
  = Some ([(py "A.html", py "Intro.html")], [(py "B.html", NO_H1)]) /\
  perform_renaming (posix permissive) true d_intro files_intro
  = Some ([(py "A.html", py "1. Intro.html")], [(py "B.html", NO_H1)]) /\
  rename_html_files (posix permissive) true d_intro (map as_tuple files_intro)
  = ([(py "A.html", py "1. Intro.html")], [(py "B.html", None)]) /\
  perform_renaming (nt permissive) true d_intro files_intro
  = Some ([(py "A.html", py "1. Intro.html")], [(py "B.html", NO_H1)]).
Proof. repeat split; vm_compute; reflexivity. Qed.

(** * Further properties of the code *)

(** ** The duplicate handling of the class based version *)

Lemma candidate_length (os : os_iface) (base : str) (k : nat) :
  2 <= k -> length base < length (candidate os base k).
Proof.
  intros Hk. unfold candidate. destruct (Nat.leb_spec k 1); [lia|].
  pose proof (splitext_parts os base) as Hp.
  destruct (splitext os base) as [name ext]. simpl in Hp. rewrite <- Hp.
  rewrite !length_app. simpl. lia.
Qed.

(** X1: the duplicate handling of [generate_new_filenames] always
    returns.  Its result is the first name, in the order candidate, [_2],
    [_3], ..., that is neither claimed in this run nor in the directory;
    all names before it are taken; and the candidate comes back unchanged
    exactly when it is free itself. *)
Theorem duplicate_handling_finds_first_free (os : os_iface) (names : gset (list N))
    (d : folder) (new_name : str) :
  (exists k, 1 <= k /\
     resolve_duplicates os names d new_name = Some (candidate os new_name k) /\
     (candidate os new_name k ∉ names) /\ d !! candidate os new_name k = None /\
     forall i, 1 <= i < k ->
       candidate os new_name i ∈ names \/ is_Some (d !! candidate os new_name i)) /\
  (resolve_duplicates os names d new_name = Some new_name <->
   (new_name ∉ names) /\ d !! new_name = None).
Proof.
  assert (Hfree : forall n, taken names d n = false <-> (n ∉ names) /\ d !! n = None).
  { intros n. unfold taken, path_exists. rewrite orb_false_iff, !bool_decide_eq_false.
    rewrite <- eq_None_not_Some. reflexivity. }
  assert (Hbusy : forall n, taken names d n = true -> n ∈ names \/ is_Some (d !! n)).
  { intros n. unfold taken, path_exists. rewrite orb_true_iff, !bool_decide_eq_true. auto. }
  destruct (resolve_duplicates_returns os names d new_name) as (k & Hk & E & Hf & Hb).
  split.
  - exists k. apply Hfree in Hf as [Hf1 Hf2]. repeat split; auto.
  - split.
    + intros E'. rewrite E in E'. injection E' as E'.
      destruct (decide (k = 1)) as [->|Hne].
      * now apply Hfree.
      * pose proof (candidate_length os new_name k ltac:(lia)) as Hl.
        rewrite E' in Hl. lia.
    + intros H. apply resolve_duplicates_free. now apply Hfree.
Qed.

(** ** The names given to duplicates *)

Lemma rfind_from_absent (i : Z) (c : N) (s : str) :
  ~ In c s -> rfind_from i c s = (-1)%Z.
Proof.
  revert i. induction s as [|x s IH]; intros i H; simpl; [reflexivity|].
  rewrite IH by (intros H'; apply H; now right). simpl.
  destruct (N.eqb_spec x c) as [->|]; [|reflexivity].
  exfalso. apply H. now left.
Qed.

Lemma rfind_from_last (i : Z) (c : N) (a b : str) :
  (0 <= i)%Z -> ~ In c b ->
  rfind_from i c (a ++ c :: b) = (i + Z.of_nat (length a))%Z.
Proof.
  revert i. induction a as [|x a IH]; intros i Hi Hb; simpl rfind_from.
  - rewrite rfind_from_absent by exact Hb. simpl. rewrite N.eqb_refl. simpl length. lia.
  - rewrite IH by (try lia; exact Hb).
    destruct (Z.leb_spec 0 (i + 1 + Z.of_nat (length a))); [|lia].
    simpl length. lia.
Qed.

(** [splitext] of [t.html] when the separators do not occur in it: the
    extension is split off unless [t] consists of dots only. *)
Lemma splitext_html (os : os_iface) (t : str) :
  ~ In (sep os) (t ++ py ".html") ->
  (forall a, altsep os = Some a -> ~ In a (t ++ py ".html")) ->
  splitext os (t ++ py ".html") =
  if forallb (N.eqb extsep) t then (t ++ py ".html", []) else (t, py ".html").
Proof.
  intros Hsep Halt. unfold splitext.
  assert (Hs : match altsep os with
               | Some a => Z.max (rfind (sep os) (t ++ py ".html")) (rfind a (t ++ py ".html"))
               | None => rfind (sep os) (t ++ py ".html")
               end = (-1)%Z).
  { unfold rfind. rewrite (rfind_from_absent 0 (sep os)) by exact Hsep.
    destruct (altsep os) as [a|]; [|reflexivity].
    rewrite (rfind_from_absent 0 a) by (now apply Halt). reflexivity. }
  rewrite Hs.
  assert (Hd : rfind extsep (t ++ py ".html") = Z.of_nat (length t)).
  { unfold rfind. change (py ".html") with (extsep :: py "html").
    rewrite rfind_from_last; [lia|lia|]. simpl. intuition discriminate. }
  rewrite Hd. destruct (Z.ltb_spec (-1) (Z.of_nat (length t))); [|lia].
  replace (Z.to_nat (Z.of_nat (length t) - (-1 + 1))) with (length t) by lia.
  replace (Z.to_nat (-1 + 1)) with 0 by lia.
  rewrite Nat2Z.id, drop_0, take_app_length, drop_app_length.
  reflexivity.
Qed.

Lemma sanitize_no_separator (s : str) (c : N) :
  c = 47%N \/ c = 92%N -> ~ In c (sanitize s ++ py ".html").
Proof.
  intros Hc H. apply in_app_or in H as [H|H].
  - apply sanitize_clean in H as [H _]. destruct Hc as [-> | ->]; discriminate.
  - simpl in H. destruct Hc as [-> | ->]; intuition discriminate.
Qed.

(** X2: the names the class based version tries for a duplicate, on POSIX
    and on Windows.  For a sanitized title [t] that has a character other
    than a dot, round k (k = 2, 3, ...) tries [t_k.html].  For a title of
    dots only, [os.path.splitext] finds no extension and the name tried is
    [t.html_k], which no longer ends in [.html]. *)
Theorem duplicate_names_shape (denied : list N -> option (list N)) (s : str) (k : nat) :
  2 <= k ->
  forall os, os = posix denied \/ os = nt denied ->
  ((exists c, In c (sanitize s) /\ c <> 46%N) ->
   candidate os (sanitize s ++ py ".html") k
   = sanitize s ++ py "_" ++ dec k ++ py ".html") /\
  ((forall c, In c (sanitize s) -> c = 46%N) ->
   candidate os (sanitize s ++ py ".html") k
   = sanitize s ++ py ".html" ++ py "_" ++ dec k).
Proof.
  intros Hk os Hos.
  assert (E : splitext os (sanitize s ++ py ".html") =
              if forallb (N.eqb extsep) (sanitize s)
              then (sanitize s ++ py ".html", []) else (sanitize s, py ".html")).
  { apply splitext_html.
    - destruct Hos as [-> | ->]; apply sanitize_no_separator; simpl; auto.
    - intros a Ha. destruct Hos as [-> | ->]; simpl in Ha; [discriminate|].
      injection Ha as <-. apply sanitize_no_separator. auto. }
  unfold candidate. destruct (Nat.leb_spec k 1); [lia|]. rewrite E.
  split.
  - intros (c & Hc & Hne).
    destruct (forallb (N.eqb extsep) (sanitize s)) eqn:Hall; [|reflexivity].
    rewrite forallb_forall in Hall. specialize (Hall c Hc).
    apply N.eqb_eq in Hall. unfold extsep in Hall. congruence.
  - intros Hall.
    destruct (forallb (N.eqb extsep) (sanitize s)) eqn:Hf.
    + rewrite <- !app_assoc, app_nil_r. reflexivity.
    + exfalso. apply not_true_iff_false in Hf. apply Hf. apply forallb_forall.
      intros c Hc. apply N.eqb_eq. unfold extsep. symmetry. now apply Hall.
Qed.

Lemma duplicate_names_shape_witness :
  candidate (posix permissive) (sanitize (py "A: B") ++ py ".html") 2 = py "A_B_2.html" /\
  candidate (nt permissive) (sanitize (py "...") ++ py ".html") 3 = py "....html_3".
Proof.
  split.
  - apply (proj1 (duplicate_names_shape permissive (py "A: B") 2 ltac:(lia)
                    (posix permissive) (or_introl eq_refl))).
    exists 65%N. split; [vm_compute; auto|discriminate].
  - apply (proj2 (duplicate_names_shape permissive (py "...") 3 ltac:(lia)
                    (nt permissive) (or_intror eq_refl))).
    intros c Hc. vm_compute in Hc. intuition congruence.
Defined.

(** ** What a round tries, in detail *)

Lemma generate_body_attempt (os : os_iface) (add_index : bool) (st : renamer)
    (f : file_info) (st' : renamer) :
  generate_body os add_index st f = Some st' ->
  (attempts (log st') = attempts (log st) /\
   new_filenames_set st' = new_filenames_set st /\ disk st' = disk st /\
   index st' = index st) \/
  (exists t lg k,
      extract_title (disk st) (filename f) = (Some t, lg) /\ t <> [] /\ 1 <= k /\
      taken (new_filenames_set st) (disk st) (candidate os (t ++ py ".html") k) = false /\
      attempts (log st') = attempts (log st) ++
        [(filename f, with_index add_index (index st) (candidate os (t ++ py ".html") k))] /\
      new_filenames_set st' =
        {[with_index add_index (index st) (candidate os (t ++ py ".html") k)]}
        ∪ new_filenames_set st /\
      index st' = next_index add_index (index st) /\
      (os_rename os (disk st) (filename f)
         (with_index add_index (index st) (candidate os (t ++ py ".html") k)) = inr (disk st') \/
       (disk st' = disk st /\
        exists e, os_rename os (disk st) (filename f)
          (with_index add_index (index st) (candidate os (t ++ py ".html") k)) = inl e))).
Proof.
  intros Hb.
  destruct (generate_body_step os add_index st f) as [st'' [Hb' Hs]].
  rewrite Hb in Hb'. injection Hb' as <-.
  pose proof (extract_title_quiet (disk st) (filename f)) as [Hq _].
  destruct Hs as [t lg E _|t lg k d' E Hne Hk Hfree _ Hr|t lg k e E Hne Hk Hfree _ Hr];
    simpl; rewrite E in Hq; simpl in Hq.
  - left. rewrite attempts_app, Hq, app_nil_r. auto.
  - right. exists t, lg, k. rewrite !attempts_app, Hq. simpl. repeat split; auto.
  - right. exists t, lg, k. rewrite !attempts_app, Hq. simpl. repeat split; eauto.
Qed.

Lemma rename_body_attempt (os : os_iface) (add_index : bool) (st : script_state)
    (x : list N * Z) :
  (attempts (printed (rename_body os add_index st x)) = attempts (printed st) /\
   new_filenames (rename_body os add_index st x) = new_filenames st /\
   s_disk (rename_body os add_index st x) = s_disk st /\
   s_renamed_files (rename_body os add_index st x) = s_renamed_files st /\
   s_skipped_files (rename_body os add_index st x) = s_skipped_files st ++ [(fst x, None)]) \/
  (exists nn out,
      get_new_filename (s_disk st) (fst x) = (Some nn, out) /\
      attempts (printed (rename_body os add_index st x)) = attempts (printed st) ++
        [(fst x, with_index add_index (s_index st) (script_resolved os (new_filenames st) nn))] /\
      new_filenames (rename_body os add_index st x) =
        <[script_resolved os (new_filenames st) nn := default 0 (new_filenames st !! nn) + 1]>
          (new_filenames st) /\
      ((path_exists (s_disk st)
          (with_index add_index (s_index st) (script_resolved os (new_filenames st) nn)) = true /\
        s_disk (rename_body os add_index st x) = s_disk st /\
        s_renamed_files (rename_body os add_index st x) = s_renamed_files st /\
        s_skipped_files (rename_body os add_index st x) = s_skipped_files st ++
          [(fst x, Some (with_index add_index (s_index st)
                           (script_resolved os (new_filenames st) nn)))]) \/
       (path_exists (s_disk st)
          (with_index add_index (s_index st) (script_resolved os (new_filenames st) nn)) = false /\
        os_rename os (s_disk st) (fst x)
          (with_index add_index (s_index st) (script_resolved os (new_filenames st) nn))
        = inr (s_disk (rename_body os add_index st x)) /\
        s_renamed_files (rename_body os add_index st x) = s_renamed_files st ++
          [(fst x, with_index add_index (s_index st)
                     (script_resolved os (new_filenames st) nn))] /\
        s_skipped_files (rename_body os add_index st x) = s_skipped_files st) \/
       (path_exists (s_disk st)
          (with_index add_index (s_index st) (script_resolved os (new_filenames st) nn)) = false /\
        (exists e, os_rename os (s_disk st) (fst x)
          (with_index add_index (s_index st) (script_resolved os (new_filenames st) nn)) = inl e) /\
        s_disk (rename_body os add_index st x) = s_disk st /\
        s_renamed_files (rename_body os add_index st x) = s_renamed_files st /\
        s_skipped_files (rename_body os add_index st x) = s_skipped_files st ++
          [(fst x, Some (with_index add_index (s_index st)
                           (script_resolved os (new_filenames st) nn)))]))).
Proof.
  unfold rename_body, script_resolved.
  pose proof (get_new_filename_quiet (s_disk st) (fst x)) as Hq.
  pose proof (get_new_filename_nonempty (s_disk st) (fst x)) as Hnn.
  destruct (get_new_filename (s_disk st) (fst x)) as [[nn|] out]; simpl in Hq.
  - rewrite (Hnn nn out eq_refl). right. exists nn, out. split; [reflexivity|].
    destruct (splitext os nn) as [base_name ext].
    set (resolved := if 0 <? default 0 (new_filenames st !! nn) then _ else _).
    assert (E : (if add_index
                 then (dec (s_index st) ++ py ". " ++ resolved, S (s_index st))
                 else (resolved, s_index st))
                = (with_index add_index (s_index st) resolved,
                   next_index add_index (s_index st)))
      by now destruct add_index.
    rewrite E. clear E.
    destruct (path_exists (s_disk st) _) eqn:Hex; simpl.
    + rewrite !attempts_app, Hq. simpl. split; [reflexivity|]. split; [reflexivity|].
      left. auto.
    + destruct (os_rename os (s_disk st) (fst x) _) as [e|d'] eqn:Hr; simpl;
        rewrite !attempts_app, Hq; simpl; (split; [reflexivity|]); (split; [reflexivity|]);
        right; [right|left]; repeat split; eauto.
  - left. simpl. rewrite attempts_app, Hq, app_nil_r. auto.
Qed.

(** Induction over a run of the class based loop, by the rounds of the
    function itself. *)
Lemma generate_loop_body_ind (os : os_iface) (add_index : bool)
    (P : list file_info -> renamer -> Prop) (st0 : renamer) :
  P [] st0 ->
  (forall done st f st',
      P done st -> generate_body os add_index st f = Some st' -> P (done ++ [f]) st') ->
  forall l, exists st', run_loop (generate_body os add_index) l st0 = Some st' /\ P l st'.
Proof.
  intros H0 Hstep l. induction l as [|f l IH] using rev_ind.
  - exists st0. split; [reflexivity|exact H0].
  - destruct IH as [st [Hrun HP]].
    destruct (generate_body_step os add_index st f) as [st' [Hb _]].
    exists st'. split; [|eapply Hstep; eauto].
    rewrite run_loop_app, Hrun. simpl. now rewrite Hb.
Qed.

(** ** Target names *)

Lemma clean_app (a b : str) : clean_name a -> clean_name b -> clean_name (a ++ b).
Proof. intros Ha Hb c Hc. apply in_app_or in Hc as [Hc|Hc]; auto. Qed.

Lemma clean_digits (l : str) : Forall digit l -> clean_name l.
Proof.
  intros H c Hc. rewrite Forall_forall in H. apply list_elem_of_In, H in Hc.
  unfold digit in Hc. unfold invalid_char, INVALID_FILENAME_CHARS. simpl.
  repeat match goal with
         | |- context [N.eqb c ?k] => destruct (N.eqb_spec c k); [lia|]
         end.
  reflexivity.
Qed.

Lemma clean_literal (l : str) : forallb (fun c => negb (invalid_char c)) l = true -> clean_name l.
Proof.
  intros H c Hc. rewrite forallb_forall in H. specialize (H c Hc).
  now destruct (invalid_char c).
Qed.

Lemma clean_sanitize (s : str) : clean_name (sanitize s).
Proof. intros c Hc. now apply sanitize_clean in Hc. Qed.

Lemma clean_splitext (os : os_iface) (p : str) :
  clean_name p -> clean_name (splitext os p).1 /\ clean_name (splitext os p).2.
Proof.
  intros H. pose proof (splitext_parts os p) as Hp.
  split; intros c Hc; apply H; rewrite <- Hp; apply in_or_app; auto.
Qed.

Lemma clean_candidate (os : os_iface) (base : str) (k : nat) :
  clean_name base -> clean_name (candidate os base k).
Proof.
  intros H. unfold candidate. destruct (k <=? 1); [exact H|].
  destruct (clean_splitext os base H) as [H1 H2].
  destruct (splitext os base) as [name ext]. simpl in H1, H2.
  repeat apply clean_app; auto.
  - now apply clean_literal.
  - apply clean_digits, dec_digits.
Qed.

Lemma clean_with_index (add_index : bool) (i : nat) (n : str) :
  clean_name n -> clean_name (with_index add_index i n).
Proof.
  intros H. unfold with_index. destruct add_index; [|exact H].
  repeat apply clean_app; auto.
  - apply clean_digits, dec_digits.
  - now apply clean_literal.
Qed.

Lemma clean_title (d : folder) (p t : str) lg :
  extract_title d p = (Some t, lg) -> clean_name (t ++ py ".html").
Proof.
  unfold extract_title. destruct (d !! p) as [[e|[h1|]]|]; try discriminate.
  destruct (nonempty (get_text_strip h1)); [|discriminate].
  intros E. injection E as <- _. apply clean_app; [apply clean_sanitize|now apply clean_literal].
Qed.

Lemma clean_new_filename (d : folder) (p nn : str) out :
  get_new_filename d p = (Some nn, out) -> clean_name nn.
Proof.
  unfold get_new_filename. destruct (d !! p) as [[e|[h1|]]|]; try discriminate.
  destruct (nonempty (strip (text h1))); [|discriminate].
  intros E. injection E as <- _. rewrite sanitize_filename_eq.
  apply clean_app; [apply clean_sanitize|now apply clean_literal].
Qed.

Lemma clean_script_resolved (os : os_iface) (counts : gmap (list N) nat) (nn : str) :
  clean_name nn -> clean_name (script_resolved os counts nn).
Proof.
  intros H. unfold script_resolved.
  destruct (clean_splitext os nn H) as [H1 H2].
  destruct (splitext os nn) as [name ext]. simpl in H1, H2.
  destruct (0 <? _); [|exact H].
  repeat apply clean_app; auto.
  - now apply clean_literal.
  - apply clean_digits, dec_digits.
Qed.

(** X3: no name that either version tries to rename a file to holds one of
    the invalid characters; in particular it holds no slash or backslash,
    so a rename never leaves the selected directory.  This holds of every
    attempt of every run, hence of every renamed file. *)
Theorem targets_are_clean (os : os_iface) (add_index : bool) (d : folder)
    (html_files : list file_info) :
  (exists st,
      generate_new_filenames os add_index html_files (renamer_init d) = Some st /\
      (forall o n, (o, n) ∈ attempts (log st) -> clean_name n) /\
      (forall o n, (o, n) ∈ renamed_files st -> clean_name n)) /\
  (forall o n,
      (o, n) ∈ attempts (printed (rename_loop os add_index (map as_tuple html_files)
                                    (script_init d))) \/
      (o, n) ∈ (rename_html_files os add_index d (map as_tuple html_files)).1 ->
      clean_name n).
Proof.
  split.
  - unfold generate_new_filenames.
    destruct (generate_loop_body_ind os add_index
                (fun _ st => forall o n, (o, n) ∈ attempts (log st) -> clean_name n)
                (renamer_init d))
      with (l := sort_files_by_creation_date html_files) as [st [E H]].
    + intros o n Hin. simpl in Hin. now apply elem_of_nil in Hin.
    + intros done st f st' HP Hb o n Hin.
      apply generate_body_attempt in Hb as [(Ha & _)|(t & lg & k & Et & _ & _ & _ & Ha & _)];
        rewrite Ha in Hin; [now apply (HP o)|].
      apply elem_of_app in Hin as [Hin|Hin]; [now apply (HP o)|].
      apply list_elem_of_singleton in Hin. injection Hin as -> ->.
      apply clean_with_index, clean_candidate. now apply (clean_title _ _ _ _ Et).
    + exists st. split; [exact E|]. split; [exact H|].
      intros o n Hin. apply (H o).
      rewrite (generate_run_renamed os add_index d _ st E) in Hin.
      now apply successes_attempted.
  - assert (Hatt : forall l o n,
               (o, n) ∈ attempts (printed (fold_left (rename_body os add_index) l (script_init d))) ->
               clean_name n).
    { induction l as [|x l IH] using rev_ind; intros o n Hin.
      - simpl in Hin. now apply elem_of_nil in Hin.
      - rewrite fold_left_app in Hin. simpl in Hin.
        destruct (rename_body_attempt os add_index
                    (fold_left (rename_body os add_index) l (script_init d)) x)
          as [(Ha & _)|(nn & out & En & Ha & _)]; rewrite Ha in Hin; [now apply (IH o)|].
        apply elem_of_app in Hin as [Hin|Hin]; [now apply (IH o)|].
        apply list_elem_of_singleton in Hin. injection Hin as -> ->.
        apply clean_with_index, clean_script_resolved. now apply (clean_new_filename _ _ _ _ En). }
    intros o n [Hin|Hin].
    + unfold rename_loop in Hin. exact (Hatt _ o n Hin).
    + unfold rename_html_files, rename_loop in Hin. simpl in Hin.
      destruct (rename_run_inv os add_index d (sorted_by snd (map as_tuple html_files)))
        as (_ & _ & _ & Hsub & _).
      apply (Hatt (sorted_by snd (map as_tuple html_files)) o).
      eapply sublist_subseteq; eauto.
Qed.

(** X4: in one run the class based version never gives the same name to
    two files: the names of all attempts, and so of all renamed files, are
    pairwise distinct, with or without indexing and whatever [os.rename]
    does. *)
Theorem class_names_distinct (os : os_iface) (add_index : bool) (d : folder)
    (html_files : list file_info) :
  exists st,
    generate_new_filenames os add_index html_files (renamer_init d) = Some st /\
    NoDup (map snd (attempts (log st))) /\
    NoDup (map snd (renamed_files st)).
Proof.
  unfold generate_new_filenames.
  assert (H : exists st,
             run_loop (generate_body os add_index)
               (sort_files_by_creation_date html_files) (renamer_init d) = Some st /\
             NoDup (map snd (attempts (log st)))).
  { destruct add_index.
    - destruct (generate_run_inv os true d (sort_files_by_creation_date html_files))
        as [st [E (_ & Hpre & _)]].
      exists st. split; [exact E|].
      apply NoDup_alt. intros i j n Hi Hj.
      apply list_lookup_fmap_Some in Hi as ([o1 n1] & -> & Hi).
      apply list_lookup_fmap_Some in Hj as ([o2 n2] & Hn & Hj). simpl in Hn. subst n2.
      destruct (Hpre eq_refl i o1 n1 Hi) as [r1 E1].
      destruct (Hpre eq_refl j o2 n1 Hj) as [r2 E2].
      rewrite E1 in E2. apply index_prefix_inj in E2. lia.
    - destruct (generate_loop_body_ind os false
                  (fun _ st => NoDup (map snd (attempts (log st))) /\
                               forall n, n ∈ map snd (attempts (log st)) ->
                                         n ∈ new_filenames_set st)
                  (renamer_init d))
        with (l := sort_files_by_creation_date html_files) as [st [E [H _]]].
      + split; [constructor|]. intros n Hn. simpl in Hn. now apply elem_of_nil in Hn.
      + intros done st f st' [Hnd Hset] Hb.
        apply generate_body_attempt in Hb
          as [(Ha & Hs & _)|(t & lg & k & _ & _ & _ & Hfree & Ha & Hs & _)];
          rewrite Ha, Hs; [auto|].
        simpl with_index in *. rewrite map_app. simpl.
        assert (Hnew : candidate os (t ++ py ".html") k ∉ new_filenames_set st).
        { unfold taken in Hfree. apply orb_false_iff in Hfree as [Hfree _].
          now apply bool_decide_eq_false in Hfree. }
        split.
        * apply NoDup_app. split; [exact Hnd|]. split; [|apply NoDup_singleton].
          intros n Hn Hn'. apply list_elem_of_singleton in Hn'. subst n. auto.
        * intros n Hn. apply elem_of_app in Hn as [Hn|Hn]; apply elem_of_union.
          -- right. auto.
          -- left. apply list_elem_of_singleton in Hn. now apply elem_of_singleton.
      + exists st. auto. }
  destruct H as [st [E Hnd]]. exists st. split; [exact E|]. split; [exact Hnd|].
  assert (Hsub : renamed_files st `sublist_of` attempts (log st)).
  { destruct (generate_run_inv os add_index d (sort_files_by_creation_date html_files))
      as [st' [E' (_ & _ & _ & Hs & _)]].
    rewrite E in E'. now injection E' as <-. }
  apply (sublist_NoDup _ (map snd (attempts (log st)))); [exact Hnd|].
  now apply (fmap_sublist snd).
Qed.

(** ** What a successful rename was tested against *)

Lemma snoc_inv {A} (l : list A) (a b : A) : l ++ [a] = l ++ [b] -> a = b.
Proof. intros H. apply app_inv_head in H. now injection H. Qed.

Lemma snoc_neq {A} (l : list A) (a : A) : l <> l ++ [a].
Proof.
  intros H. apply (f_equal (@length A)) in H. rewrite length_app in H. simpl in H. lia.
Qed.

(** A file that was read exists. *)
Lemma extract_title_exists (d : folder) (p t : str) lg :
  extract_title d p = (Some t, lg) -> path_exists d p = true.
Proof.
  unfold extract_title, path_exists.
  destruct (d !! p) as [[e|[h1|]]|]; try discriminate.
  intros _. apply bool_decide_eq_true. eauto.
Qed.

Lemma get_new_filename_exists (d : folder) (p nn : str) out :
  get_new_filename d p = (Some nn, out) -> path_exists d p = true.
Proof.
  unfold get_new_filename, path_exists.
  destruct (d !! p) as [[e|[h1|]]|]; try discriminate.
  intros _. apply bool_decide_eq_true. eauto.
Qed.

Lemma tested_free_differs (d : folder) (o n : str) :
  path_exists d o = true -> path_exists d n = false -> o <> n.
Proof. intros Ho Hn E. rewrite E in Ho. congruence. Qed.

(** With indexing the class based version tests the name without its
    prefix only: here the indexed name of the first file exists already,
    and the page that was there is gone after the run. *)
Lemma indexed_rename_replaces :
  exists st,
    generate_new_filenames (posix permissive) true [entry "a.html" 10] (renamer_init d_old)
      = Some st /\
    renamed_files st = [(py "a.html", py "1. Hello.html")] /\
    d_old !! py "1. Hello.html" = Some (page "Old") /\
    disk st !! py "1. Hello.html" = Some (page "Hello").
Proof.
  eexists. split; [vm_compute; reflexivity|].
  split; [reflexivity|]. split; vm_compute; reflexivity.
Qed.

(** X5: a rename that succeeds goes to a name that the round has tested
    with [os.path.exists] and found free.  In the class based version
    without indexing, and in the script with or without it, when a round
    adds the pair (o, n) to the renamed files then o is the file of the
    round, [os.path.exists] was true of o and false of n in the directory
    the round started from, so that n is not o, and the new directory is
    what [os.rename] of o to n returned.  This says nothing of names that
    [os.path.exists] does not see, and it does not hold of the class based
    version with indexing, which tests the name without its prefix. *)
Theorem renamed_target_tested_free (os : os_iface) :
  (forall st f, exists st',
      generate_body os false st f = Some st' /\
      forall o n, renamed_files st' = renamed_files st ++ [(o, n)] ->
                  o = filename f /\
                  path_exists (disk st) o = true /\ path_exists (disk st) n = false /\
                  o <> n /\
                  os_rename os (disk st) o n = inr (disk st')) /\
  (forall add_index st (x : list N * Z) o n,
      s_renamed_files (rename_body os add_index st x) = s_renamed_files st ++ [(o, n)] ->
      o = fst x /\
      path_exists (s_disk st) o = true /\ path_exists (s_disk st) n = false /\
      o <> n /\
      os_rename os (s_disk st) o n = inr (s_disk (rename_body os add_index st x))).
Proof.
  split.
  - intros st f.
    destruct (generate_body_step os false st f) as [st' [Hb Hs]].
    exists st'. split; [exact Hb|]. intros o n Hren.
    destruct Hs as [t lg E _|t lg k d' E _ _ Hfree _ Hr|t lg k e E _ _ _ _ _];
      simpl in Hren; try (now apply snoc_neq in Hren).
    apply snoc_inv in Hren. injection Hren as <- <-. simpl in *.
    unfold taken in Hfree. apply orb_false_iff in Hfree as [_ Hfree].
    apply extract_title_exists in E.
    pose proof (tested_free_differs _ _ _ E Hfree). auto.
  - intros add_index st x o n Hren.
    destruct (rename_body_attempt os add_index st x)
      as [(_ & _ & _ & Hr & _)|(nn & out & E & _ & _ & [H|[H|H]])].
    + rewrite Hr in Hren. now apply snoc_neq in Hren.
    + destruct H as (_ & _ & Hr & _). rewrite Hr in Hren. now apply snoc_neq in Hren.
    + destruct H as (Hex & Hos & Hr & _). rewrite Hr in Hren.
      apply snoc_inv in Hren. injection Hren as <- <-.
      apply get_new_filename_exists in E.
      pose proof (tested_free_differs _ _ _ E Hex). auto.
    + destruct H as (_ & _ & _ & Hr & _). rewrite Hr in Hren. now apply snoc_neq in Hren.
Qed.

(** ** The directory after a run *)

Lemma replay_snoc (os : os_iface) (d d1 : folder) (l : list (list N * list N)) (o n : str) :
  replay os d l = Some d1 ->
  replay os d (l ++ [(o, n)]) =
  match os_rename os d1 o n with inr d' => Some d' | inl _ => None end.
Proof.
  revert d. induction l as [|[o' n'] l IH]; intros d; simpl.
  - intros E. injection E as <-. reflexivity.
  - destruct (os_rename os d o' n'); [discriminate|]. apply IH.
Qed.

(** X6: the directory changes through the renames that are reported, and
    through nothing else.  After a run of the class based version, with or
    without indexing and whatever [os.rename] does, the directory is the one
    the run started from with the renames of [renamed_files] done in their
    order, each of which succeeds; a file that is skipped leaves no trace.
    The same holds of the script when the standard output takes all its
    messages. *)
Theorem directory_is_renames_replayed (os : os_iface) (add_index : bool) (d : folder)
    (html_files : list file_info) :
  (exists st,
      generate_new_filenames os add_index html_files (renamer_init d) = Some st /\
      replay os d (renamed_files st) = Some (disk st)) /\
  (forall stdout : event -> option (list N),
      (forall ev, stdout ev = None) ->
      exists st,
        rename_loop_io stdout os add_index (map as_tuple html_files) (script_init d) = inr st /\
        replay os d (s_renamed_files st) = Some (s_disk st)).
Proof.
  split.
  - unfold generate_new_filenames.
    apply (generate_loop_ind os add_index
             (fun _ st => replay os d (renamed_files st) = Some (disk st))).
    + reflexivity.
    + intros done st f st' HP Hs.
      destruct Hs as [t lg E _|t lg k d' E _ _ _ _ Hr|t lg k e E _ _ _ _ _]; simpl;
        try exact HP.
      rewrite (replay_snoc _ _ _ _ _ _ HP), Hr. reflexivity.
  - intros stdout Hall. eexists. split.
    + unfold rename_loop_io. apply (run_io_fold _ (rename_body os add_index)).
      intros st x. now apply rename_body_io_takes_all.
    + induction (sorted_by snd (map as_tuple html_files)) as [|x l IH] using rev_ind.
      * reflexivity.
      * rewrite fold_left_app. cbn [fold_left].
        destruct (rename_body_attempt os add_index
                    (fold_left (rename_body os add_index) l (script_init d)) x)
          as [(_ & _ & Hd & Hr & _)|(nn & out & _ & _ & _ & [H|[H|H]])].
        -- now rewrite Hr, Hd.
        -- destruct H as (_ & Hd & Hr & _). now rewrite Hr, Hd.
        -- destruct H as (_ & Hos & Hr & _).
           rewrite Hr, (replay_snoc _ _ _ _ _ _ IH), Hos. reflexivity.
        -- destruct H as (_ & _ & Hd & Hr & _). now rewrite Hr, Hd.
Qed.

(** ** The counters of the script *)

Lemma script_resolved_counted (os : os_iface) (counts : gmap (list N) nat) (nn : str) c :
  counts !! nn = Some c -> 0 < c ->
  script_resolved os counts nn = (splitext os nn).1 ++ py "_" ++ dec c ++ (splitext os nn).2 /\
  script_resolved os counts nn <> nn.
Proof.
  intros Hc Hpos. unfold script_resolved. rewrite Hc. simpl default.
  pose proof (splitext_parts os nn) as Hp.
  destruct (splitext os nn) as [name ext]. simpl in *.
  destruct (Nat.ltb_spec 0 c); [|lia]. split; [reflexivity|].
  intros E. apply (f_equal (@length N)) in E. rewrite <- Hp in E.
  rewrite !length_app in E. simpl in E. rewrite ?length_app in E. lia.
Qed.

(** X7: the script never advances the counter of a repeated candidate.
    When a file's candidate [new_name] already has the count c > 0, the
    round stores c + 1 under the suffixed name, not under the candidate:
    the count of the candidate is still c afterwards, so the next file with
    the same candidate is given the same name [base_c ext] again. *)
Theorem script_counter_stays (os : os_iface) (add_index : bool) (st : script_state)
    (x : list N * Z) (new_name : str) (out : list event) (c : nat) :
  get_new_filename (s_disk st) (fst x) = (Some new_name, out) ->
  new_filenames st !! new_name = Some c -> 0 < c ->
  new_filenames (rename_body os add_index st x) !! new_name = Some c /\
  new_filenames (rename_body os add_index st x)
    !! ((splitext os new_name).1 ++ py "_" ++ dec c ++ (splitext os new_name).2) = Some (c + 1) /\
  script_resolved os (new_filenames (rename_body os add_index st x)) new_name
  = script_resolved os (new_filenames st) new_name.
Proof.
  intros E Hc Hpos.
  destruct (script_resolved_counted os (new_filenames st) new_name c Hc Hpos) as [Er Hne].
  assert (Hcounts : new_filenames (rename_body os add_index st x) =
            <[script_resolved os (new_filenames st) new_name :=
                default 0 (new_filenames st !! new_name) + 1]> (new_filenames st)).
  { unfold rename_body, script_resolved. rewrite E.
    rewrite (get_new_filename_nonempty _ _ _ _ E).
    destruct (splitext os new_name) as [b e].
    destruct add_index; destruct (path_exists _ _);
      try destruct (os_rename _ _ _ _); reflexivity. }
  assert (Hl : new_filenames (rename_body os add_index st x) !! new_name = Some c).
  { rewrite Hcounts, lookup_insert_ne by exact Hne. exact Hc. }
  split; [exact Hl|]. split.
  - rewrite Hcounts, <- Er, lookup_insert_eq, Hc. reflexivity.
  - destruct (script_resolved_counted os _ new_name c Hl Hpos) as [Er' _].
    now rewrite Er, Er'.
Qed.

Lemma script_counter_stays_witness :
  let st := rename_loop (posix permissive) false
              [(py "a.html", 10%Z); (py "b.html", 20%Z)] (script_init d_hello) in
  new_filenames (rename_body (posix permissive) false st (py "c.html", 30%Z)) !! py "Hello.html"
  = Some 1.
Proof.
  intros st.
  apply (script_counter_stays (posix permissive) false st (py "c.html", 30%Z)
           (py "Hello.html") [] 1).
  - vm_compute. reflexivity.
  - vm_compute. reflexivity.
  - lia.
Defined.

(** X8: the counts the script keeps.  In every run each stored count is at
    least 1, so the test [duplicate_count > 0] asks whether the candidate
    is a key; and without indexing the keys are exactly the names of the
    attempts made so far. *)
Theorem script_counts_invariant (os : os_iface) (add_index : bool) (d : folder)
    (html_files : list (list N * Z)) :
  (forall n c,
      new_filenames (rename_loop os add_index html_files (script_init d)) !! n = Some c ->
      1 <= c) /\
  (add_index = false ->
   forall n, is_Some (new_filenames (rename_loop os add_index html_files (script_init d)) !! n)
             <-> n ∈ map snd (attempts (printed (rename_loop os add_index html_files
                                                   (script_init d))))).
Proof.
  unfold rename_loop.
  induction (sorted_by snd html_files) as [|x l [IH1 IH2]] using rev_ind.
  - split.
    + intros n c H. simpl in H. now rewrite lookup_empty in H.
    + intros _ n. simpl. rewrite lookup_empty. split; [intros [? ?]; discriminate|].
      intros H. now apply elem_of_nil in H.
  - rewrite fold_left_app. simpl.
    destruct (rename_body_attempt os add_index
                (fold_left (rename_body os add_index) l (script_init d)) x)
      as [(Ha & Hc & _)|(nn & out & _ & Ha & Hc & _)]; rewrite Ha, Hc.
    + split; assumption.
    + split.
      * intros n c H. apply lookup_insert_Some in H as [[_ <-]|[_ H]]; [lia|eauto].
      * intros -> n. specialize (IH2 eq_refl n). simpl with_index.
        rewrite map_app, elem_of_app, lookup_insert_is_Some, IH2. simpl.
        rewrite list_elem_of_singleton. split.
        -- intros [->|[_ H]]; auto.
        -- intros [H| ->]; [|auto].
           destruct (decide (script_resolved os
                       (new_filenames (fold_left (rename_body os false) l (script_init d))) nn = n));
             auto.
Qed.

Lemma script_counts_invariant_witness :
  is_Some (new_filenames (rename_loop (posix permissive) false
             (map as_tuple files_hello) (script_init d_hello)) !! py "Hello_1.html")
  <-> py "Hello_1.html" ∈ map snd (attempts (printed (rename_loop (posix permissive) false
             (map as_tuple files_hello) (script_init d_hello)))).
Proof.
  apply (proj2 (script_counts_invariant (posix permissive) false d_hello
                  (map as_tuple files_hello)) eq_refl (py "Hello_1.html")).
Defined.

(** ** More on the sort *)

Lemma insert_by_filter {A} (key : A -> Z) (t : Z) (x : A) (l : list A) :
  List.filter (fun a => (key a =? t)%Z) (insert_by key x l) =
  if (key x =? t)%Z then x :: List.filter (fun a => (key a =? t)%Z) l
  else List.filter (fun a => (key a =? t)%Z) l.
Proof.
  induction l as [|y l IH]; simpl; [reflexivity|].
  destruct (Z.leb_spec (key x) (key y)) as [Hle|Hlt]; simpl; [reflexivity|].
  rewrite IH.
  destruct (Z.eqb_spec (key x) t) as [Hx|Hx]; [|reflexivity].
  destruct (Z.eqb_spec (key y) t) as [Hy|Hy]; [lia|reflexivity].
Qed.

Lemma sorted_by_fixed {A} (key : A -> Z) (l : list A) :
  StronglySorted (fun a b => (key a <= key b)%Z) l -> sorted_by key l = l.
Proof.
  induction 1 as [|x l Hl IH Hx]; simpl; [reflexivity|].
  rewrite IH. destruct l as [|y l]; [reflexivity|]. simpl.
  apply Forall_cons in Hx as [Hxy _].
  destruct (Z.leb_spec (key x) (key y)); [reflexivity|lia].
Qed.

(** X9: the sort by creation time is stable and idempotent: for every
    time, the files with that time keep the order they had in the scanned
    list, and sorting a sorted list changes nothing.  The same holds of the
    script's sort of its tuples. *)
Theorem sort_is_stable (html_files : list file_info) :
  (forall t, List.filter (fun f => (ctime f =? t)%Z) (sort_files_by_creation_date html_files)
             = List.filter (fun f => (ctime f =? t)%Z) html_files) /\
  sort_files_by_creation_date (sort_files_by_creation_date html_files)
  = sort_files_by_creation_date html_files /\
  (forall t, List.filter (fun x : list N * Z => (snd x =? t)%Z)
               (sorted_by snd (map as_tuple html_files))
             = List.filter (fun x : list N * Z => (snd x =? t)%Z) (map as_tuple html_files)).
Proof.
  assert (G : forall {A} (key : A -> Z) (l : list A) t,
             List.filter (fun a => (key a =? t)%Z) (sorted_by key l)
             = List.filter (fun a => (key a =? t)%Z) l).
  { intros A key l t. induction l as [|x l IH]; simpl; [reflexivity|].
    rewrite insert_by_filter, IH. reflexivity. }
  split; [|split].
  - intros t. apply (G _ ctime).
  - apply sorted_by_fixed, sorted_by_sorted.
  - intros t. apply (G _ snd).
Qed.

(** ** The handler of the window *)

Lemma handle_body_generate (os : os_iface) (add_index : bool) (r : renamer) (p : nat)
    (f : file_info) :
  handle_body os add_index (r, p) f =
  match generate_body os add_index r f with
  | Some r' => Some (r', p + 1)
  | None => None
  end.
Proof.
  unfold handle_body, generate_body, resolve_duplicates.
  destruct (extract_title (disk r) (filename f)) as [[t|] lg]; [|reflexivity].
  destruct (nonempty t); [|reflexivity].
  destruct (dedup_loop os _ _ _ _ _ _) as [n|]; [|reflexivity].
  destruct add_index; destruct (os_rename os (disk r) (filename f) _); reflexivity.
Qed.

Lemma handle_loop_generate (os : os_iface) (add_index : bool) (l : list file_info)
    (r : renamer) (p : nat) :
  run_loop (handle_body os add_index) l (r, p) =
  match run_loop (generate_body os add_index) l r with
  | Some r' => Some (r', p + length l)
  | None => None
  end.
Proof.
  revert r p. induction l as [|f l IH]; intros r p; cbn [run_loop length].
  - f_equal. f_equal. lia.
  - rewrite handle_body_generate. destruct (generate_body os add_index r f) as [r'|];
      [|reflexivity].
    rewrite IH. destruct (run_loop _ l r'); [|reflexivity]. f_equal. f_equal. lia.
Qed.

(** X10: the loop that [handle_rename] runs itself does what
    [perform_renaming] does: on the same listing it always returns, ends
    with the renamed and skipped files that [perform_renaming] returns, and
    leaves the progress bar at its maximum, the number of collected
    files. *)
Theorem handle_rename_agrees (lower : list N -> list N) (getctime : list N -> list N + Z)
    (os : os_iface) (add_index : bool) (d : folder) (listdir : list (list N)) :
  exists st,
    handle_rename lower getctime os add_index d listdir
    = Some (st, length (_collect_html_files lower getctime listdir).1,
            length (_collect_html_files lower getctime listdir).1) /\
    generate_new_filenames os add_index (_collect_html_files lower getctime listdir).1
      (renamer_init d) = Some st /\
    perform_renaming_in lower getctime os add_index d listdir
    = Some (renamed_files st, skipped_files st).
Proof.
  unfold handle_rename, perform_renaming_in, perform_renaming, generate_new_filenames.
  set (files := (_collect_html_files lower getctime listdir).1).
  destruct (generate_run_inv os add_index d (sort_files_by_creation_date files)) as [st [E _]].
  exists st. rewrite handle_loop_generate, E. split; [|auto].
  simpl. f_equal. f_equal. f_equal.
  unfold sort_files_by_creation_date. apply Permutation_length, sorted_by_perm.
Qed.

(** ** The scanners *)

Lemma collect_fold (lower : list N -> list N) (getctime : list N -> list N + Z)
    (l : list (list N)) (fs : list file_info) (lg : list scan_event) :
  fold_left (collect_body lower getctime) l (fs, lg) =
  (fs ++ omap (collected lower getctime) l, lg ++ omap (access_error lower getctime) l).
Proof.
  revert fs lg. induction l as [|name l IH]; intros fs lg; cbn [fold_left omap list_omap map].
  - now rewrite !app_nil_r.
  - unfold collect_body at 2, collected, access_error.
    destruct (endswith (lower name) (py ".html")); [|apply IH].
    destruct (getctime name) as [e|t]; rewrite IH, <- app_assoc; reflexivity.
Qed.

Lemma scan_fold (lower : list N -> list N) (getctime : list N -> list N + Z)
    (l : list (list N)) (fs : list (list N * Z)) (lg : list scan_event) :
  fold_left (scan_body lower getctime) l (fs, lg) =
  (fs ++ map as_tuple (omap (collected lower getctime) l),
   lg ++ omap (access_error lower getctime) l).
Proof.
  revert fs lg. induction l as [|name l IH]; intros fs lg; cbn [fold_left omap list_omap map].
  - now rewrite !app_nil_r.
  - unfold scan_body at 2, collected, access_error.
    destruct (endswith (lower name) (py ".html")); [|apply IH].
    destruct (getctime name) as [e|t]; rewrite IH, <- app_assoc; reflexivity.
Qed.

Lemma collected_names_sublist (lower : list N -> list N) (getctime : list N -> list N + Z)
    (l : list (list N)) :
  map filename (omap (collected lower getctime) l) `sublist_of` l.
Proof.
  induction l as [|name l IH]; simpl; [constructor|].
  unfold collected at 1. destruct (endswith (lower name) (py ".html")).
  - destruct (getctime name); simpl; [now apply sublist_cons|now apply sublist_skip].
  - now apply sublist_cons.
Qed.

Lemma scanner_names (lower : list N -> list N) (getctime : list N -> list N + Z)
    (listdir : list (list N)) :
  (forall o, o ∈ map filename (_collect_html_files lower getctime listdir).1 <->
             o ∈ listdir /\ endswith (lower o) (py ".html") = true /\
             exists t, getctime o = inr t) /\
  (scan_html_files lower getctime listdir).1
  = map as_tuple (_collect_html_files lower getctime listdir).1.
Proof.
  unfold _collect_html_files, scan_html_files. rewrite collect_fold, scan_fold. simpl.
  split; [|reflexivity].
  intros o. rewrite list_elem_of_fmap. split.
  - intros (f & -> & Hf). apply list_elem_of_omap in Hf as (name & Hin & H).
    unfold collected in H.
    destruct (endswith (lower name) (py ".html")) eqn:He; [|discriminate].
    destruct (getctime name) as [e|t] eqn:Hg; [discriminate|].
    injection H as <-. simpl. eauto.
  - intros (Hin & He & t & Hg). exists {| filename := o; ctime := t |}.
    split; [reflexivity|]. apply list_elem_of_omap. exists o. split; [exact Hin|].
    unfold collected. now rewrite He, Hg.
Qed.

(** X11: what the scanners collect.  The collected names are the names
    of the listing, in the order of the listing, whose lower-cased form
    ends in [.html] and whose creation time can be read; each is collected
    with that time; a name whose time cannot be read is left out and
    reported, and nothing else is reported.  The script's scan collects the
    same entries as tuples. *)
Theorem scanner_collects (lower : list N -> list N) (getctime : list N -> list N + Z)
    (listdir : list (list N)) :
  map filename (_collect_html_files lower getctime listdir).1 `sublist_of` listdir /\
  (forall f, f ∈ (_collect_html_files lower getctime listdir).1 <->
             filename f ∈ listdir /\
             endswith (lower (filename f)) (py ".html") = true /\
             getctime (filename f) = inr (ctime f)) /\
  (forall name e, AccessError name e ∈ (_collect_html_files lower getctime listdir).2 <->
                  name ∈ listdir /\
                  endswith (lower name) (py ".html") = true /\
                  getctime name = inl e) /\
  (NoDup listdir -> NoDup (map filename (_collect_html_files lower getctime listdir).1)) /\
  scan_html_files lower getctime listdir
  = (map as_tuple (_collect_html_files lower getctime listdir).1,
     (_collect_html_files lower getctime listdir).2).
Proof.
  unfold _collect_html_files, scan_html_files. rewrite collect_fold, scan_fold. simpl.
  split; [apply collected_names_sublist|]. split; [|split; [|split]].
  - intros f. rewrite list_elem_of_omap. unfold collected. split.
    + intros (name & Hin & H).
      destruct (endswith (lower name) (py ".html")) eqn:He; [|discriminate].
      destruct (getctime name) as [e|t] eqn:Hg; [discriminate|].
      injection H as <-. simpl. auto.
    + intros (Hin & He & Hg). exists (filename f). split; [exact Hin|].
      rewrite He, Hg. now destruct f.
  - intros name e. rewrite list_elem_of_omap. unfold access_error. split.
    + intros (name' & Hin & H).
      destruct (endswith (lower name') (py ".html")) eqn:He; [|discriminate].
      destruct (getctime name') as [e'|t] eqn:Hg; [|discriminate].
      injection H as <- <-. auto.
    + intros (Hin & He & Hg). exists name. split; [exact Hin|]. now rewrite He, Hg.
  - intros Hnd. eapply sublist_NoDup; [exact Hnd|apply collected_names_sublist].
  - reflexivity.
Qed.

Lemma scanner_collects_witness :
  NoDup (map filename
           (_collect_html_files ascii_lower (fun _ => inr 1%Z)
              [py "a.HTML"; py "notes.txt"; py "b.html"]).1).
Proof.
  apply (proj1 (proj2 (proj2 (proj2 (scanner_collects ascii_lower (fun _ => inr 1%Z)
                  [py "a.HTML"; py "notes.txt"; py "b.html"]))))).
  apply (bool_decide_unpack _). vm_compute. exact I.
Defined.

(** X12: the files of the result lists are the collected ones.  From the
    listing on, the class based version always returns, and in both
    versions a name is among the renamed or skipped files exactly when it
    is a name of the listing whose lower-cased form ends in [.html] and
    whose creation time can be read.  This is about the names that are
    reported, not about what a rename does to the directory. *)
Theorem reported_files_are_collected (lower : list N -> list N)
    (getctime : list N -> list N + Z) (os : os_iface) (add_index : bool)
    (d : folder) (listdir : list (list N)) :
  (exists renamed skipped,
      perform_renaming_in lower getctime os add_index d listdir = Some (renamed, skipped) /\
      forall o, o ∈ map fst renamed ++ map fst skipped <->
                o ∈ listdir /\ endswith (lower o) (py ".html") = true /\
                exists t, getctime o = inr t) /\
  (forall o, o ∈ map fst (rename_html_files_in lower getctime os add_index d listdir).1 ++
                 map fst (rename_html_files_in lower getctime os add_index d listdir).2 <->
             o ∈ listdir /\ endswith (lower o) (py ".html") = true /\
             exists t, getctime o = inr t).
Proof.
  destruct (scanner_names lower getctime listdir) as [Hnames Hscan].
  split.
  - unfold perform_renaming_in.
    destruct (perform_renaming_outcomes os add_index d
                (_collect_html_files lower getctime listdir).1) as (r & s & E & Hp).
    exists r, s. split; [exact E|]. intros o. rewrite Hp. apply Hnames.
  - intros o. unfold rename_html_files_in. rewrite Hscan.
    destruct (rename_html_files os add_index d
                (map as_tuple (_collect_html_files lower getctime listdir).1))
      as [r s] eqn:E.
    simpl. rewrite (rename_html_files_outcomes os add_index d _ r s E). apply Hnames.
Qed.

(** ** Empty titles *)

Lemma sub_spaces_from_nil (repl s : str) :
  repl <> [] -> sub_spaces_from false repl s = [] -> s = [].
Proof.
  intros Hr. destruct s as [|c s]; [reflexivity|]. simpl.
  destruct (isspace c); [|discriminate].
  intros H. apply app_eq_nil in H as [H _]. contradiction.
Qed.

Lemma sub_spaces_from_length (b : bool) (s : str) :
  length (sub_spaces_from b (py "_") s) <= length s.
Proof.
  revert b. induction s as [|c s IH]; intros b; simpl; [lia|].
  destruct (isspace c); simpl.
  - specialize (IH true). destruct b; simpl; lia.
  - specialize (IH false). lia.
Qed.

Lemma remove_invalid_nil (s : str) :
  remove_invalid s = [] <-> forall c, In c s -> invalid_char c = true.
Proof.
  unfold remove_invalid. induction s as [|a s IH]; simpl.
  - split; [intros _ c []|reflexivity].
  - destruct (invalid_char a) eqn:Ha; simpl.
    + rewrite IH. split; [intros H c [<-|Hc]; auto|intros H c Hc; apply H; auto].
    + split; [discriminate|]. intros H. specialize (H a (or_introl eq_refl)). congruence.
Qed.

Lemma sanitize_nil_iff (s : str) :
  sanitize s = [] <-> forall c, In c s -> invalid_char c = true.
Proof.
  rewrite <- remove_invalid_nil. unfold sanitize, sub_spaces. split.
  - apply sub_spaces_from_nil. discriminate.
  - intros ->. reflexivity.
Qed.

(** X13: the sanitizer never makes its input longer, and it returns the
    empty string exactly when every character of the input is one of the
    invalid characters (so never for an input with white space or any
    other character). *)
Theorem sanitize_empty_iff (s : str) :
  length (sanitize s) <= length s /\
  (sanitize s = [] <-> forall c, In c s -> invalid_char c = true).
Proof.
  split.
  - unfold sanitize, sub_spaces.
    etransitivity; [apply sub_spaces_from_length|].
    unfold remove_invalid. apply filter_length_le.
  - apply sanitize_nil_iff.
Qed.

Lemma lstrip_incl (s : str) (c : N) : In c (lstrip s) -> In c s.
Proof.
  induction s as [|a s IH]; simpl; [auto|].
  destruct (isspace a); simpl; auto.
Qed.

Lemma strip_incl (s : str) (c : N) : In c (strip s) -> In c s.
Proof.
  unfold strip, rstrip. intros H.
  apply in_rev, lstrip_incl in H. apply in_rev in H. now apply lstrip_incl.
Qed.

Lemma get_text_strip_incl (h1 : tag) (c : N) : In c (get_text_strip h1) -> In c (text h1).
Proof.
  unfold get_text_strip, text. induction h1 as [|s h1 IH]; simpl; [auto|].
  destruct (nonempty (strip s)); simpl; intros H.
  - apply in_app_or in H as [H|H]; apply in_or_app; [left; now apply strip_incl|auto].
  - apply in_or_app. auto.
Qed.

(** X14: a heading made of invalid characters only.  When the text of
    the heading is not empty and all its characters are invalid,
    [extract_title] returns the empty string without logging anything and
    the class based round skips the file with the reason for a missing
    heading, leaving the log as it was; [get_new_filename] returns the
    name [.html], which the script goes on to use. *)
Theorem invalid_only_heading (os : os_iface) (add_index : bool) (st : renamer)
    (f : file_info) (h1 : list (list N)) :
  disk st !! filename f = Some (Soup (Some h1)) ->
  text h1 <> [] ->
  (forall c, In c (text h1) -> invalid_char c = true) ->
  extract_title (disk st) (filename f) = (Some [], []) /\
  get_new_filename (disk st) (filename f) = (Some (py ".html"), []) /\
  generate_body os add_index st f =
  Some {| disk := disk st; new_filenames_set := new_filenames_set st;
          index := index st; renamed_files := renamed_files st;
          skipped_files := skipped_files st ++ [(filename f, NO_H1)];
          log := log st ++ [] |}.
Proof.
  intros Hd Hne Hall.
  assert (Hvis : nonempty (strip (text h1)) = true).
  { rewrite nonempty_strip. destruct (text h1) as [|c r]; [congruence|]. simpl.
    specialize (Hall c (or_introl eq_refl)).
    destruct (isspace c) eqn:Hs; [|reflexivity].
    apply isspace_not_invalid in Hs. congruence. }
  assert (E1 : extract_title (disk st) (filename f) = (Some [], [])).
  { unfold extract_title. rewrite Hd, heading_tests_agree, Hvis.
    replace (sanitize (get_text_strip h1)) with (@nil N); [reflexivity|].
    symmetry. apply sanitize_nil_iff. intros c Hc. now apply Hall, get_text_strip_incl. }
  split; [exact E1|]. split.
  - unfold get_new_filename. rewrite Hd, Hvis, sanitize_filename_eq.
    replace (sanitize (strip (text h1))) with (@nil N); [reflexivity|].
    symmetry. apply sanitize_nil_iff. intros c Hc. now apply Hall, strip_incl.
  - unfold generate_body. rewrite E1. reflexivity.
Qed.

Lemma invalid_only_heading_witness :
  get_new_filename (<[py "q.html" := page "???"]> ∅) (py "q.html") = (Some (py ".html"), []).
Proof.
  destruct (invalid_only_heading (posix permissive) false
              (renamer_init (<[py "q.html" := page "???"]> ∅))
              (entry "q.html" 1) [py "???"]) as (_ & H & _).
  - reflexivity.
  - discriminate.
  - intros c Hc. vm_compute in Hc. destruct Hc as [<-|[<-|[<-|[]]]]; reflexivity.
  - exact H.
Defined.

(** ** Running the tool on a directory that is already renamed *)

Lemma script_resolved_fresh (os : os_iface) (counts : gmap (list N) nat) (nn : str) :
  counts !! nn = None -> script_resolved os counts nn = nn.
Proof.
  intros H. unfold script_resolved. rewrite H. now destruct (splitext os nn).
Qed.

(** X15: the script leaves a directory alone whose files already carry
    the names it would give them.  If the scanned names are distinct and
    every scanned file's new name is its own name, a run without indexing
    renames nothing, leaves the directory as it is and reports every file
    as skipped with its own name (a conflict). *)
Theorem script_rerun_changes_nothing (os : os_iface) (d : folder)
    (html_files : list file_info) :
  NoDup (map filename html_files) ->
  (forall f, f ∈ html_files -> (get_new_filename d (filename f)).1 = Some (filename f)) ->
  rename_html_files os false d (map as_tuple html_files)
  = ([], map (fun f => (filename f, Some (filename f)))
             (sort_files_by_creation_date html_files)) /\
  s_disk (rename_loop os false (map as_tuple html_files) (script_init d)) = d.
Proof.
  intros Hnd Hself.
  assert (G : forall l : list file_info,
             NoDup (map filename l) ->
             (forall f, f ∈ l -> (get_new_filename d (filename f)).1 = Some (filename f)) ->
             let st := fold_left (rename_body os false) (map as_tuple l) (script_init d) in
             s_disk st = d /\ s_renamed_files st = [] /\
             s_skipped_files st = map (fun f => (filename f, Some (filename f))) l /\
             forall n, is_Some (new_filenames st !! n) -> n ∈ map filename l).
  { induction l as [|f l IH] using rev_ind; intros Hl Hs; simpl.
    - repeat split; auto. intros n [? H]. now rewrite lookup_empty in H.
    - rewrite map_app in Hl. apply NoDup_app in Hl as (Hl & Hfresh & _).
      destruct IH as (Hd & Hr & Hsk & Hkeys); [exact Hl| |].
      { intros g Hg. apply Hs. apply elem_of_app. now left. }
      rewrite !map_app, fold_left_app. simpl.
      set (st := fold_left (rename_body os false) (map as_tuple l) (script_init d)) in *.
      assert (Hf : (get_new_filename d (filename f)).1 = Some (filename f)).
      { apply Hs. apply elem_of_app. right. now apply list_elem_of_singleton. }
      assert (Hcount : new_filenames st !! filename f = None).
      { apply eq_None_not_Some. intros H. apply Hkeys in H.
        apply (Hfresh (filename f)); [exact H|]. simpl. now apply list_elem_of_singleton. }
      pose proof (rename_body_attempt os false st (as_tuple f)) as Hround.
      simpl fst in Hround. rewrite Hd in Hround.
      destruct (get_new_filename d (filename f)) as [[nn|] out] eqn:E; [|discriminate].
      simpl in Hf. injection Hf as ->.
      destruct Hround as [(Ha & _)|(nn & out' & E' & _ & Hc & Hcase)].
      + exfalso. unfold rename_body in Ha. simpl fst in Ha. rewrite Hd, E in Ha.
        rewrite (get_new_filename_nonempty _ _ _ _ E) in Ha.
        destruct (splitext os (filename f)) as [b e].
        destruct (path_exists _ _); try destruct (os_rename _ _ _ _); simpl in Ha;
          rewrite !attempts_app in Ha; simpl in Ha;
          apply (f_equal (@length _)) in Ha; rewrite !length_app in Ha; simpl in Ha; lia.
      + injection E' as <- <-.
        rewrite (script_resolved_fresh os _ _ Hcount) in Hc, Hcase. simpl with_index in Hcase.
        rewrite (get_new_filename_exists _ _ _ _ E) in Hcase.
        destruct Hcase as [(_ & Hd' & Hr' & Hsk')|[(H & _)|(H & _)]]; try discriminate.
        rewrite Hd', Hr', Hsk', Hr, Hsk. repeat split; auto.
        intros n Hn. rewrite Hc in Hn. apply lookup_insert_is_Some in Hn as [<-|[_ Hn]];
          apply elem_of_app; [right; now apply list_elem_of_singleton|left; auto]. }
  destruct (G (sort_files_by_creation_date html_files)) as (Hd & Hr & Hsk & _).
  - unfold sort_files_by_creation_date. now rewrite sorted_by_perm.
  - intros f Hf. apply Hself. unfold sort_files_by_creation_date in Hf.
    now rewrite sorted_by_perm in Hf.
  - unfold rename_html_files, rename_loop. rewrite sorted_by_as_tuple.
    unfold sort_files_by_creation_date in *. rewrite Hd, Hr, Hsk. auto.
Qed.

Lemma script_rerun_changes_nothing_witness :
  let d : gmap (list N) content :=
    <[py "One.html" := page "One"]> (<[py "Two.html" := page " Two "]> ∅) in
  rename_html_files (posix permissive) false d
    (map as_tuple [entry "Two.html" 2; entry "One.html" 1])
  = ([], [(py "One.html", Some (py "One.html")); (py "Two.html", Some (py "Two.html"))]).
Proof.
  intros d.
  apply (script_rerun_changes_nothing (posix permissive) d
           [entry "Two.html" 2; entry "One.html" 1]).
  - apply (bool_decide_unpack _). vm_compute. exact I.
  - intros f Hf. apply elem_of_cons in Hf as [->|Hf]; [reflexivity|].
    apply list_elem_of_singleton in Hf as ->. reflexivity.
Defined.

(** X16: the class based version does not leave such a file alone.  A
    file that exists under the name [title.html] of its own title finds
    that name taken by itself: without indexing the round tries a suffixed
    name [title_k.html] with k at least 2, never the name the file has. *)
Theorem class_rerun_renames_again (os : os_iface) (st : renamer) (f : file_info)
    (new_title : str) (logged : list event) :
  extract_title (disk st) (filename f) = (Some new_title, logged) ->
  new_title <> [] ->
  filename f = new_title ++ py ".html" ->
  exists st' k,
    generate_body os false st f = Some st' /\ 2 <= k /\
    attempts (log st') = attempts (log st) ++ [(filename f, candidate os (filename f) k)] /\
    candidate os (filename f) k <> filename f.
Proof.
  intros E Hne Hname.
  destruct (generate_body_step os false st f) as [st' [Hb _]].
  pose proof Hb as Hb'.
  apply generate_body_attempt in Hb' as [(Ha & _)|(t & lg & k & E' & _ & Hk & Hfree & Ha & _)].
  - exfalso. unfold generate_body in Hb. rewrite E in Hb.
    apply nonempty_true in Hne. rewrite Hne in Hb.
    destruct (resolve_duplicates _ _ _ _); [|discriminate].
    destruct (os_rename _ _ _ _); injection Hb as <-; simpl in Ha;
      rewrite !attempts_app in Ha; simpl in Ha;
      apply (f_equal (@length _)) in Ha; rewrite !length_app in Ha; simpl in Ha; lia.
  - rewrite E in E'. injection E' as <- <-. rewrite <- Hname in *.
    assert (Hk2 : 2 <= k).
    { destruct (decide (k = 1)) as [->|]; [|lia]. exfalso.
      unfold candidate in Hfree. simpl in Hfree.
      unfold taken, path_exists in Hfree. apply orb_false_iff in Hfree as [_ Hfree].
      apply bool_decide_eq_false in Hfree. apply Hfree.
      unfold extract_title in E. destruct (disk st !! filename f); [eauto|discriminate]. }
    exists st', k. split; [exact Hb|]. split; [exact Hk2|]. split; [exact Ha|].
    intros Heq. pose proof (candidate_length os (filename f) k Hk2) as Hl.
    rewrite Heq in Hl. lia.
Qed.

Lemma class_rerun_renames_again_witness :
  let d : gmap (list N) content := <[py "One.html" := page "One"]> ∅ in
  exists st' k,
    generate_body (posix permissive) false (renamer_init d) (entry "One.html" 1) = Some st' /\
    2 <= k /\
    attempts (log st') = [(py "One.html", candidate (posix permissive) (py "One.html") k)] /\
    candidate (posix permissive) (py "One.html") k <> py "One.html".
Proof.
  intros d.
  apply (class_rerun_renames_again (posix permissive) (renamer_init d) (entry "One.html" 1)
           (py "One") []).
  - reflexivity.
  - discriminate.
  - reflexivity.
Defined.

(** ** The result messages *)

Lemma with_index_nonempty (add_index : bool) (i : nat) (n : str) :
  n <> [] -> with_index add_index i n <> [].
Proof.
  intros H. unfold with_index. destruct add_index; [|exact H].
  intros E. apply app_eq_nil in E as [_ E]. discriminate.
Qed.

Lemma script_resolved_nonempty (os : os_iface) (counts : gmap (list N) nat) (nn : str) :
  nn <> [] -> script_resolved os counts nn <> [].
Proof.
  intros H. unfold script_resolved. destruct (splitext os nn) as [b e].
  destruct (0 <? _); [|exact H].
  intros E. apply app_eq_nil in E as [_ E]. discriminate.
Qed.

Lemma script_skipped_entries (os : os_iface) (add_index : bool) (d : folder)
    (l : list (list N * Z)) :
  let st := fold_left (rename_body os add_index) l (script_init d) in
  forall o x, (o, x) ∈ s_skipped_files st ->
    x = None \/ exists n, x = Some n /\ n <> [] /\ (o, n) ∈ attempts (printed st).
Proof.
  induction l as [|y l IH] using rev_ind; simpl.
  - intros o x H. now apply elem_of_nil in H.
  - rewrite fold_left_app. simpl.
    set (st := fold_left (rename_body os add_index) l (script_init d)) in *.
    assert (Hold : forall o x more,
               (o, x) ∈ s_skipped_files st ->
               x = None \/ exists n, x = Some n /\ n <> [] /\
                                     (o, n) ∈ attempts (printed st) ++ more).
    { intros o x more H. destruct (IH o x H) as [->|(n & -> & Hn & Hin)]; [now left|].
      right. exists n. repeat split; auto. apply elem_of_app. now left. }
    intros o x Hin.
    destruct (rename_body_attempt os add_index st y)
      as [(Ha & _ & _ & _ & Hsk)|(nn & out & E & Ha & _ & Hcase)]; rewrite Ha.
    + rewrite Hsk in Hin. apply elem_of_app in Hin as [Hin|Hin].
      * rewrite <- (app_nil_r (attempts (printed st))). now apply Hold.
      * apply list_elem_of_singleton in Hin. injection Hin as -> ->. now left.
    + assert (Hne : with_index add_index (s_index st)
                      (script_resolved os (new_filenames st) nn) <> []).
      { apply with_index_nonempty, script_resolved_nonempty.
        apply nonempty_true. now apply (get_new_filename_nonempty _ _ _ _ E). }
      assert (Hnew : forall o x,
                 (o, x) ∈ [(y.1, Some (with_index add_index (s_index st)
                                          (script_resolved os (new_filenames st) nn)))] ->
                 x = None \/ exists n, x = Some n /\ n <> [] /\
                   (o, n) ∈ attempts (printed st) ++
                     [(y.1, with_index add_index (s_index st)
                              (script_resolved os (new_filenames st) nn))]).
      { intros o' x' H. apply list_elem_of_singleton in H. injection H as -> ->.
        right. eexists. repeat split; eauto. apply elem_of_app. right.
        now apply list_elem_of_singleton. }
      destruct Hcase as [(_ & _ & _ & Hsk)|[(_ & _ & _ & Hsk)|(_ & _ & _ & _ & Hsk)]];
        rewrite Hsk in Hin; try (now apply Hold);
        apply elem_of_app in Hin as [Hin|Hin]; try (now apply Hold); now apply Hnew.
Qed.

(** X17: the report of the script.  The two totals of the message add up
    to the number of scanned files, and every skipped file gets the line
    that fits it: an entry without a name is listed as having no heading,
    and an entry with a name holds a non-empty name that was tried in the
    run and is listed with that name as a conflict or error. *)
Theorem script_report_fits (os : os_iface) (add_index : bool) (d : folder)
    (html_files : list file_info) :
  length (rename_html_files os add_index d (map as_tuple html_files)).1 +
  length (rename_html_files os add_index d (map as_tuple html_files)).2
  = length html_files /\
  forall o x,
    (o, x) ∈ (rename_html_files os add_index d (map as_tuple html_files)).2 ->
    (x = None /\
     skipped_line (o, x) = py "- " ++ o ++ py " (No <h1 class='panel__title'> found)" ++ nl) \/
    (exists n,
        x = Some n /\
        (o, n) ∈ attempts (printed (rename_loop os add_index (map as_tuple html_files)
                                      (script_init d))) /\
        skipped_line (o, x) = py "- " ++ o ++ py " -> " ++ n ++ py " (Conflict or Error)" ++ nl).
Proof.
  split.
  - destruct (rename_html_files os add_index d (map as_tuple html_files)) as [r s] eqn:E.
    apply rename_html_files_outcomes in E. apply Permutation_length in E.
    rewrite length_app, !length_map in E. exact E.
  - intros o x Hin. unfold rename_html_files, rename_loop in *. simpl in Hin.
    destruct (script_skipped_entries os add_index d _ o x Hin) as [->|(n & -> & Hn & Ha)].
    + left. split; reflexivity.
    + right. exists n. split; [reflexivity|]. split; [exact Ha|].
      destruct n; [congruence|reflexivity].
Qed.

Lemma class_skipped_entries (os : os_iface) (add_index : bool) (d : folder)
    (l : list file_info) :
  exists st,
    run_loop (generate_body os add_index) l (renamer_init d) = Some st /\
    forall o r, (o, r) ∈ skipped_files st ->
                r = NO_H1 \/ exists n, RenameError o n r ∈ log st.
Proof.
  apply (generate_loop_ind os add_index
           (fun _ st => forall o r, (o, r) ∈ skipped_files st ->
                                    r = NO_H1 \/ exists n, RenameError o n r ∈ log st)).
  - intros o r H. now apply elem_of_nil in H.
  - intros done st f st' HP Hs o r Hin.
    assert (Hold : forall more, (o, r) ∈ skipped_files st ->
               r = NO_H1 \/ exists n, RenameError o n r ∈ log st ++ more).
    { intros more H. destruct (HP o r H) as [->|[n Hn]]; [now left|].
      right. exists n. apply elem_of_app. now left. }
    destruct Hs as [t lg E _|t lg k d' E _ _ _ _ _|t lg k e E _ _ _ _ _]; simpl in *.
    + apply elem_of_app in Hin as [Hin|Hin]; [now apply Hold|].
      apply list_elem_of_singleton in Hin. injection Hin as -> ->. now left.
    + now apply Hold.
    + apply elem_of_app in Hin as [Hin|Hin]; [now apply Hold|].
      apply list_elem_of_singleton in Hin. injection Hin as -> ->.
      right. eexists. apply elem_of_app. right. apply elem_of_app. right.
      now apply list_elem_of_singleton.
Qed.

(** X18: the report of the class based version.  The two totals of
    [show_results] add up to the number of scanned files.  A skipped file
    is shown with its reason whenever the reason is not empty, which is
    always so for a file without heading; the other line, the one that
    says no heading was found, is shown only for a rename that failed with
    an empty message. *)
Theorem show_results_fits (os : os_iface) (add_index : bool) (d : folder)
    (html_files : list file_info) :
  exists st,
    generate_new_filenames os add_index html_files (renamer_init d) = Some st /\
    length (renamed_files st) + length (skipped_files st) = length html_files /\
    forall o r, (o, r) ∈ skipped_files st ->
      (r <> [] ->
       show_line (o, r) = py "- " ++ o ++ py " (Reason: " ++ r ++ py ")" ++ nl) /\
      (r = [] ->
       show_line (o, r) = py "- " ++ o ++ py " (No <h1 class='panel__title'> found)" ++ nl /\
       exists n, RenameError o n [] ∈ log st) /\
      (r = NO_H1 \/ exists n, RenameError o n r ∈ log st).
Proof.
  unfold generate_new_filenames.
  destruct (class_skipped_entries os add_index d (sort_files_by_creation_date html_files))
    as [st [E Hsk]].
  exists st. split; [exact E|]. split.
  - destruct (generate_run_inv os add_index d (sort_files_by_creation_date html_files))
      as [st' [E' (_ & _ & _ & _ & Hp)]].
    rewrite E in E'. injection E' as <-.
    apply Permutation_length in Hp. rewrite length_app, !length_map in Hp.
    rewrite Hp. apply Permutation_length, sorted_by_perm.
  - intros o r Hin. split; [|split].
    + intros Hne. unfold show_line. apply nonempty_true in Hne. now rewrite Hne.
    + intros ->. split; [reflexivity|].
      destruct (Hsk o [] Hin) as [H|H]; [discriminate|exact H].
    + now apply Hsk.
Qed.

(** ** The set of claimed names *)

(** X19: [new_filenames_set] holds exactly the final names that were
    tried in the run: every name a rename was attempted with is claimed,
    whether the rename succeeded or not, and nothing else is; with indexing
    on these are the prefixed names. *)
Theorem claimed_names_are_attempts (os : os_iface) (add_index : bool) (d : folder)
    (html_files : list file_info) :
  exists st,
    generate_new_filenames os add_index html_files (renamer_init d) = Some st /\
    forall n, n ∈ new_filenames_set st <-> n ∈ map snd (attempts (log st)).
Proof.
  unfold generate_new_filenames.
  apply (generate_loop_body_ind os add_index
           (fun _ st => forall n, n ∈ new_filenames_set st <-> n ∈ map snd (attempts (log st)))).
  - intros n. simpl. split; intros H; [now apply not_elem_of_empty in H|now apply elem_of_nil in H].
  - intros done st f st' HP Hb n.
    apply generate_body_attempt in Hb
      as [(Ha & Hs & _)|(t & lg & k & _ & _ & _ & _ & Ha & Hs & _)]; rewrite Ha, Hs; [apply HP|].
    rewrite map_app, elem_of_app, elem_of_union, elem_of_singleton, HP. simpl.
    rewrite list_elem_of_singleton. tauto.
Qed.

(** X20: with indexing on, the claimed names never decide the duplicate
    handling.  After any run, for every heading text and every round k, the
    name tried for its sanitized title is taken exactly when it exists in
    the directory: the set holds prefixed names only, which no candidate
    equals. *)
Theorem indexing_idles_claims (os : os_iface) (d : folder) (html_files : list file_info) :
  exists st,
    generate_new_filenames os true html_files (renamer_init d) = Some st /\
    (forall n, n ∈ new_filenames_set st -> In 32%N n) /\
    forall (s : str) (k : nat),
      taken (new_filenames_set st) (disk st) (candidate os (sanitize s ++ py ".html") k)
      = path_exists (disk st) (candidate os (sanitize s ++ py ".html") k).
Proof.
  unfold generate_new_filenames.
  destruct (generate_run_inv os true d (sort_files_by_creation_date html_files)) as [st [E _]].
  exists st. split; [exact E|].
  pose proof (claimed_names_prefixed os d _ st E) as Hpre.
  split; [exact Hpre|].
  intros s k. unfold taken. rewrite bool_decide_eq_false_2; [reflexivity|].
  intros Hin. apply Hpre in Hin. revert Hin. apply candidate_no_space.
  intros H. apply in_app_or in H as [H|H].
  - now apply sanitize_no_space in H.
  - simpl in H. intuition discriminate.
Qed.

(** X21: with indexing on, the script too never tries the same name
    twice in a run: the names of its attempts are pairwise distinct, since
    each carries its own index. *)
Theorem script_indexed_names_distinct (os : os_iface) (d : folder)
    (html_files : list (list N * Z)) :
  NoDup (map snd (attempts (printed (rename_loop os true html_files (script_init d))))).
Proof.
  unfold rename_loop.
  destruct (rename_run_inv os true d (sorted_by snd html_files)) as (_ & Hpre & _).
  apply NoDup_alt. intros i j n Hi Hj.
  apply list_lookup_fmap_Some in Hi as ([o1 n1] & -> & Hi).
  apply list_lookup_fmap_Some in Hj as ([o2 n2] & Hn & Hj). simpl in Hn. subst n2.
  destruct (Hpre eq_refl i o1 n1 Hi) as [r1 E1].
  destruct (Hpre eq_refl j o2 n1 Hj) as [r2 E2].
  rewrite E1 in E2. apply index_prefix_inj in E2. lia.
Qed.

(** ** Instances *)

Lemma duplicate_handling_finds_first_free_witness :
  resolve_duplicates (posix permissive) ∅ d_hello (py "Hello.html") = Some (py "Hello.html").
Proof.
  apply (proj2 (duplicate_handling_finds_first_free (posix permissive) ∅ d_hello
                  (py "Hello.html"))).
  split; [apply not_elem_of_empty|reflexivity].
Defined.

Lemma targets_are_clean_witness : clean_name (py "Hello_2.html").
Proof.
  destruct (proj1 (targets_are_clean (posix permissive) false d_hello files_hello))
    as (st & E & H & _).
  apply (H (py "b.html")).
  vm_compute in E. injection E as <-.
  apply list_elem_of_In. simpl. auto.
Defined.

Lemma renamed_target_tested_free_witness :
  path_exists d_hello (py "a.html") = true /\ path_exists d_hello (py "Hello.html") = false.
Proof.
  destruct (proj1 (renamed_target_tested_free (posix permissive))
              (renamer_init d_hello) (entry "a.html" 10)) as (st' & E & H).
  vm_compute in E. injection E as <-.
  destruct (H (py "a.html") (py "Hello.html")) as (_ & Ho & Hn & _); [reflexivity|].
  split; [exact Ho|exact Hn].
Defined.

Lemma directory_is_renames_replayed_witness :
  exists st,
    rename_loop_io takes_all (posix (deny "b.html" EACCES)) false
      (map as_tuple files_hello) (script_init d_hello) = inr st /\
    replay (posix (deny "b.html" EACCES)) d_hello (s_renamed_files st) = Some (s_disk st).
Proof.
  apply (proj2 (directory_is_renames_replayed (posix (deny "b.html" EACCES)) false
                  d_hello files_hello) takes_all).
  intros ev. reflexivity.
Defined.

Lemma reported_files_are_collected_witness :
  exists renamed skipped,
    perform_renaming_in ascii_lower (fun _ => inr 1%Z) (posix permissive) false d_intro
      [py "B.html"; py "A.html"; py "x.txt"] = Some (renamed, skipped) /\
    py "A.html" ∈ map fst renamed ++ map fst skipped.
Proof.
  destruct (proj1 (reported_files_are_collected ascii_lower (fun _ => inr 1%Z)
                     (posix permissive) false d_intro
                     [py "B.html"; py "A.html"; py "x.txt"])) as (r & s & E & H).
  exists r, s. split; [exact E|]. apply H. split; [|split].
  - apply list_elem_of_In. simpl. auto.
  - reflexivity.
  - eexists. reflexivity.
Defined.

Lemma sanitize_empty_iff_witness : sanitize (py ":?") = [].
Proof.
  apply (proj2 (sanitize_empty_iff (py ":?"))).
  intros c Hc. simpl in Hc. destruct Hc as [<-|[<-|[]]]; reflexivity.
Defined.

Lemma script_report_fits_witness :
  skipped_line (py "B.html", None)
  = py "- " ++ py "B.html" ++ py " (No <h1 class='panel__title'> found)" ++ nl.
Proof.
  destruct (proj2 (script_report_fits (posix permissive) false d_intro files_intro)
              (py "B.html") None) as [[_ H]|(n & Hn & _)].
  - apply list_elem_of_In. vm_compute. auto.
  - exact H.
  - discriminate.
Defined.

Lemma show_results_fits_witness :
  show_line (py "B.html", NO_H1) = py "- " ++ py "B.html" ++ py " (Reason: " ++ NO_H1 ++ py ")" ++ nl.
Proof.
  destruct (show_results_fits (posix permissive) false d_intro files_intro)
    as (st & E & _ & H).
  vm_compute in E. injection E as <-.
  apply (H (py "B.html") NO_H1).
  - apply list_elem_of_In. simpl. auto.
  - discriminate.
Defined.
